(** * Change detection and tiered escalation: footprints.py, vision_ocr.py,
      vision_router.py

    A shallow embedding of the fingerprint store (a SQLite file with the
    tables [pages], [escalations] and [runs]), of the two OCR clients'
    post-processing and of the router's [check_or_escalate].

    Conventions.
    - Python [str] is [string]; one [ascii] stands for one character, so the
      model covers text whose code points are below 256.
    - Python [float] is the kernel's binary64 [float]; [<] is [PrimFloat.ltb].
    - Python [int] is [Z].
    - A call that may raise returns an [outcome]; the state reached when the
      exception leaves the call is kept, since SQLite writes that were
      committed before the raise stay committed.
    - What lies outside the three files enters as a parameter: the clock
      the store reads, the two digests, [json.dumps], the two detectors (a
      result or an exception for given bytes) and the caller's callback. *)

From Stdlib Require Import ZArith String List Ascii Bool Lia.
From Stdlib Require Import Floats.PrimFloat Numbers.Cyclic.Int63.Uint63.
From stdpp Require Import gmap strings.

Set Warnings "-inexact-float".

Local Open Scope Z_scope.
Local Open Scope string_scope.

(** ** Python values *)

Module Py.

(** [str.isspace] on one character, for code points below 256: TAB..CR,
    FS..US, space, NEL and NBSP. *)
Definition isspace (a : ascii) : bool :=
  let n := N_of_ascii a in
  ((9 <=? n) && (n <=? 13) || (28 <=? n) && (n <=? 32)
   || (n =? 133) || (n =? 160))%N.

Fixpoint lstrip (s : string) : string :=
  match s with
  | EmptyString => EmptyString
  | String a r => if isspace a then lstrip r else s
  end.

Fixpoint rstrip (s : string) : string :=
  match s with
  | EmptyString => EmptyString
  | String a r =>
      match rstrip r with
      | EmptyString => if isspace a then EmptyString else String a EmptyString
      | r' => String a r'
      end
  end.

(** [s.strip()] *)
Definition strip (s : string) : string := rstrip (lstrip s).

(** Truth value of a [str]: non-empty. *)
Definition truthy (s : string) : bool :=
  match s with EmptyString => false | _ => true end.

(** [len(s)] *)
Definition len (s : string) : Z := Z.of_nat (String.length s).

(** Every character is white space (the empty string included). *)
Fixpoint all_space (s : string) : bool :=
  match s with
  | EmptyString => true
  | String a r => isspace a && all_space r
  end.

(** [sep.join(parts)] *)
Fixpoint join (sep : string) (parts : list string) : string :=
  match parts with
  | [] => EmptyString
  | [p] => p
  | p :: ps => p ++ sep ++ join sep ps
  end.

(** [s[:n]] for [n >= 0] *)
Fixpoint take (n : nat) (s : string) : string :=
  match n, s with
  | S k, String a r => String a (take k r)
  | _, _ => EmptyString
  end.

(** [float(n)] for a length; exact below 2^53. *)
Definition float_of_nat (n : nat) : float :=
  PrimFloat.of_uint63 (Uint63.of_Z (Z.of_nat n)).

(** [sum(xs)]: the accumulator starts at the integer 0 and is added to from
    the left in binary64. (CPython 3.12 and later compensate the rounding of
    the partial sums; the fold is that sum up to the rounding.) *)
Definition sum (xs : list float) : float :=
  fold_left PrimFloat.add xs 0%float.

End Py.

(** ** Exceptions and the state-and-exception monad *)

Inductive exn : Type :=
| OperationalError (msg : string)   (* sqlite3: malformed statement *)
| IntegrityError (msg : string)     (* sqlite3: constraint failed *)
| ExternalError (msg : string)      (* raised by a detector or a callback *)
| Interrupt (name : string).        (* KeyboardInterrupt, SystemExit: a
                                       BaseException that is no Exception *)

(** [isinstance(e, Exception)]: what [except Exception] catches. *)
Definition is_exception (e : exn) : bool :=
  match e with
  | Interrupt _ => false
  | _ => true
  end.

Inductive outcome (A : Type) : Type :=
| Ok (a : A)
| Raise (e : exn).
Arguments Ok {A} a.
Arguments Raise {A} e.

Definition M (St A : Type) : Type := St -> outcome A * St.

Definition ret {St A} (a : A) : M St A := fun s => (Ok a, s).

Definition bind {St A B} (m : M St A) (k : A -> M St B) : M St B :=
  fun s =>
    match m s with
    | (Ok a, s') => k a s'
    | (Raise e, s') => (Raise e, s')
    end.

Definition raise {St A} (e : exn) : M St A := fun s => (Raise e, s).

Definition lift {St A} (o : outcome A) : M St A := fun s => (o, s).

Definition gets {St A} (f : St -> A) : M St A := fun s => (Ok (f s), s).

Definition modify {St} (f : St -> St) : M St unit := fun s => (Ok tt, f s).

Declare Scope py_scope.
Delimit Scope py_scope with py.
Notation "x <- m ;; k" := (bind m (fun x => k))
  (at level 100, m at next level, right associativity) : py_scope.
Notation "m ;; k" := (bind m (fun _ => k))
  (at level 100, right associativity) : py_scope.

(** ** The persisted schema (footprints.py, CREATE_PAGES / CREATE_ESCAL /
    CREATE_RUNS) and the process state *)

(** TEXT columns of [pages] other than the key [url]. *)
Inductive tcol : Type :=
| canonical_url | last_model | screenshot_sha | text_sha_paddle
| text_sha_azure | etag | last_modified | notes.

(** INTEGER columns of [pages]. *)
Inductive icol : Type := first_seen | last_seen.

(** One row of [pages]; [None] is SQL NULL. *)
Record row : Type := {
  r_canonical_url : option string;
  r_first_seen : option Z;
  r_last_seen : option Z;
  r_last_model : option string;
  r_screenshot_sha : option string;
  r_text_sha_paddle : option string;
  r_text_sha_azure : option string;
  r_etag : option string;
  r_last_modified : option string;
  r_notes : option string
}.

(** The diagnostic payload the router logs with an escalation:
    [{"conf": o.confidence, "chars": len(o.text)}]. *)
Record info : Type := { conf : float; chars : Z }.

(** One row of [escalations]. *)
Record escalation : Type := {
  e_ts : Z; e_url : string; e_from_model : string; e_to_model : string;
  e_reason : string; e_info : string
}.

(** One row of [runs] without its key [ts]. *)
Record run : Type := {
  run_skipped_nochange : Z; run_used_cheap_ocr : Z;
  run_escalated_to_gemini : Z
}.

(** Calls that leave the process: the two detectors and the caller's
    extraction callback. *)
Inductive call : Type :=
| PaddleRun (image_bytes : list Byte.byte)
| AzureRun (image_bytes : list Byte.byte)
| GeminiCallback.

(** Records sent to [logger]; one constructor per message of
    vision_router.py. *)
Inductive log_record : Type :=
| SKIP_nochange (url : string)
| OK_paddle (url : string) (confidence : float) (nchars : Z)
| OK_azure (url : string) (confidence : float) (nchars : Z)
| EXTRACT_gemini (url : string)
| CHANGED_ocr (url : string)
| NOOP (url : string).

(** The state a call runs in: the three tables, how often the store has
    read the clock, the router's three counters, the external calls made
    and the log. *)
Record world : Type := {
  pages : gmap string row;
  escalations : list escalation;
  runs : gmap Z run;
  clock_reads : nat;
  skipped_nochange : Z;
  used_cheap_ocr : Z;
  escalated_to_gemini : Z;
  calls : list call;
  log : list log_record
}.

Definition with_pages (f : gmap string row -> gmap string row) (w : world) : world :=
  {| pages := f (pages w); escalations := escalations w; runs := runs w;
     clock_reads := clock_reads w; skipped_nochange := skipped_nochange w;
     used_cheap_ocr := used_cheap_ocr w;
     escalated_to_gemini := escalated_to_gemini w;
     calls := calls w; log := log w |}.

Definition with_escalations (f : list escalation -> list escalation) (w : world) : world :=
  {| pages := pages w; escalations := f (escalations w); runs := runs w;
     clock_reads := clock_reads w; skipped_nochange := skipped_nochange w;
     used_cheap_ocr := used_cheap_ocr w;
     escalated_to_gemini := escalated_to_gemini w;
     calls := calls w; log := log w |}.

Definition with_runs (f : gmap Z run -> gmap Z run) (w : world) : world :=
  {| pages := pages w; escalations := escalations w; runs := f (runs w);
     clock_reads := clock_reads w; skipped_nochange := skipped_nochange w;
     used_cheap_ocr := used_cheap_ocr w;
     escalated_to_gemini := escalated_to_gemini w;
     calls := calls w; log := log w |}.

Definition with_clock_reads (f : nat -> nat) (w : world) : world :=
  {| pages := pages w; escalations := escalations w; runs := runs w;
     clock_reads := f (clock_reads w); skipped_nochange := skipped_nochange w;
     used_cheap_ocr := used_cheap_ocr w;
     escalated_to_gemini := escalated_to_gemini w;
     calls := calls w; log := log w |}.

Definition with_skipped_nochange (f : Z -> Z) (w : world) : world :=
  {| pages := pages w; escalations := escalations w; runs := runs w;
     clock_reads := clock_reads w; skipped_nochange := f (skipped_nochange w);
     used_cheap_ocr := used_cheap_ocr w;
     escalated_to_gemini := escalated_to_gemini w;
     calls := calls w; log := log w |}.

Definition with_used_cheap_ocr (f : Z -> Z) (w : world) : world :=
  {| pages := pages w; escalations := escalations w; runs := runs w;
     clock_reads := clock_reads w; skipped_nochange := skipped_nochange w;
     used_cheap_ocr := f (used_cheap_ocr w);
     escalated_to_gemini := escalated_to_gemini w;
     calls := calls w; log := log w |}.

Definition with_escalated_to_gemini (f : Z -> Z) (w : world) : world :=
  {| pages := pages w; escalations := escalations w; runs := runs w;
     clock_reads := clock_reads w; skipped_nochange := skipped_nochange w;
     used_cheap_ocr := used_cheap_ocr w;
     escalated_to_gemini := f (escalated_to_gemini w);
     calls := calls w; log := log w |}.

Definition with_calls (f : list call -> list call) (w : world) : world :=
  {| pages := pages w; escalations := escalations w; runs := runs w;
     clock_reads := clock_reads w; skipped_nochange := skipped_nochange w;
     used_cheap_ocr := used_cheap_ocr w;
     escalated_to_gemini := escalated_to_gemini w;
     calls := f (calls w); log := log w |}.

Definition with_log (f : list log_record -> list log_record) (w : world) : world :=
  {| pages := pages w; escalations := escalations w; runs := runs w;
     clock_reads := clock_reads w; skipped_nochange := skipped_nochange w;
     used_cheap_ocr := used_cheap_ocr w;
     escalated_to_gemini := escalated_to_gemini w;
     calls := calls w; log := f (log w) |}.

(** ** footprints.py *)

Module Footprints.

(** The dataclass [PageFP]. *)
Record PageFP : Type := {
  url : string;
  fp_screenshot_sha : string;
  fp_text_sha_paddle : string;
  fp_text_sha_azure : string;
  fp_last_model : string;
  fp_canonical_url : string;
  fp_etag : string;
  fp_last_modified : string;
  fp_last_seen : Z
}.

(** One keyword argument of [upsert]: a column of [pages] and a value of
    the column's declared type, or Python's [None]. The key column cannot be
    named: [upsert(u, url=...)] is a TypeError at the call. *)
Inductive assignment : Type :=
| SetText (c : tcol) (v : option string)
| SetInt (c : icol) (v : option Z).

Definition get_text (r : row) (c : tcol) : option string :=
  match c with
  | canonical_url => r_canonical_url r
  | last_model => r_last_model r
  | screenshot_sha => r_screenshot_sha r
  | text_sha_paddle => r_text_sha_paddle r
  | text_sha_azure => r_text_sha_azure r
  | etag => r_etag r
  | last_modified => r_last_modified r
  | notes => r_notes r
  end.

Definition get_int (r : row) (c : icol) : option Z :=
  match c with
  | first_seen => r_first_seen r
  | last_seen => r_last_seen r
  end.

Definition set_text (c : tcol) (v : option string) (r : row) : row :=
  {| r_canonical_url := match c with canonical_url => v | _ => r_canonical_url r end;
     r_first_seen := r_first_seen r;
     r_last_seen := r_last_seen r;
     r_last_model := match c with last_model => v | _ => r_last_model r end;
     r_screenshot_sha := match c with screenshot_sha => v | _ => r_screenshot_sha r end;
     r_text_sha_paddle := match c with text_sha_paddle => v | _ => r_text_sha_paddle r end;
     r_text_sha_azure := match c with text_sha_azure => v | _ => r_text_sha_azure r end;
     r_etag := match c with etag => v | _ => r_etag r end;
     r_last_modified := match c with last_modified => v | _ => r_last_modified r end;
     r_notes := match c with notes => v | _ => r_notes r end |}.

Definition set_int (c : icol) (v : option Z) (r : row) : row :=
  {| r_canonical_url := r_canonical_url r;
     r_first_seen := match c with first_seen => v | _ => r_first_seen r end;
     r_last_seen := match c with last_seen => v | _ => r_last_seen r end;
     r_last_model := r_last_model r;
     r_screenshot_sha := r_screenshot_sha r;
     r_text_sha_paddle := r_text_sha_paddle r;
     r_text_sha_azure := r_text_sha_azure r;
     r_etag := r_etag r;
     r_last_modified := r_last_modified r;
     r_notes := r_notes r |}.

Definition assign (r : row) (a : assignment) : row :=
  match a with
  | SetText c v => set_text c v r
  | SetInt c v => set_int c v r
  end.

(** The row an INSERT starts from: every column NULL. *)
Definition null_row : row :=
  {| r_canonical_url := None; r_first_seen := None; r_last_seen := None;
     r_last_model := None; r_screenshot_sha := None;
     r_text_sha_paddle := None; r_text_sha_azure := None; r_etag := None;
     r_last_modified := None; r_notes := None |}.

(** [row[i] or ""] and [row[i] or 0] *)
Definition or_empty (v : option string) : string :=
  match v with Some s => s | None => "" end.

Definition or_zero (v : option Z) : Z :=
  match v with Some z => z | None => 0 end.

(** [v is not None] for the value of a keyword argument. *)
Definition is_supplied (a : assignment) : bool :=
  match a with
  | SetText _ (Some _) | SetInt _ (Some _) => true
  | _ => false
  end.

Definition to_PageFP (u : string) (r : row) : PageFP :=
  {| url := u;
     fp_screenshot_sha := or_empty (r_screenshot_sha r);
     fp_text_sha_paddle := or_empty (r_text_sha_paddle r);
     fp_text_sha_azure := or_empty (r_text_sha_azure r);
     fp_last_model := or_empty (r_last_model r);
     fp_canonical_url := or_empty (r_canonical_url r);
     fp_etag := or_empty (r_etag r);
     fp_last_modified := or_empty (r_last_modified r);
     fp_last_seen := or_zero (r_last_seen r) |}.

Section Store.

(** [clock n] is what [int(time.time())] returns at the store's [n]-th
    reading of the clock. *)
Variable clock : nat -> Z.

(** [json.dumps] on the router's payload. *)
Variable json_dumps : info -> string.

Definition time_now : M world Z :=
  fun w => (Ok (clock (clock_reads w)), with_clock_reads S w).

(** [Footprints.get]: SELECT ... WHERE url=?, one row or None. *)
Definition get (u : string) : M world (option PageFP) :=
  gets (fun w => to_PageFP u <$> (pages w !! u)).

(** [Footprints.upsert]. In the UPDATE the rightmost assignment to a column
    wins and [last_seen=?] comes last; in the INSERT the leftmost mention of
    a column wins and [first_seen], [last_seen] come first. With no keyword
    left after the filter the UPDATE reads [SET , last_seen=?], which SQLite
    rejects. *)
Definition upsert (u : string) (kvs : list assignment) : M world unit :=
  (now <- time_now ;;
   let kvs := List.filter is_supplied kvs in
   existing <- get u ;;
   match existing with
   | Some _ =>
       match kvs with
       | [] => raise (OperationalError "near , : syntax error")
       | _ =>
           modify (with_pages
             (alter (fun r => set_int last_seen (Some now) (fold_left assign kvs r)) u))
       end
   | None =>
       modify (with_pages
         (insert u
            (set_int first_seen (Some now)
               (set_int last_seen (Some now)
                  (fold_right (fun a r => assign r a) null_row kvs)))))
   end)%py.

(** [Footprints.record_escalation]: one more row, the payload cut at 2000
    characters. *)
Definition record_escalation (u from_model to_model reason : string) (i : info)
  : M world unit :=
  (now <- time_now ;;
   modify (with_escalations (fun l =>
     (l ++ [ {| e_ts := now; e_url := u; e_from_model := from_model;
                e_to_model := to_model; e_reason := reason;
                e_info := Py.take 2000 (json_dumps i) |} ])%list)))%py.

(** [Footprints.record_run_summary]: [ts] is the PRIMARY KEY of [runs], so
    the INSERT fails when a row with this [ts] is there already. *)
Definition record_run_summary (skipped used_ocr escalated : Z) : M world unit :=
  (now <- time_now ;;
   present <- gets (fun w => runs w !! now) ;;
   match present with
   | Some _ => raise (IntegrityError "UNIQUE constraint failed: runs.ts")
   | None =>
       modify (with_runs
         (insert now {| run_skipped_nochange := skipped;
                        run_used_cheap_ocr := used_ocr;
                        run_escalated_to_gemini := escalated |}))
   end)%py.

End Store.

End Footprints.

(** ** vision_ocr.py *)

(** The dataclass [OCRText]. Of [extra] the line count is kept; the
    wall-clock latency and the size of the raw response are diagnostics no
    caller reads. *)
Record OCRText : Type := {
  text : string;
  confidence : float;
  model : string;
  extra_lines : nat
}.

Definition newline : string := String (ascii_of_nat 10) EmptyString.

(** [sum(confs)/len(confs)] *)
Definition mean (confs : list float) : float :=
  PrimFloat.div (Py.sum confs) (Py.float_of_nat (length confs)).

Module PaddleClient.

(** One entry of a block as PaddleOCR returns it, [[bbox, (text, score)]]:
    [None] when the entry itself is falsy, [Some None] when its second
    component is, [Some (Some (text, score))] otherwise. *)
Definition line : Type := option (option (string * float)).

(** [result]: a list of blocks, each a list of entries; either may be None. *)
Definition result : Type := option (list (option (list line))).

Definition or_nil {A} (l : option (list A)) : list A :=
  match l with Some l => l | None => [] end.

(** The body of the inner loop on the pair [(lines, confs)]. *)
Definition visit_line (acc : list string * list float) (ln : line)
  : list string * list float :=
  let txt := match ln with Some (Some (t, _)) => t | _ => "" end in
  let score := match ln with Some (Some (_, s)) => s | _ => 0%float end in
  if Py.truthy txt
  then ((fst acc ++ [txt])%list, (snd acc ++ [score])%list)
  else acc.

Definition visit_block (acc : list string * list float) (block : option (list line))
  : list string * list float :=
  fold_left visit_line (or_nil block) acc.

Definition collect (r : result) : list string * list float :=
  fold_left visit_block (or_nil r) ([], []).

(** What [run] builds from the detector's result. *)
Definition build (r : result) : OCRText :=
  let (lines, confs) := collect r in
  let text := Py.strip (Py.join newline lines) in
  let conf := match confs with [] => 0%float | _ => mean confs end in
  {| text := text; confidence := conf; model := "paddle";
     extra_lines := length lines |}.

Section Run.
(** Decoding the image and [self._ocr.ocr(arr, cls=True)]. *)
Variable ocr : list Byte.byte -> outcome result.

Definition run (image_bytes : list Byte.byte) : outcome OCRText :=
  match ocr image_bytes with
  | Ok r => Ok (build r)
  | Raise e => Raise e
  end.
End Run.

End PaddleClient.

Module AzureVisionClient.

(** The part of the service's JSON answer that [run] reads. A missing key,
    a null and an empty list all iterate zero times, so lists stand for all
    three; a word carries a confidence or has no such key. *)
Record line : Type := { ln_text : option string; ln_words : list (option float) }.

Definition block : Type := list line.
Definition data : Type := list block.

(** [[float(w.get("confidence", 1.0)) for w in words if "confidence" in w]] *)
Definition w_confs (words : list (option float)) : list float :=
  omap id words.

Definition visit_line (acc : list string * list float) (ln : line)
  : list string * list float :=
  let txt := Py.strip (match ln_text ln with Some t => t | None => "" end) in
  let lines := if Py.truthy txt then (fst acc ++ [txt])%list else fst acc in
  let wc := w_confs (ln_words ln) in
  let confs := match wc with [] => snd acc | _ => (snd acc ++ wc)%list end in
  (lines, confs).

Definition visit_block (acc : list string * list float) (blk : block)
  : list string * list float :=
  fold_left visit_line blk acc.

Definition collect (d : data) : list string * list float :=
  fold_left visit_block d ([], []).

Definition build (d : data) : OCRText :=
  let (lines, confs) := collect d in
  let text := Py.strip (Py.join newline lines) in
  let conf :=
    match confs with
    | [] => if Py.truthy text then 0.9%float else 0%float
    | _ => mean confs
    end in
  {| text := text; confidence := conf; model := "azure";
     extra_lines := length lines |}.

Section Run.
(** [requests.post], [raise_for_status] and [r.json()]. *)
Variable post : list Byte.byte -> outcome data.

Definition run (image_bytes : list Byte.byte) : outcome OCRText :=
  match post image_bytes with
  | Ok d => Ok (build d)
  | Raise e => Raise e
  end.
End Run.

End AzureVisionClient.

(** ** vision_router.py *)

Module VisionRouter.

(** The dataclass [RouterConfig]. *)
Record RouterConfig : Type := {
  enable_paddle : bool;
  enable_azure : bool;
  enable_gemini : bool;
  order : list string;
  min_chars_for_confidence : Z;
  min_confidence : float
}.

(** [__post_init__]: a missing or empty [order] becomes the default one. *)
Definition __post_init__ (cfg : RouterConfig) : RouterConfig :=
  match order cfg with
  | [] =>
      {| enable_paddle := enable_paddle cfg; enable_azure := enable_azure cfg;
         enable_gemini := enable_gemini cfg;
         order := ["paddle"; "azure"; "gemini"];
         min_chars_for_confidence := min_chars_for_confidence cfg;
         min_confidence := min_confidence cfg |}
  | _ => cfg
  end.

(** [RouterConfig()] with every default. *)
Definition default_config : RouterConfig :=
  __post_init__ {| enable_paddle := true; enable_azure := true;
               enable_gemini := true; order := [];
               min_chars_for_confidence := 300;
               min_confidence := 0.65%float |}.

(** A dict of extracted fields. *)
Definition fields_t : Type := list (string * string).

(** The dict [check_or_escalate] returns. *)
Record decision : Type := {
  status : string;
  changed : bool;
  fields : fields_t
}.

Section Router.

Variable clock : nat -> Z.
Variable json_dumps : info -> string.
(** [text_sha]: SHA-256 of the normalised text; [img_sha]: SHA-1 of the
    bytes. Both enter the router only as functions to digests. *)
Variable text_sha : string -> string.
Variable img_sha : list Byte.byte -> string.
(** The two detectors behind [self.paddle] and [self.azure]. *)
Variable paddle_ocr : list Byte.byte -> outcome PaddleClient.result.
Variable azure_post : list Byte.byte -> outcome AzureVisionClient.data.
Variable cfg : RouterConfig.

Definition _needs_escalation (o : OCRText) (prev_text_sha : string) : bool :=
  if negb (Py.truthy (Py.strip (text o))) then true
  else if Z.ltb (Py.len (text o)) (min_chars_for_confidence cfg) then true
  else if PrimFloat.ltb (confidence o) (min_confidence cfg) then true
  else if Py.truthy prev_text_sha
          && negb (String.eqb (text_sha (text o)) prev_text_sha) then true
  else false.

Definition called (c : call) : M world unit :=
  modify (with_calls (fun l => (l ++ [c])%list)).

Definition logged (r : log_record) : M world unit :=
  modify (with_log (fun l => (l ++ [r])%list)).

(** The body of [if stage == "paddle" and self.cfg.enable_paddle]; [Some d]
    is [return d], [None] falls through to the next statement. *)
Definition paddle_stage (u : string) (screenshot_bytes : list Byte.byte)
    (shot_sha prev_paddle_sha : string) : M world (option decision) :=
  (called (PaddleRun screenshot_bytes) ;;
   o <- lift (PaddleClient.run paddle_ocr screenshot_bytes) ;;
   Footprints.upsert clock u
     [Footprints.SetText screenshot_sha (Some shot_sha);
      Footprints.SetText text_sha_paddle (Some (text_sha (text o)));
      Footprints.SetText last_model (Some "paddle")] ;;
   if negb (_needs_escalation o prev_paddle_sha) then
     modify (with_used_cheap_ocr (Z.add 1)) ;;
     logged (OK_paddle u (confidence o) (Py.len (text o))) ;;
     ret (Some {| status := "paddle"; changed := false; fields := [] |})
   else
     Footprints.record_escalation clock json_dumps u "paddle" "next"
       "low_conf_or_changed"
       {| conf := confidence o; chars := Py.len (text o) |} ;;
     ret None)%py.

Definition azure_stage (u : string) (screenshot_bytes : list Byte.byte)
    (shot_sha prev_azure_sha : string) : M world (option decision) :=
  (called (AzureRun screenshot_bytes) ;;
   o <- lift (AzureVisionClient.run azure_post screenshot_bytes) ;;
   Footprints.upsert clock u
     [Footprints.SetText screenshot_sha (Some shot_sha);
      Footprints.SetText text_sha_azure (Some (text_sha (text o)));
      Footprints.SetText last_model (Some "azure")] ;;
   if negb (_needs_escalation o prev_azure_sha) then
     modify (with_used_cheap_ocr (Z.add 1)) ;;
     logged (OK_azure u (confidence o) (Py.len (text o))) ;;
     ret (Some {| status := "azure"; changed := false; fields := [] |})
   else
     Footprints.record_escalation clock json_dumps u "azure" "next"
       "low_conf_or_changed"
       {| conf := confidence o; chars := Py.len (text o) |} ;;
     ret None)%py.

(** The body of [if stage == "gemini" and self.cfg.enable_gemini]. The
    callback is the caller's closure: the router sees what it returns or
    raises. [on_need_gemini() or {}] turns None and the empty dict into
    the empty dict. *)
Definition gemini_stage (u : string) (shot_sha : string)
    (on_need_gemini : option (unit -> outcome (option fields_t)))
  : M world decision :=
  (modify (with_escalated_to_gemini (Z.add 1)) ;;
   fs <- match on_need_gemini with
         | Some f =>
             called GeminiCallback ;;
             r <- lift (f tt) ;;
             ret (match r with Some d => d | None => [] end)
         | None => ret []
         end ;;
   Footprints.upsert clock u
     [Footprints.SetText screenshot_sha (Some shot_sha);
      Footprints.SetText last_model (Some "gemini")] ;;
   logged (EXTRACT_gemini u) ;;
   ret {| status := "gemini"; changed := true; fields := fs |})%py.

(** One pass through the body of [for stage in self.cfg.order], after
    [last_stage = stage]: the decision returned, if any, and [ocr_used]. *)
Definition stage_body (u : string) (screenshot_bytes : list Byte.byte)
    (shot_sha prev_paddle_sha prev_azure_sha : string)
    (on_need_gemini : option (unit -> outcome (option fields_t)))
    (stage : string) (ocr_used : bool) : M world (option decision * bool) :=
  (r1 <- (if String.eqb stage "paddle" && enable_paddle cfg
          then r <- paddle_stage u screenshot_bytes shot_sha prev_paddle_sha ;;
               ret (r, true)
          else ret (None, ocr_used)) ;;
   match r1 with
   | (Some d, used) => ret (Some d, used)
   | (None, used1) =>
       r2 <- (if String.eqb stage "azure" && enable_azure cfg
              then r <- azure_stage u screenshot_bytes shot_sha prev_azure_sha ;;
                   ret (r, true)
              else ret (None, used1)) ;;
       match r2 with
       | (Some d, used) => ret (Some d, used)
       | (None, used2) =>
           if String.eqb stage "gemini" && enable_gemini cfg
           then d <- gemini_stage u shot_sha on_need_gemini ;;
                ret (Some d, used2)
           else ret (None, used2)
       end
   end)%py.

(** The statements after the loop. *)
Definition exhausted (u : string) (ocr_used : bool) (last_stage : option string)
  : M world decision :=
  (if ocr_used then
     logged (CHANGED_ocr u) ;;
     ret {| status := match last_stage with
                      | Some (String a r) => String a r
                      | _ => "ocr"
                      end;
            changed := true; fields := [] |}
   else
     logged (NOOP u) ;;
     ret {| status := "noop"; changed := true; fields := [] |})%py.

(** The [for] loop with its early returns, then the statements after it. *)
Fixpoint walk (u : string) (screenshot_bytes : list Byte.byte)
    (shot_sha prev_paddle_sha prev_azure_sha : string)
    (on_need_gemini : option (unit -> outcome (option fields_t)))
    (stages : list string) (ocr_used : bool) (last_stage : option string)
  : M world decision :=
  match stages with
  | [] => exhausted u ocr_used last_stage
  | stage :: rest =>
      (r <- stage_body u screenshot_bytes shot_sha prev_paddle_sha
              prev_azure_sha on_need_gemini stage ocr_used ;;
       match r with
       | (Some d, _) => ret d
       | (None, used) =>
           walk u screenshot_bytes shot_sha prev_paddle_sha prev_azure_sha
             on_need_gemini rest used (Some stage)
       end)%py
  end.

Definition check_or_escalate (u : string) (screenshot_bytes : list Byte.byte)
    (previous_fp : option (list (string * string)))
    (on_need_gemini : option (unit -> outcome (option fields_t)))
  : M world decision :=
  (prev <- Footprints.get u ;;
   let prev_paddle_sha :=
     match prev with Some p => Footprints.fp_text_sha_paddle p | None => "" end in
   let prev_azure_sha :=
     match prev with Some p => Footprints.fp_text_sha_azure p | None => "" end in
   let shot_sha := img_sha screenshot_bytes in
   if match prev with
      | Some p => String.eqb (Footprints.fp_screenshot_sha p) shot_sha
      | None => false
      end
   then
     modify (with_skipped_nochange (Z.add 1)) ;;
     Footprints.upsert clock u [Footprints.SetText screenshot_sha (Some shot_sha)] ;;
     logged (SKIP_nochange u) ;;
     ret {| status := "skipped"; changed := false; fields := [] |}
   else
     walk u screenshot_bytes shot_sha prev_paddle_sha prev_azure_sha
       on_need_gemini (order cfg) false None)%py.

(** [summary()] *)
Definition summary : M world (Z * Z * Z) :=
  gets (fun w => (skipped_nochange w, used_cheap_ocr w, escalated_to_gemini w)).

End Router.

End VisionRouter.

(** ** Concrete inputs used to run the model *)

Module Scenario.

(** A store with no rows and a router just constructed. *)
Definition fresh : world :=
  {| pages := ∅; escalations := []; runs := ∅; clock_reads := 0%nat;
     skipped_nochange := 0; used_cheap_ocr := 0; escalated_to_gemini := 0;
     calls := []; log := [] |}.

(** A clock that stays within one second, and one that advances. *)
Definition frozen_clock (n : nat) : Z := 1700000000.
Definition ticking_clock (n : nat) : Z := 1700000000 + Z.of_nat n.

Definition json_dumps (i : info) : string := "{}".

(** Stand-ins for the digests: injective, which is all a digest is used for. *)
Definition text_sha (s : string) : string := "sha256:" ++ s.
Definition img_sha (b : list Byte.byte) : string :=
  "sha1:" ++ string_of_list_ascii (map ascii_of_byte b).

Definition shot1 : list Byte.byte := [Byte.x41].
Definition shot2 : list Byte.byte := [Byte.x42].

(** Thresholds scaled down to short texts; the confidence threshold is the
    default 0.65. *)
Definition small_config (p a g : bool) : VisionRouter.RouterConfig :=
  {| VisionRouter.enable_paddle := p; VisionRouter.enable_azure := a;
     VisionRouter.enable_gemini := g;
     VisionRouter.order := ["paddle"; "azure"; "gemini"];
     VisionRouter.min_chars_for_confidence := 5;
     VisionRouter.min_confidence := 0.65%float |}.

(** A local detector that reads one line with confidence 0.3 (scenario C),
    and one that reads it with confidence 0.9. *)
Definition paddle_low (b : list Byte.byte) : outcome PaddleClient.result :=
  Ok (Some [Some [Some (Some ("head coach", 0.3%float))]]).
Definition paddle_good (b : list Byte.byte) : outcome PaddleClient.result :=
  Ok (Some [Some [Some (Some ("head coach", 0.9%float))]]).

(** A cloud service that answers with one line and no word confidences, one
    that answers with a blank line whose word carries a confidence, and one
    that is down. *)
Definition azure_no_words (b : list Byte.byte) : outcome AzureVisionClient.data :=
  Ok [[ {| AzureVisionClient.ln_text := Some "head coach";
           AzureVisionClient.ln_words := [] |} ]].
Definition azure_blank_line (b : list Byte.byte) : outcome AzureVisionClient.data :=
  Ok [[ {| AzureVisionClient.ln_text := Some " ";
           AzureVisionClient.ln_words := [Some 0.5%float] |} ]].
Definition azure_down (b : list Byte.byte) : outcome AzureVisionClient.data :=
  Raise (ExternalError "503").

(** A callback that fails and one that extracts a field. *)
Definition gemini_fails (_ : unit) : outcome (option VisionRouter.fields_t) :=
  Raise (ExternalError "agent failed").
Definition gemini_extracts (_ : unit) : outcome (option VisionRouter.fields_t) :=
  Ok (Some [("job_title", "Head Coach")]).

End Scenario.

(** * Properties *)

(** ** Python strings *)

Lemma lstrip_all_space (s : string) :
  Py.all_space s = true -> Py.lstrip s = EmptyString.
Proof.
  induction s as [|a r IH]; simpl; [reflexivity|].
  destruct (Py.isspace a); simpl; [exact IH | discriminate].
Qed.

Lemma lstrip_not_all_space (s : string) :
  Py.all_space s = false ->
  exists a r, Py.lstrip s = String a r /\ Py.isspace a = false.
Proof.
  induction s as [|a r IH]; simpl; [discriminate|].
  destruct (Py.isspace a) eqn:Ha; simpl.
  - exact IH.
  - intros _. exists a, r. split; [reflexivity | exact Ha].
Qed.

Lemma rstrip_keeps_head (a : ascii) (r : string) :
  Py.isspace a = false -> Py.truthy (Py.rstrip (String a r)) = true.
Proof.
  intros Ha. simpl. destruct (Py.rstrip r); [rewrite Ha|]; reflexivity.
Qed.

(** [s.strip()] is falsy exactly when [s] is empty or all white space. *)
Lemma strip_truthy (s : string) :
  Py.truthy (Py.strip s) = negb (Py.all_space s).
Proof.
  unfold Py.strip. destruct (Py.all_space s) eqn:Hs.
  - rewrite (lstrip_all_space s Hs). reflexivity.
  - destruct (lstrip_not_all_space s Hs) as (a & r & -> & Ha).
    apply rstrip_keeps_head, Ha.
Qed.

Lemma truthy_true (s : string) : Py.truthy s = true <-> s <> EmptyString.
Proof. destruct s; simpl; split; congruence. Qed.

(** ** The escalation predicate *)

Section Predicate.

Variable text_sha : string -> string.
Variable cfg : VisionRouter.RouterConfig.

Lemma needs_escalation_iff (o : OCRText) (prev : string) :
  VisionRouter._needs_escalation text_sha cfg o prev = true <->
    Py.all_space (text o) = true
    \/ Py.len (text o) < VisionRouter.min_chars_for_confidence cfg
    \/ PrimFloat.ltb (confidence o) (VisionRouter.min_confidence cfg) = true
    \/ (prev <> EmptyString /\ text_sha (text o) <> prev).
Proof.
  unfold VisionRouter._needs_escalation. rewrite strip_truthy, negb_involutive.
  destruct (Py.all_space (text o)); [tauto|].
  destruct (Z.ltb_spec (Py.len (text o)) (VisionRouter.min_chars_for_confidence cfg));
    [tauto|].
  destruct (PrimFloat.ltb (confidence o) (VisionRouter.min_confidence cfg)); [tauto|].
  destruct (String.eqb_spec (text_sha (text o)) prev) as [E|E];
    destruct (Py.truthy prev) eqn:Hp; simpl;
    try (apply truthy_true in Hp);
    try (assert (prev = EmptyString) by (destruct prev; [reflexivity|discriminate]));
    split; intros H'; try discriminate; try tauto;
    try (destruct H' as [?|[?|[?|[? ?]]]]; try discriminate; try lia; congruence).
Qed.

End Predicate.

(** ** The store *)

(** The [pages] table after a successful [upsert] at time [now]. *)
Definition upserted (now : Z) (u : string) (kvs : list Footprints.assignment)
    (pg : gmap string row) : gmap string row :=
  let kvs := List.filter Footprints.is_supplied kvs in
  match pg !! u with
  | Some _ =>
      alter (fun r => Footprints.set_int last_seen (Some now)
                        (fold_left Footprints.assign kvs r)) u pg
  | None =>
      insert u
        (Footprints.set_int first_seen (Some now)
           (Footprints.set_int last_seen (Some now)
              (fold_right (fun a r => Footprints.assign r a) Footprints.null_row kvs)))
        pg
  end.

(** What a caller of [get] would read in a TEXT column of the row of [u]:
    nothing when there is no row or the column is NULL. *)
Definition stored_text (pg : gmap string row) (u : string) (c : tcol) : option string :=
  pg !! u ≫= fun r => Footprints.get_text r c.

Definition stored_int (pg : gmap string row) (u : string) (c : icol) : option Z :=
  pg !! u ≫= fun r => Footprints.get_int r c.

(** A keyword list that names the TEXT column [c] with a value. *)
Definition supplies_text (c : tcol) (kvs : list Footprints.assignment) : Prop :=
  exists v, In (Footprints.SetText c (Some v)) kvs.

Definition supplies_int (c : icol) (kvs : list Footprints.assignment) : Prop :=
  exists v, In (Footprints.SetInt c (Some v)) kvs.

Section StoreFacts.

Variable clock : nat -> Z.

(** The state after a successful [upsert]: one more clock reading, and the
    table rewritten with that reading as the time. *)
Definition after_upsert (u : string) (kvs : list Footprints.assignment) (w : world) : world :=
  with_pages (fun pg => upserted (clock (clock_reads w)) u kvs pg)
    (with_clock_reads S w).

Lemma upsert_run (u : string) (kvs : list Footprints.assignment) (w : world) :
  Footprints.upsert clock u kvs w =
    match pages w !! u, List.filter Footprints.is_supplied kvs with
    | Some _, [] =>
        (Raise (OperationalError "near , : syntax error"), with_clock_reads S w)
    | _, _ => (Ok tt, after_upsert u kvs w)
    end.
Proof.
  unfold Footprints.upsert, bind, Footprints.time_now, Footprints.get, gets,
    after_upsert, upserted, modify, raise, with_pages, with_clock_reads.
  simpl. destruct (pages w !! u) as [r|] eqn:E; simpl;
    [destruct (List.filter Footprints.is_supplied kvs)|]; reflexivity.
Qed.

Lemma upsert_ok (u : string) (kvs : list Footprints.assignment) (w : world) :
  List.filter Footprints.is_supplied kvs <> [] ->
  Footprints.upsert clock u kvs w = (Ok tt, after_upsert u kvs w).
Proof.
  intros H. rewrite upsert_run.
  destruct (pages w !! u); [|reflexivity].
  destruct (List.filter Footprints.is_supplied kvs); [congruence | reflexivity].
Qed.

(** A failed [upsert] writes nothing. *)
Lemma upsert_raise_pages (u : string) (kvs : list Footprints.assignment) (w : world) (e : exn) :
  fst (Footprints.upsert clock u kvs w) = Raise e ->
  pages (snd (Footprints.upsert clock u kvs w)) = pages w.
Proof.
  rewrite upsert_run.
  destruct (pages w !! u); [destruct (List.filter Footprints.is_supplied kvs)|];
    simpl; intros H; try discriminate; reflexivity.
Qed.

End StoreFacts.

(** *** Assignments leave the other columns alone *)

Lemma set_text_other (c c' : tcol) (v : option string) (r : row) :
  c <> c' -> Footprints.get_text (Footprints.set_text c v r) c' = Footprints.get_text r c'.
Proof. destruct c, c'; simpl; congruence. Qed.

Lemma set_text_same (c : tcol) (v : option string) (r : row) :
  Footprints.get_text (Footprints.set_text c v r) c = v.
Proof. destruct c; reflexivity. Qed.

Lemma set_int_text (c : icol) (v : option Z) (r : row) (c' : tcol) :
  Footprints.get_text (Footprints.set_int c v r) c' = Footprints.get_text r c'.
Proof. destruct c'; reflexivity. Qed.

Lemma set_text_int (c : tcol) (v : option string) (r : row) (c' : icol) :
  Footprints.get_int (Footprints.set_text c v r) c' = Footprints.get_int r c'.
Proof. destruct c'; reflexivity. Qed.

Lemma set_int_other (c c' : icol) (v : option Z) (r : row) :
  c <> c' -> Footprints.get_int (Footprints.set_int c v r) c' = Footprints.get_int r c'.
Proof. destruct c, c'; simpl; congruence. Qed.

Lemma set_int_same (c : icol) (v : option Z) (r : row) :
  Footprints.get_int (Footprints.set_int c v r) c = v.
Proof. destruct c; reflexivity. Qed.

Lemma supplied_in_filter (a : Footprints.assignment) (kvs : list Footprints.assignment) :
  In a (List.filter Footprints.is_supplied kvs) ->
  In a kvs /\ Footprints.is_supplied a = true.
Proof. intros H. apply List.filter_In in H. exact H. Qed.

Lemma assign_text_frame (c : tcol) (a : Footprints.assignment) (r : row) :
  Footprints.is_supplied a = true ->
  (forall v, a <> Footprints.SetText c (Some v)) ->
  Footprints.get_text (Footprints.assign r a) c = Footprints.get_text r c.
Proof.
  intros Hs Hne. destruct a as [c' [v|]|c' v]; simpl in *; try discriminate.
  - apply set_text_other. intros ->. exact (Hne v eq_refl).
  - apply set_int_text.
Qed.

Lemma assign_int_frame (c : icol) (a : Footprints.assignment) (r : row) :
  Footprints.is_supplied a = true ->
  (forall v, a <> Footprints.SetInt c (Some v)) ->
  Footprints.get_int (Footprints.assign r a) c = Footprints.get_int r c.
Proof.
  intros Hs Hne. destruct a as [c' v|c' [v|]]; simpl in *; try discriminate.
  - apply set_text_int.
  - apply set_int_other. intros ->. exact (Hne v eq_refl).
Qed.

Lemma fold_left_assign_text (c : tcol) (kvs : list Footprints.assignment) (r : row) :
  (forall a, In a kvs -> Footprints.is_supplied a = true) ->
  (forall v, ~ In (Footprints.SetText c (Some v)) kvs) ->
  Footprints.get_text (fold_left Footprints.assign kvs r) c = Footprints.get_text r c.
Proof.
  revert r. induction kvs as [|a l IH]; intros r Hs Hn; simpl; [reflexivity|].
  rewrite IH.
  - apply assign_text_frame; [apply Hs; left; reflexivity|].
    intros v ->. apply (Hn v). left. reflexivity.
  - intros b Hb. apply Hs. right. exact Hb.
  - intros v Hv. apply (Hn v). right. exact Hv.
Qed.

Lemma fold_left_assign_int (c : icol) (kvs : list Footprints.assignment) (r : row) :
  (forall a, In a kvs -> Footprints.is_supplied a = true) ->
  (forall v, ~ In (Footprints.SetInt c (Some v)) kvs) ->
  Footprints.get_int (fold_left Footprints.assign kvs r) c = Footprints.get_int r c.
Proof.
  revert r. induction kvs as [|a l IH]; intros r Hs Hn; simpl; [reflexivity|].
  rewrite IH.
  - apply assign_int_frame; [apply Hs; left; reflexivity|].
    intros v ->. apply (Hn v). left. reflexivity.
  - intros b Hb. apply Hs. right. exact Hb.
  - intros v Hv. apply (Hn v). right. exact Hv.
Qed.

Lemma fold_right_assign_text (c : tcol) (kvs : list Footprints.assignment) (r : row) :
  (forall a, In a kvs -> Footprints.is_supplied a = true) ->
  (forall v, ~ In (Footprints.SetText c (Some v)) kvs) ->
  Footprints.get_text (fold_right (fun a r => Footprints.assign r a) r kvs) c
  = Footprints.get_text r c.
Proof.
  induction kvs as [|a l IH]; intros Hs Hn; simpl; [reflexivity|].
  rewrite assign_text_frame.
  - apply IH.
    + intros b Hb. apply Hs. right. exact Hb.
    + intros v Hv. apply (Hn v). right. exact Hv.
  - apply Hs. left. reflexivity.
  - intros v ->. apply (Hn v). left. reflexivity.
Qed.

Lemma filter_supplied (kvs : list Footprints.assignment) (a : Footprints.assignment) :
  In a (List.filter Footprints.is_supplied kvs) -> Footprints.is_supplied a = true.
Proof. intros H. apply (supplied_in_filter a kvs H). Qed.

Lemma filter_keeps_unsupplied_text (c : tcol) (kvs : list Footprints.assignment) :
  ~ supplies_text c kvs ->
  forall v, ~ In (Footprints.SetText c (Some v)) (List.filter Footprints.is_supplied kvs).
Proof.
  intros H v Hin. apply H. exists v. apply (supplied_in_filter _ kvs Hin).
Qed.

Lemma filter_keeps_unsupplied_int (c : icol) (kvs : list Footprints.assignment) :
  ~ supplies_int c kvs ->
  forall v, ~ In (Footprints.SetInt c (Some v)) (List.filter Footprints.is_supplied kvs).
Proof.
  intros H v Hin. apply H. exists v. apply (supplied_in_filter _ kvs Hin).
Qed.

(** *** The table after an [upsert] *)

Lemma upserted_other (now : Z) (u u' : string) (kvs : list Footprints.assignment)
    (pg : gmap string row) :
  u' <> u -> upserted now u kvs pg !! u' = pg !! u'.
Proof.
  intros Hne. unfold upserted. destruct (pg !! u).
  - apply lookup_alter_ne. congruence.
  - apply lookup_insert_ne. congruence.
Qed.

Lemma upserted_existing (now : Z) (u : string) (kvs : list Footprints.assignment)
    (pg : gmap string row) (r : row) :
  pg !! u = Some r ->
  upserted now u kvs pg !! u =
    Some (Footprints.set_int last_seen (Some now)
            (fold_left Footprints.assign (List.filter Footprints.is_supplied kvs) r)).
Proof.
  intros H. unfold upserted. rewrite H, lookup_alter_eq, H. reflexivity.
Qed.

Lemma upserted_fresh (now : Z) (u : string) (kvs : list Footprints.assignment)
    (pg : gmap string row) :
  pg !! u = None ->
  upserted now u kvs pg !! u =
    Some (Footprints.set_int first_seen (Some now)
            (Footprints.set_int last_seen (Some now)
               (fold_right (fun a r => Footprints.assign r a) Footprints.null_row
                  (List.filter Footprints.is_supplied kvs)))).
Proof.
  intros H. unfold upserted. rewrite H. apply lookup_insert_eq.
Qed.

(** A TEXT column the call does not supply reads the same before and
    after, for the row written and for every other row; a row inserted has
    NULL there. *)
Lemma upserted_text_frame (now : Z) (u u' : string) (kvs : list Footprints.assignment)
    (pg : gmap string row) (c : tcol) :
  ~ supplies_text c kvs ->
  stored_text (upserted now u kvs pg) u' c = stored_text pg u' c.
Proof.
  intros Hc. unfold stored_text.
  destruct (String.eqb_spec u' u) as [->|Hne].
  - destruct (pg !! u) as [r|] eqn:E.
    + rewrite (upserted_existing now u kvs pg r E). simpl.
      rewrite set_int_text. apply fold_left_assign_text.
      * apply filter_supplied.
      * apply filter_keeps_unsupplied_text, Hc.
    + rewrite (upserted_fresh now u kvs pg E). simpl.
      rewrite !set_int_text, fold_right_assign_text.
      * destruct c; reflexivity.
      * apply filter_supplied.
      * apply filter_keeps_unsupplied_text, Hc.
  - rewrite upserted_other by exact Hne. reflexivity.
Qed.

(** ** The router, stage by stage *)

Section RouterFacts.

Variable clock : nat -> Z.
Variable json_dumps : info -> string.
Variable text_sha : string -> string.
Variable img_sha : list Byte.byte -> string.
Variable paddle_ocr : list Byte.byte -> outcome PaddleClient.result.
Variable azure_post : list Byte.byte -> outcome AzureVisionClient.data.
Variable cfg : VisionRouter.RouterConfig.

Local Abbreviation needs := (VisionRouter._needs_escalation text_sha cfg).

(** The state after [record_escalation]. *)
Definition after_escalation (u from_model : string) (o : OCRText) (w : world) : world :=
  with_escalations (fun l =>
    (l ++ [ {| e_ts := clock (clock_reads w); e_url := u;
               e_from_model := from_model; e_to_model := "next";
               e_reason := "low_conf_or_changed";
               e_info := Py.take 2000
                 (json_dumps {| conf := confidence o; chars := Py.len (text o) |}) |} ])%list)
    (with_clock_reads S w).

Definition paddle_kvs (shot_sha : string) (o : OCRText) : list Footprints.assignment :=
  [Footprints.SetText screenshot_sha (Some shot_sha);
   Footprints.SetText text_sha_paddle (Some (text_sha (text o)));
   Footprints.SetText last_model (Some "paddle")].

Definition azure_kvs (shot_sha : string) (o : OCRText) : list Footprints.assignment :=
  [Footprints.SetText screenshot_sha (Some shot_sha);
   Footprints.SetText text_sha_azure (Some (text_sha (text o)));
   Footprints.SetText last_model (Some "azure")].

Definition gemini_kvs (shot_sha : string) : list Footprints.assignment :=
  [Footprints.SetText screenshot_sha (Some shot_sha);
   Footprints.SetText last_model (Some "gemini")].

Definition noted (c : call) (w : world) : world :=
  with_calls (fun l => (l ++ [c])%list) w.

Definition wrote (r : log_record) (w : world) : world :=
  with_log (fun l => (l ++ [r])%list) w.

Lemma paddle_stage_run (u : string) (shot : list Byte.byte) (sha prev : string) (w : world) :
  VisionRouter.paddle_stage clock json_dumps text_sha paddle_ocr cfg u shot sha prev w =
    match paddle_ocr shot with
    | Raise e => (Raise e, noted (PaddleRun shot) w)
    | Ok r =>
        let o := PaddleClient.build r in
        let w1 := after_upsert clock u (paddle_kvs sha o) (noted (PaddleRun shot) w) in
        if needs o prev
        then (Ok None, after_escalation u "paddle" o w1)
        else (Ok (Some {| VisionRouter.status := "paddle";
                          VisionRouter.changed := false;
                          VisionRouter.fields := [] |}),
              wrote (OK_paddle u (confidence o) (Py.len (text o)))
                (with_used_cheap_ocr (Z.add 1) w1))
    end.
Proof.
  unfold VisionRouter.paddle_stage, VisionRouter.called, VisionRouter.logged,
    PaddleClient.run.
  cbv [bind lift modify ret].
  destruct (paddle_ocr shot) as [r|e]; [|reflexivity].
  fold (noted (PaddleRun shot) w).
  rewrite upsert_ok by (simpl; discriminate).
  fold (paddle_kvs sha (PaddleClient.build r)).
  destruct (needs (PaddleClient.build r) prev); reflexivity.
Qed.

Lemma azure_stage_run (u : string) (shot : list Byte.byte) (sha prev : string) (w : world) :
  VisionRouter.azure_stage clock json_dumps text_sha azure_post cfg u shot sha prev w =
    match azure_post shot with
    | Raise e => (Raise e, noted (AzureRun shot) w)
    | Ok d =>
        let o := AzureVisionClient.build d in
        let w1 := after_upsert clock u (azure_kvs sha o) (noted (AzureRun shot) w) in
        if needs o prev
        then (Ok None, after_escalation u "azure" o w1)
        else (Ok (Some {| VisionRouter.status := "azure";
                          VisionRouter.changed := false;
                          VisionRouter.fields := [] |}),
              wrote (OK_azure u (confidence o) (Py.len (text o)))
                (with_used_cheap_ocr (Z.add 1) w1))
    end.
Proof.
  unfold VisionRouter.azure_stage, VisionRouter.called, VisionRouter.logged,
    AzureVisionClient.run.
  cbv [bind lift modify ret].
  destruct (azure_post shot) as [d|e]; [|reflexivity].
  fold (noted (AzureRun shot) w).
  rewrite upsert_ok by (simpl; discriminate).
  fold (azure_kvs sha (AzureVisionClient.build d)).
  destruct (needs (AzureVisionClient.build d) prev); reflexivity.
Qed.

(** What [on_need_gemini() or {}] evaluates to, when it returns. *)
Definition or_empty_dict (r : option VisionRouter.fields_t) : VisionRouter.fields_t :=
  match r with Some d => d | None => [] end.

Lemma gemini_stage_run (u sha : string)
    (cb : option (unit -> outcome (option VisionRouter.fields_t))) (w : world) :
  VisionRouter.gemini_stage clock u sha cb w =
    let w1 := with_escalated_to_gemini (Z.add 1) w in
    let done (fs : VisionRouter.fields_t) (w2 : world) :=
      (Ok {| VisionRouter.status := "gemini"; VisionRouter.changed := true;
             VisionRouter.fields := fs |},
       wrote (EXTRACT_gemini u) (after_upsert clock u (gemini_kvs sha) w2)) in
    match cb with
    | None => done [] w1
    | Some f =>
        match f tt with
        | Raise e => (Raise e, noted GeminiCallback w1)
        | Ok r => done (or_empty_dict r) (noted GeminiCallback w1)
        end
    end.
Proof.
  unfold VisionRouter.gemini_stage, VisionRouter.called, VisionRouter.logged.
  cbv [bind lift modify ret].
  destruct cb as [f|].
  - destruct (f tt) as [r|e]; [|reflexivity].
    rewrite upsert_ok by (simpl; discriminate). reflexivity.
  - rewrite upsert_ok by (simpl; discriminate). reflexivity.
Qed.

(** Which of the three [if]s of the loop body a stage name enters. *)
Definition runs_paddle (stage : string) : bool :=
  String.eqb stage "paddle" && VisionRouter.enable_paddle cfg.
Definition runs_azure (stage : string) : bool :=
  String.eqb stage "azure" && VisionRouter.enable_azure cfg.
Definition runs_gemini (stage : string) : bool :=
  String.eqb stage "gemini" && VisionRouter.enable_gemini cfg.

Definition tagged {A B} (f : A -> B) (r : outcome A * world) : outcome B * world :=
  match r with
  | (Ok a, w) => (Ok (f a), w)
  | (Raise e, w) => (Raise e, w)
  end.

(** The three [if]s of the loop body exclude each other, so the body is a
    four-way choice. *)
Lemma stage_body_run (u : string) (shot : list Byte.byte)
    (sha prev_p prev_a : string)
    (cb : option (unit -> outcome (option VisionRouter.fields_t)))
    (stage : string) (used : bool) (w : world) :
  VisionRouter.stage_body clock json_dumps text_sha paddle_ocr azure_post cfg
    u shot sha prev_p prev_a cb stage used w =
    if runs_paddle stage then
      tagged (fun r => (r, true))
        (VisionRouter.paddle_stage clock json_dumps text_sha paddle_ocr cfg
           u shot sha prev_p w)
    else if runs_azure stage then
      tagged (fun r => (r, true))
        (VisionRouter.azure_stage clock json_dumps text_sha azure_post cfg
           u shot sha prev_a w)
    else if runs_gemini stage then
      tagged (fun d => (Some d, used)) (VisionRouter.gemini_stage clock u sha cb w)
    else (Ok (None, used), w).
Proof.
  unfold VisionRouter.stage_body, runs_paddle, runs_azure, runs_gemini, tagged.
  cbv [bind ret].
  destruct (String.eqb_spec stage "paddle") as [->|Hp]; simpl.
  - destruct (VisionRouter.enable_paddle cfg); simpl; [|reflexivity].
    destruct (VisionRouter.paddle_stage _ _ _ _ _ _ _ _ _ w) as [[[d|]|e] w'];
      reflexivity.
  - destruct (String.eqb_spec stage "azure") as [->|Ha]; simpl.
    + destruct (VisionRouter.enable_azure cfg); simpl; [|reflexivity].
      destruct (VisionRouter.azure_stage _ _ _ _ _ _ _ _ _ w) as [[[d|]|e] w'];
        reflexivity.
    + destruct (String.eqb stage "gemini" && VisionRouter.enable_gemini cfg);
        [|reflexivity].
      destruct (VisionRouter.gemini_stage _ _ _ _ w) as [[d|e] w']; reflexivity.
Qed.

Definition skipped_decision : VisionRouter.decision :=
  {| VisionRouter.status := "skipped"; VisionRouter.changed := false;
     VisionRouter.fields := [] |}.

(** The state the fast path leaves. *)
Definition after_skip (u : string) (shot : list Byte.byte) (w : world) : world :=
  wrote (SKIP_nochange u)
    (after_upsert clock u [Footprints.SetText screenshot_sha (Some (img_sha shot))]
       (with_skipped_nochange (Z.add 1) w)).

Lemma check_or_escalate_run (u : string) (shot : list Byte.byte)
    (pfp : option (list (string * string)))
    (cb : option (unit -> outcome (option VisionRouter.fields_t))) (w : world) :
  VisionRouter.check_or_escalate clock json_dumps text_sha img_sha paddle_ocr
    azure_post cfg u shot pfp cb w =
    match pages w !! u with
    | Some r =>
        if String.eqb (Footprints.or_empty (r_screenshot_sha r)) (img_sha shot)
        then (Ok skipped_decision, after_skip u shot w)
        else VisionRouter.walk clock json_dumps text_sha paddle_ocr azure_post cfg
               u shot (img_sha shot)
               (Footprints.or_empty (r_text_sha_paddle r))
               (Footprints.or_empty (r_text_sha_azure r))
               cb (VisionRouter.order cfg) false None w
    | None =>
        VisionRouter.walk clock json_dumps text_sha paddle_ocr azure_post cfg
          u shot (img_sha shot) "" "" cb (VisionRouter.order cfg) false None w
    end.
Proof.
  unfold VisionRouter.check_or_escalate, Footprints.get, VisionRouter.logged.
  cbv [bind gets modify ret].
  destruct (pages w !! u) as [r|]; simpl; [|reflexivity].
  destruct (String.eqb (Footprints.or_empty (r_screenshot_sha r)) (img_sha shot));
    [|reflexivity].
  rewrite upsert_ok by (simpl; discriminate). reflexivity.
Qed.

(** *** A rule for facts that hold whatever the outcome *)

Section Invariant.

Variable u : string.
Variable shot : list Byte.byte.
Variable cb : option (unit -> outcome (option VisionRouter.fields_t)).
Variable R : world -> world -> Prop.

Hypothesis R_refl : forall w, R w w.
Hypothesis R_trans : forall a b c, R a b -> R b c -> R a c.
Hypothesis R_paddle :
  VisionRouter.enable_paddle cfg = true ->
  forall sha prev w,
    R w (snd (VisionRouter.paddle_stage clock json_dumps text_sha paddle_ocr cfg
                u shot sha prev w)).
Hypothesis R_azure :
  VisionRouter.enable_azure cfg = true ->
  forall sha prev w,
    R w (snd (VisionRouter.azure_stage clock json_dumps text_sha azure_post cfg
                u shot sha prev w)).
Hypothesis R_gemini :
  VisionRouter.enable_gemini cfg = true ->
  forall sha w, R w (snd (VisionRouter.gemini_stage clock u sha cb w)).
Hypothesis R_log : forall r w, R w (wrote r w).
Hypothesis R_skip : forall w, R w (after_skip u shot w).

Lemma snd_tagged {A B} (f : A -> B) (r : outcome A * world) :
  snd (tagged f r) = snd r.
Proof. destruct r as [[a|e] w]; reflexivity. Qed.

Lemma stage_body_invariant (sha prev_p prev_a stage : string) (used : bool) (w : world) :
  R w (snd (VisionRouter.stage_body clock json_dumps text_sha paddle_ocr azure_post
              cfg u shot sha prev_p prev_a cb stage used w)).
Proof.
  rewrite stage_body_run. unfold runs_paddle, runs_azure, runs_gemini.
  destruct (String.eqb stage "paddle"); simpl.
  - destruct (VisionRouter.enable_paddle cfg) eqn:E; simpl.
    + rewrite snd_tagged. apply R_paddle. reflexivity.
    + destruct (String.eqb stage "azure" && VisionRouter.enable_azure cfg) eqn:Ea.
      * apply andb_prop in Ea as [_ Ea]. rewrite snd_tagged. apply R_azure, Ea.
      * destruct (String.eqb stage "gemini" && VisionRouter.enable_gemini cfg) eqn:Eg.
        -- apply andb_prop in Eg as [_ Eg]. rewrite snd_tagged. apply R_gemini, Eg.
        -- apply R_refl.
  - destruct (String.eqb stage "azure" && VisionRouter.enable_azure cfg) eqn:Ea.
    + apply andb_prop in Ea as [_ Ea]. rewrite snd_tagged. apply R_azure, Ea.
    + destruct (String.eqb stage "gemini" && VisionRouter.enable_gemini cfg) eqn:Eg.
      * apply andb_prop in Eg as [_ Eg]. rewrite snd_tagged. apply R_gemini, Eg.
      * apply R_refl.
Qed.

Lemma walk_invariant (sha prev_p prev_a : string) (stages : list string) :
  forall (used : bool) (last_stage : option string) (w : world),
    R w (snd (VisionRouter.walk clock json_dumps text_sha paddle_ocr azure_post
                cfg u shot sha prev_p prev_a cb stages used last_stage w)).
Proof.
  induction stages as [|stage rest IH]; intros used last_stage w; simpl.
  - unfold VisionRouter.exhausted, VisionRouter.logged. cbv [bind modify ret].
    destruct used; apply R_log.
  - cbv [bind ret].
    pose proof (stage_body_invariant sha prev_p prev_a stage used w) as Hb.
    destruct (VisionRouter.stage_body _ _ _ _ _ _ _ _ _ _ _ _ _ _ w)
      as [[[[d|] used']|e] w']; simpl in *; try exact Hb.
    eapply R_trans; [exact Hb | apply IH].
Qed.

Lemma check_or_escalate_invariant (pfp : option (list (string * string))) (w : world) :
  R w (snd (VisionRouter.check_or_escalate clock json_dumps text_sha img_sha
              paddle_ocr azure_post cfg u shot pfp cb w)).
Proof.
  rewrite check_or_escalate_run.
  destruct (pages w !! u) as [r|]; [|apply walk_invariant].
  destruct (String.eqb _ _); [apply R_skip | apply walk_invariant].
Qed.

End Invariant.

(** *** What a call that returns has done *)

(** The three counters, as [summary()] reports them. *)
Definition tally (w : world) : Z * Z * Z :=
  (skipped_nochange w, used_cheap_ocr w, escalated_to_gemini w).

(** [last_stage or "ocr"] *)
Definition status_of (last_stage : option string) : string :=
  match last_stage with
  | Some (String a r) => String a r
  | _ => "ocr"
  end.

(** The value of [last_stage] when the loop over [stages] has run to its end. *)
Fixpoint last_stage_after (stages : list string) (last_stage : option string)
  : option string :=
  match stages with
  | [] => last_stage
  | stage :: rest => last_stage_after rest (Some stage)
  end.

(** A decision taken inside the loop, read off the record logged with it:
    the dict returned and the counters before and after. *)
Definition resolved (rec : log_record) (d : VisionRouter.decision)
    (t t' : Z * Z * Z) : Prop :=
  match rec, t with
  | OK_paddle _ _ _, (sk, us, es) =>
      d = {| VisionRouter.status := "paddle"; VisionRouter.changed := false;
             VisionRouter.fields := [] |}
      /\ t' = (sk, 1 + us, es)
  | OK_azure _ _ _, (sk, us, es) =>
      d = {| VisionRouter.status := "azure"; VisionRouter.changed := false;
             VisionRouter.fields := [] |}
      /\ t' = (sk, 1 + us, es)
  | EXTRACT_gemini _, (sk, us, es) =>
      VisionRouter.status d = "gemini" /\ VisionRouter.changed d = true
      /\ t' = (sk, us, 1 + es)
  | _, _ => False
  end.

(** Any decision of [check_or_escalate]; [final] is [last_stage] after the
    whole loop. *)
Definition verdict (final : option string) (rec : log_record)
    (d : VisionRouter.decision) (t t' : Z * Z * Z) : Prop :=
  match rec, t with
  | SKIP_nochange _, (sk, us, es) => d = skipped_decision /\ t' = (1 + sk, us, es)
  | CHANGED_ocr _, _ =>
      d = {| VisionRouter.status := status_of final; VisionRouter.changed := true;
             VisionRouter.fields := [] |}
      /\ t' = t
  | NOOP _, _ =>
      d = {| VisionRouter.status := "noop"; VisionRouter.changed := true;
             VisionRouter.fields := [] |}
      /\ t' = t
  | _, _ => resolved rec d t t'
  end.

Lemma resolved_verdict (final : option string) (rec : log_record)
    (d : VisionRouter.decision) (t t' : Z * Z * Z) :
  resolved rec d t t' -> verdict final rec d t t'.
Proof. destruct rec, t as [[sk us] es]; simpl; tauto. Qed.

Lemma stage_body_ok (u : string) (shot : list Byte.byte) (sha prev_p prev_a : string)
    (cb : option (unit -> outcome (option VisionRouter.fields_t)))
    (stage : string) (used used' : bool) (r : option VisionRouter.decision)
    (w w' : world) :
  VisionRouter.stage_body clock json_dumps text_sha paddle_ocr azure_post cfg
    u shot sha prev_p prev_a cb stage used w = (Ok (r, used'), w') ->
  match r with
  | None => log w' = log w /\ tally w' = tally w
  | Some d =>
      exists rec, log w' = (log w ++ [rec])%list
                  /\ resolved rec d (tally w) (tally w')
  end.
Proof.
  rewrite stage_body_run.
  destruct (runs_paddle stage).
  { rewrite paddle_stage_run. destruct (paddle_ocr shot) as [res|e]; [|discriminate].
    simpl. destruct (needs (PaddleClient.build res) prev_p); simpl;
      intros H; injection H as <- <- <-.
    - split; reflexivity.
    - eexists. split; [reflexivity|]. simpl. split; reflexivity. }
  destruct (runs_azure stage).
  { rewrite azure_stage_run. destruct (azure_post shot) as [res|e]; [|discriminate].
    simpl. destruct (needs (AzureVisionClient.build res) prev_a); simpl;
      intros H; injection H as <- <- <-.
    - split; reflexivity.
    - eexists. split; [reflexivity|]. simpl. split; reflexivity. }
  destruct (runs_gemini stage).
  { rewrite gemini_stage_run. destruct cb as [f|]; simpl.
    - destruct (f tt) as [fs|e]; [|discriminate]. simpl.
      intros H; injection H as <- <- <-.
      eexists. split; [reflexivity|]. simpl. repeat split; reflexivity.
    - intros H; injection H as <- <- <-.
      eexists. split; [reflexivity|]. simpl. repeat split; reflexivity. }
  intros H; injection H as <- <- <-. split; reflexivity.
Qed.

Lemma walk_ok (u : string) (shot : list Byte.byte) (sha prev_p prev_a : string)
    (cb : option (unit -> outcome (option VisionRouter.fields_t)))
    (stages : list string) :
  forall (used : bool) (last_stage : option string) (w w' : world)
         (d : VisionRouter.decision),
    VisionRouter.walk clock json_dumps text_sha paddle_ocr azure_post cfg
      u shot sha prev_p prev_a cb stages used last_stage w = (Ok d, w') ->
    exists rec, log w' = (log w ++ [rec])%list
                /\ verdict (last_stage_after stages last_stage) rec d
                     (tally w) (tally w').
Proof.
  induction stages as [|stage rest IH]; intros used last_stage w w' d; simpl.
  - unfold VisionRouter.exhausted, VisionRouter.logged. cbv [bind modify ret].
    destruct used; intros H; injection H as <- <-;
      eexists; (split; [reflexivity|]); simpl; split; reflexivity.
  - cbv [bind ret].
    destruct (VisionRouter.stage_body _ _ _ _ _ _ _ _ _ _ _ _ _ _ w)
      as [[[[d0|] used']|e] w1] eqn:Hb; try discriminate.
    + intros H; injection H as <- <-.
      destruct (stage_body_ok _ _ _ _ _ _ _ _ _ _ _ _ Hb) as (rec & Hl & Hr).
      exists rec. split; [exact Hl|]. apply resolved_verdict, Hr.
    + intros H.
      destruct (stage_body_ok _ _ _ _ _ _ _ _ _ _ _ _ Hb) as (Hl & Ht).
      destruct (IH _ _ _ _ _ H) as (rec & Hl' & Hv).
      exists rec. rewrite Hl', Hl, <- Ht. split; [reflexivity | exact Hv].
Qed.

Lemma check_or_escalate_ok (u : string) (shot : list Byte.byte)
    (pfp : option (list (string * string)))
    (cb : option (unit -> outcome (option VisionRouter.fields_t)))
    (w w' : world) (d : VisionRouter.decision) :
  VisionRouter.check_or_escalate clock json_dumps text_sha img_sha paddle_ocr
    azure_post cfg u shot pfp cb w = (Ok d, w') ->
  exists rec, log w' = (log w ++ [rec])%list
              /\ verdict (last_stage_after (VisionRouter.order cfg) None) rec d
                   (tally w) (tally w').
Proof.
  rewrite check_or_escalate_run.
  destruct (pages w !! u) as [r|]; [|apply walk_ok].
  destruct (String.eqb _ _); [|apply walk_ok].
  intros H; injection H as <- <-.
  eexists. split; [reflexivity|]. simpl. split; reflexivity.
Qed.

End RouterFacts.

(** ** Reading the trace of external calls *)

(** The analyzer tier a call belongs to; the callback is no analyzer. *)
Definition tier_of_call (c : call) : option string :=
  match c with
  | PaddleRun _ => Some "paddle"
  | AzureRun _ => Some "azure"
  | GeminiCallback => None
  end.

(** The last analyzer tier that ran, going by the calls made. *)
Definition last_tier_run (cs : list call) : option string :=
  fold_left (fun acc c => match tier_of_call c with Some t => Some t | None => acc end)
    cs None.

Lemma last_stage_after_cons (stages : list string) :
  forall (stage : string) (l : option string),
    last_stage_after (stage :: stages) l = Some (List.last (stage :: stages) "").
Proof.
  induction stages as [|s rest IH]; intros stage l; [reflexivity|].
  change (last_stage_after (stage :: s :: rest) l)
    with (last_stage_after (s :: rest) (Some stage)).
  rewrite IH. reflexivity.
Qed.

Lemma status_of_last (stages : list string) :
  status_of (last_stage_after stages None) = status_of (Some (List.last stages "")).
Proof.
  destruct stages as [|s rest]; [reflexivity|].
  rewrite last_stage_after_cons. reflexivity.
Qed.

(** ** Leaving the loop after an analyzer ran *)

(** A call of one of the two detectors. *)
Definition analyzer_call (c : call) : Prop := tier_of_call c <> None.

Section Exhaustion.

Variable clock : nat -> Z.
Variable json_dumps : info -> string.
Variable text_sha : string -> string.
Variable img_sha : list Byte.byte -> string.
Variable paddle_ocr : list Byte.byte -> outcome PaddleClient.result.
Variable azure_post : list Byte.byte -> outcome AzureVisionClient.data.
Variable cfg : VisionRouter.RouterConfig.

(** A pass through the loop body that returns nothing either ran no stage
    or ran one analyzer, which sets [ocr_used]. *)
Lemma stage_body_falls_through (u : string) (shot : list Byte.byte)
    (sha prev_p prev_a : string)
    (cb : option (unit -> outcome (option VisionRouter.fields_t)))
    (stage : string) (used used' : bool) (w w' : world) :
  VisionRouter.stage_body clock json_dumps text_sha paddle_ocr azure_post cfg
    u shot sha prev_p prev_a cb stage used w = (Ok (None, used'), w') ->
  (used' = used /\ calls w' = calls w)
  \/ (used' = true
      /\ exists c, calls w' = (calls w ++ [c])%list /\ analyzer_call c).
Proof.
  rewrite stage_body_run.
  destruct (runs_paddle cfg stage).
  { rewrite paddle_stage_run. destruct (paddle_ocr shot) as [res|e]; [|discriminate].
    simpl. destruct (VisionRouter._needs_escalation _ _ _ _); simpl;
      intros H; [|discriminate]. injection H as <- <-.
    right. split; [reflexivity|]. eexists. split; [reflexivity|]. discriminate. }
  destruct (runs_azure cfg stage).
  { rewrite azure_stage_run. destruct (azure_post shot) as [res|e]; [|discriminate].
    simpl. destruct (VisionRouter._needs_escalation _ _ _ _); simpl;
      intros H; [|discriminate]. injection H as <- <-.
    right. split; [reflexivity|]. eexists. split; [reflexivity|]. discriminate. }
  destruct (runs_gemini cfg stage).
  { rewrite gemini_stage_run. destruct cb as [f|]; simpl;
      [destruct (f tt)|]; discriminate. }
  intros H; injection H as <- <-. left. split; reflexivity.
Qed.

(** The exit that logs [CHANGED:ocr] is taken exactly after a loop in which
    no stage returned and [ocr_used] was set: every external call made was
    a detector's, and there was one unless [ocr_used] held from the start. *)
Lemma walk_changed (u : string) (shot : list Byte.byte)
    (sha prev_p prev_a : string)
    (cb : option (unit -> outcome (option VisionRouter.fields_t)))
    (stages : list string) :
  forall (used : bool) (last_stage : option string) (w w' : world)
         (d : VisionRouter.decision) (u' : string),
    VisionRouter.walk clock json_dumps text_sha paddle_ocr azure_post cfg
      u shot sha prev_p prev_a cb stages used last_stage w = (Ok d, w') ->
    log w' = (log w ++ [CHANGED_ocr u'])%list ->
    exists l, calls w' = (calls w ++ l)%list
              /\ Forall analyzer_call l
              /\ (used = true \/ l <> []).
Proof.
  induction stages as [|stage rest IH]; intros used last_stage w w' d u'; simpl.
  - unfold VisionRouter.exhausted, VisionRouter.logged. cbv [bind modify ret].
    destruct used; intros H; injection H as <- <-; simpl; intros Hl.
    + exists []. split; [symmetry; apply app_nil_r|].
      split; [constructor | left; reflexivity].
    + apply app_inv_head in Hl. discriminate Hl.
  - cbv [bind ret].
    destruct (VisionRouter.stage_body _ _ _ _ _ _ _ _ _ _ _ _ _ _ w)
      as [[[[d0|] used']|e] w1] eqn:Hb; try discriminate.
    + intros H; injection H as <- <-. intros Hl.
      destruct (stage_body_ok _ _ _ _ _ _ _ _ _ _ _ _ _ _ _ _ _ _ Hb)
        as (rec & Hl' & Hr).
      rewrite Hl in Hl'. apply app_inv_head in Hl'. injection Hl' as <-.
      destruct (tally w) as [[sk us] es]. contradiction Hr.
    + intros H Hl.
      destruct (stage_body_ok _ _ _ _ _ _ _ _ _ _ _ _ _ _ _ _ _ _ Hb) as (Hl1 & _).
      rewrite <- Hl1 in Hl.
      destruct (IH _ _ _ _ _ _ H Hl) as (l2 & Hc2 & Hf2 & Hu2).
      destruct (stage_body_falls_through _ _ _ _ _ _ _ _ _ _ _ Hb)
        as [(-> & Hc1)|(-> & c & Hc1 & Ha)].
      * exists l2. rewrite Hc2, Hc1. split; [reflexivity|]. split; assumption.
      * exists (c :: l2). rewrite Hc2, Hc1, <- app_assoc.
        split; [reflexivity|]. split; [constructor; assumption|].
        right. discriminate.
Qed.

Lemma check_or_escalate_changed (u : string) (shot : list Byte.byte)
    (pfp : option (list (string * string)))
    (cb : option (unit -> outcome (option VisionRouter.fields_t)))
    (w w' : world) (d : VisionRouter.decision) (u' : string) :
  VisionRouter.check_or_escalate clock json_dumps text_sha img_sha paddle_ocr
    azure_post cfg u shot pfp cb w = (Ok d, w') ->
  log w' = (log w ++ [CHANGED_ocr u'])%list ->
  exists l, calls w' = (calls w ++ l)%list /\ Forall analyzer_call l /\ l <> [].
Proof.
  rewrite check_or_escalate_run. intros H Hl.
  assert (exists l, calls w' = (calls w ++ l)%list /\ Forall analyzer_call l
                    /\ (false = true \/ l <> [])) as (l & H1 & H2 & H3).
  { destruct (pages w !! u) as [r|]; [|eapply walk_changed; eassumption].
    destruct (String.eqb _ _); [|eapply walk_changed; eassumption].
    injection H as <- <-. simpl in Hl. apply app_inv_head in Hl. discriminate Hl. }
  exists l. split; [exact H1|]. split; [exact H2|].
  destruct H3 as [H3|H3]; [discriminate | exact H3].
Qed.

End Exhaustion.

(** ** The escalation log *)

(** What every row the router appends for the URL [u] looks like. *)
Definition router_row (u : string) (e : escalation) : Prop :=
  e_url e = u /\ e_to_model e = "next" /\ e_reason e = "low_conf_or_changed"
  /\ (e_from_model e = "paddle" \/ e_from_model e = "azure").

(** [w'] has the escalation rows of [w] and then rows of the router's. *)
Definition appends_router_rows (u : string) (w w' : world) : Prop :=
  exists l, escalations w' = (escalations w ++ l)%list /\ Forall (router_row u) l.

Lemma appends_same (u : string) (w w' : world) :
  escalations w' = escalations w -> appends_router_rows u w w'.
Proof.
  intros H. exists []. split; [rewrite H; symmetry; apply app_nil_r | constructor].
Qed.

Lemma appends_refl (u : string) (w : world) : appends_router_rows u w w.
Proof. apply appends_same. reflexivity. Qed.

Lemma appends_trans (u : string) (a b c : world) :
  appends_router_rows u a b -> appends_router_rows u b c -> appends_router_rows u a c.
Proof.
  intros (l1 & H1 & F1) (l2 & H2 & F2). exists (l1 ++ l2)%list. split.
  - rewrite H2, H1. symmetry. apply app_assoc.
  - apply Forall_app. split; assumption.
Qed.

Section EscalationLog.

Variable clock : nat -> Z.
Variable json_dumps : info -> string.
Variable text_sha : string -> string.
Variable img_sha : list Byte.byte -> string.
Variable paddle_ocr : list Byte.byte -> outcome PaddleClient.result.
Variable azure_post : list Byte.byte -> outcome AzureVisionClient.data.
Variable cfg : VisionRouter.RouterConfig.

Lemma paddle_stage_appends (u : string) (shot : list Byte.byte) (sha prev : string)
    (w : world) :
  appends_router_rows u w
    (snd (VisionRouter.paddle_stage clock json_dumps text_sha paddle_ocr cfg
            u shot sha prev w)).
Proof.
  rewrite paddle_stage_run. destruct (paddle_ocr shot) as [r|e];
    [|apply appends_same; reflexivity].
  simpl. destruct (VisionRouter._needs_escalation _ _ _ _); simpl;
    [|apply appends_same; reflexivity].
  eexists. split; [reflexivity|].
  constructor; [|constructor]. unfold router_row. simpl. tauto.
Qed.

Lemma azure_stage_appends (u : string) (shot : list Byte.byte) (sha prev : string)
    (w : world) :
  appends_router_rows u w
    (snd (VisionRouter.azure_stage clock json_dumps text_sha azure_post cfg
            u shot sha prev w)).
Proof.
  rewrite azure_stage_run. destruct (azure_post shot) as [r|e];
    [|apply appends_same; reflexivity].
  simpl. destruct (VisionRouter._needs_escalation _ _ _ _); simpl;
    [|apply appends_same; reflexivity].
  eexists. split; [reflexivity|].
  constructor; [|constructor]. unfold router_row. simpl. tauto.
Qed.

Lemma gemini_stage_appends (u sha : string)
    (cb : option (unit -> outcome (option VisionRouter.fields_t))) (w : world) :
  appends_router_rows u w (snd (VisionRouter.gemini_stage clock u sha cb w)).
Proof.
  rewrite gemini_stage_run. destruct cb as [f|]; simpl;
    [destruct (f tt)|]; apply appends_same; reflexivity.
Qed.

Lemma check_or_escalate_appends (u : string) (shot : list Byte.byte)
    (pfp : option (list (string * string)))
    (cb : option (unit -> outcome (option VisionRouter.fields_t))) (w : world) :
  appends_router_rows u w
    (snd (VisionRouter.check_or_escalate clock json_dumps text_sha img_sha
            paddle_ocr azure_post cfg u shot pfp cb w)).
Proof.
  apply check_or_escalate_invariant.
  - apply appends_refl.
  - apply appends_trans.
  - intros _ sha prev w0. apply paddle_stage_appends.
  - intros _ sha prev w0. apply azure_stage_appends.
  - intros _ sha w0. apply gemini_stage_appends.
  - intros r w0. apply appends_same. reflexivity.
  - intros w0. apply appends_same. reflexivity.
Qed.

End EscalationLog.

(** ** A callback that raises *)

Section FailingCallback.

Variable clock : nat -> Z.
Variable json_dumps : info -> string.
Variable text_sha : string -> string.
Variable img_sha : list Byte.byte -> string.
Variable paddle_ocr : list Byte.byte -> outcome PaddleClient.result.
Variable azure_post : list Byte.byte -> outcome AzureVisionClient.data.
Variable cfg : VisionRouter.RouterConfig.
Variable f : unit -> outcome (option VisionRouter.fields_t).
Variable e : exn.
Hypothesis f_raises : f tt = Raise e.













End FailingCallback.

(** ** Columns a call leaves alone *)

(** The TEXT column [c] reads the same in every row before and after. *)
Definition keeps (c : tcol) (w w' : world) : Prop :=
  forall u', stored_text (pages w') u' c = stored_text (pages w) u' c.

Lemma keeps_same (c : tcol) (w w' : world) : pages w' = pages w -> keeps c w w'.
Proof. intros H u'. rewrite H. reflexivity. Qed.

Lemma keeps_trans (c : tcol) (w1 w2 w3 : world) :
  keeps c w1 w2 -> keeps c w2 w3 -> keeps c w1 w3.
Proof. intros H12 H23 u'. rewrite H23. apply H12. Qed.

Section Frame.

Variable clock : nat -> Z.
Variable json_dumps : info -> string.
Variable text_sha : string -> string.
Variable img_sha : list Byte.byte -> string.
Variable paddle_ocr : list Byte.byte -> outcome PaddleClient.result.
Variable azure_post : list Byte.byte -> outcome AzureVisionClient.data.
Variable cfg : VisionRouter.RouterConfig.

Lemma upsert_keeps (c : tcol) (u : string) (kvs : list Footprints.assignment) (w : world) :
  ~ supplies_text c kvs -> keeps c w (snd (Footprints.upsert clock u kvs w)).
Proof.
  intros Hc. rewrite upsert_run.
  destruct (pages w !! u) as [r|];
    [destruct (List.filter Footprints.is_supplied kvs)|];
    try (intros u'; apply upserted_text_frame, Hc).
  apply keeps_same. reflexivity.
Qed.

Lemma after_upsert_keeps (c : tcol) (u : string) (kvs : list Footprints.assignment)
    (w : world) :
  ~ supplies_text c kvs -> keeps c w (after_upsert clock u kvs w).
Proof. intros Hc u'. apply upserted_text_frame, Hc. Qed.

Lemma paddle_stage_keeps (c : tcol) (u : string) (shot : list Byte.byte)
    (sha prev : string) (w : world) :
  c <> screenshot_sha -> c <> text_sha_paddle -> c <> last_model ->
  keeps c w (snd (VisionRouter.paddle_stage clock json_dumps text_sha paddle_ocr
                    cfg u shot sha prev w)).
Proof.
  intros H1 H2 H3. rewrite paddle_stage_run.
  destruct (paddle_ocr shot) as [r|e]; [|apply keeps_same; reflexivity].
  assert (keeps c w (after_upsert clock u (paddle_kvs text_sha sha (PaddleClient.build r))
                       (noted (PaddleRun shot) w))) as Hk.
  { eapply keeps_trans; [|apply after_upsert_keeps].
    - apply keeps_same. reflexivity.
    - intros (v & [H|[H|[H|[]]]]); congruence. }
  simpl. destruct (VisionRouter._needs_escalation _ _ _ _); exact Hk.
Qed.

Lemma azure_stage_keeps (c : tcol) (u : string) (shot : list Byte.byte)
    (sha prev : string) (w : world) :
  c <> screenshot_sha -> c <> text_sha_azure -> c <> last_model ->
  keeps c w (snd (VisionRouter.azure_stage clock json_dumps text_sha azure_post
                    cfg u shot sha prev w)).
Proof.
  intros H1 H2 H3. rewrite azure_stage_run.
  destruct (azure_post shot) as [r|e]; [|apply keeps_same; reflexivity].
  assert (keeps c w (after_upsert clock u (azure_kvs text_sha sha (AzureVisionClient.build r))
                       (noted (AzureRun shot) w))) as Hk.
  { eapply keeps_trans; [|apply after_upsert_keeps].
    - apply keeps_same. reflexivity.
    - intros (v & [H|[H|[H|[]]]]); congruence. }
  simpl. destruct (VisionRouter._needs_escalation _ _ _ _); exact Hk.
Qed.

Lemma gemini_stage_keeps (c : tcol) (u sha : string)
    (cb : option (unit -> outcome (option VisionRouter.fields_t))) (w : world) :
  c <> screenshot_sha -> c <> last_model ->
  keeps c w (snd (VisionRouter.gemini_stage clock u sha cb w)).
Proof.
  intros H1 H2. rewrite gemini_stage_run.
  assert (forall w0, pages w0 = pages w ->
            keeps c w (after_upsert clock u (gemini_kvs sha) w0)) as Hk.
  { intros w0 Hw0. eapply keeps_trans; [apply keeps_same, Hw0|].
    apply after_upsert_keeps. intros (v & [H|[H|[]]]); congruence. }
  destruct cb as [f|]; simpl.
  - destruct (f tt); simpl; [apply Hk | apply keeps_same]; reflexivity.
  - apply Hk. reflexivity.
Qed.

Lemma skip_keeps (c : tcol) (u : string) (shot : list Byte.byte) (w : world) :
  c <> screenshot_sha -> keeps c w (after_skip clock img_sha u shot w).
Proof.
  intros H1 u'. unfold after_skip. simpl.
  apply upserted_text_frame. intros (v & [H|[]]). congruence.
Qed.

(** A tier that is disabled leaves its hash column alone. *)
Lemma disabled_paddle_keeps (u : string) (shot : list Byte.byte)
    (pfp : option (list (string * string)))
    (cb : option (unit -> outcome (option VisionRouter.fields_t))) (w : world) :
  VisionRouter.enable_paddle cfg = false ->
  keeps text_sha_paddle w
    (snd (VisionRouter.check_or_escalate clock json_dumps text_sha img_sha
            paddle_ocr azure_post cfg u shot pfp cb w)).
Proof.
  intros Hoff. apply check_or_escalate_invariant.
  - intros w0. apply keeps_same. reflexivity.
  - apply keeps_trans.
  - rewrite Hoff. discriminate.
  - intros _ sha prev w0. apply azure_stage_keeps; discriminate.
  - intros _ sha w0. apply gemini_stage_keeps; discriminate.
  - intros r w0. apply keeps_same. reflexivity.
  - intros w0. apply skip_keeps. discriminate.
Qed.

Lemma disabled_azure_keeps (u : string) (shot : list Byte.byte)
    (pfp : option (list (string * string)))
    (cb : option (unit -> outcome (option VisionRouter.fields_t))) (w : world) :
  VisionRouter.enable_azure cfg = false ->
  keeps text_sha_azure w
    (snd (VisionRouter.check_or_escalate clock json_dumps text_sha img_sha
            paddle_ocr azure_post cfg u shot pfp cb w)).
Proof.
  intros Hoff. apply check_or_escalate_invariant.
  - intros w0. apply keeps_same. reflexivity.
  - apply keeps_trans.
  - intros _ sha prev w0. apply paddle_stage_keeps; discriminate.
  - rewrite Hoff. discriminate.
  - intros _ sha w0. apply gemini_stage_keeps; discriminate.
  - intros r w0. apply keeps_same. reflexivity.
  - intros w0. apply skip_keeps. discriminate.
Qed.

End Frame.

(** ** Run accounting over a batch *)

(** The arguments of one call of [check_or_escalate]. *)
Record request : Type := {
  q_url : string;
  q_screenshot_bytes : list Byte.byte;
  q_previous_fp : option (list (string * string));
  q_on_need_gemini : option (unit -> outcome (option VisionRouter.fields_t))
}.











Section Batch.

Variable clock : nat -> Z.
Variable json_dumps : info -> string.
Variable text_sha : string -> string.
Variable img_sha : list Byte.byte -> string.
Variable paddle_ocr : list Byte.byte -> outcome PaddleClient.result.
Variable azure_post : list Byte.byte -> outcome AzureVisionClient.data.
Variable cfg : VisionRouter.RouterConfig.

Definition serve (q : request) : M world VisionRouter.decision :=
  VisionRouter.check_or_escalate clock json_dumps text_sha img_sha paddle_ocr
    azure_post cfg (q_url q) (q_screenshot_bytes q) (q_previous_fp q)
    (q_on_need_gemini q).

(** Calls on one router, one after the other, none of which raises; the
    first that does ends the sequence. *)
Fixpoint batch (reqs : list request) : M world (list VisionRouter.decision) :=
  match reqs with
  | [] => ret []
  | q :: rest =>
      (d <- serve q ;;
       ds <- batch rest ;;
       ret (d :: ds))%py
  end.



End Batch.

(** ** What the two clients average *)

(** The (text, score) pairs of a PaddleOCR result, in reading order. *)
Definition paddle_reported (r : PaddleClient.result) : list (string * float) :=
  flat_map (fun b =>
              flat_map (fun ln => match ln with Some (Some p) => [p] | _ => [] end)
                (PaddleClient.or_nil b))
    (PaddleClient.or_nil r).

(** The pairs the client keeps: those whose text is not empty. *)
Definition paddle_kept (r : PaddleClient.result) : list (string * float) :=
  List.filter (fun p => Py.truthy (fst p)) (paddle_reported r).

(** The lines of the service's answer, and the word confidences it carries. *)
Definition azure_lines (d : AzureVisionClient.data) : list AzureVisionClient.line :=
  concat d.

Definition azure_word_confs (d : AzureVisionClient.data) : list float :=
  flat_map (fun ln => AzureVisionClient.w_confs (AzureVisionClient.ln_words ln))
    (azure_lines d).

(** The confidence as the specification words it: the mean of what the
    detector reported, 0.0 when it reported nothing. *)
Definition mean_or_zero (reported : list float) : float :=
  match reported with
  | [] => 0%float
  | _ => mean reported
  end.

Lemma paddle_visit_lines (lines : list PaddleClient.line) :
  forall acc : list string * list float,
    fold_left PaddleClient.visit_line lines acc =
      let kept := List.filter (fun p => Py.truthy (fst p))
                    (flat_map (fun ln => match ln with Some (Some p) => [p] | _ => [] end)
                       lines) in
      ((fst acc ++ map fst kept)%list, (snd acc ++ map snd kept)%list).
Proof.
  induction lines as [|ln rest IH]; intros [ls cs]; cbn zeta.
  - simpl. rewrite !app_nil_r. reflexivity.
  - cbn [fold_left]. rewrite IH. cbn zeta.
    unfold PaddleClient.visit_line.
    destruct ln as [[[t sc]|]|]; cbn [flat_map fst snd app Py.truthy];
      try reflexivity.
    cbn [List.filter fst]. destruct (Py.truthy t); cbn [fst snd map app];
      [rewrite <- !app_assoc|]; reflexivity.
Qed.

Lemma paddle_visit_blocks (blocks : list (option (list PaddleClient.line))) :
  forall acc : list string * list float,
    fold_left PaddleClient.visit_block blocks acc =
      let kept := List.filter (fun p => Py.truthy (fst p))
                    (flat_map (fun b =>
                       flat_map (fun ln => match ln with Some (Some p) => [p] | _ => [] end)
                         (PaddleClient.or_nil b)) blocks) in
      ((fst acc ++ map fst kept)%list, (snd acc ++ map snd kept)%list).
Proof.
  induction blocks as [|b rest IH]; intros [ls cs]; cbn zeta.
  - simpl. rewrite !app_nil_r. reflexivity.
  - cbn [fold_left flat_map]. rewrite IH. unfold PaddleClient.visit_block.
    rewrite paddle_visit_lines. cbn zeta. cbn [fst snd].
    rewrite List.filter_app, !List.map_app, <- !app_assoc. reflexivity.
Qed.

Lemma paddle_collect (r : PaddleClient.result) :
  PaddleClient.collect r = (map fst (paddle_kept r), map snd (paddle_kept r)).
Proof.
  unfold PaddleClient.collect. rewrite paddle_visit_blocks. reflexivity.
Qed.

Lemma azure_visit_lines (lines : list AzureVisionClient.line) :
  forall acc : list string * list float,
    snd (fold_left AzureVisionClient.visit_line lines acc) =
      (snd acc ++ flat_map (fun ln => AzureVisionClient.w_confs
                                        (AzureVisionClient.ln_words ln)) lines)%list.
Proof.
  induction lines as [|ln rest IH]; intros [ls cs].
  - simpl. rewrite app_nil_r. reflexivity.
  - cbn [fold_left flat_map]. rewrite IH.
    unfold AzureVisionClient.visit_line. cbn [fst snd].
    destruct (AzureVisionClient.w_confs (AzureVisionClient.ln_words ln)) as [|c l].
    + reflexivity.
    + rewrite <- app_assoc. reflexivity.
Qed.

Lemma azure_visit_blocks (blocks : list AzureVisionClient.block) :
  forall acc : list string * list float,
    snd (fold_left AzureVisionClient.visit_block blocks acc) =
      (snd acc ++ flat_map (fun ln => AzureVisionClient.w_confs
                                        (AzureVisionClient.ln_words ln))
                    (concat blocks))%list.
Proof.
  induction blocks as [|b rest IH]; intros acc.
  - simpl. rewrite app_nil_r. reflexivity.
  - cbn [fold_left concat]. rewrite IH. unfold AzureVisionClient.visit_block.
    rewrite azure_visit_lines, List.flat_map_app, <- app_assoc. reflexivity.
Qed.

Lemma azure_collect (d : AzureVisionClient.data) :
  snd (AzureVisionClient.collect d) = azure_word_confs d.
Proof.
  unfold AzureVisionClient.collect. rewrite azure_visit_blocks. reflexivity.
Qed.

(** * The claims *)

(** C1. Escalation is needed exactly when the text is empty or blank, or
    shorter than [min_chars_for_confidence], or the confidence is below
    [min_confidence], or a previous hash is stored and differs from the hash
    of the new text. A text of exactly [min_chars_for_confidence] characters
    does not escalate on its length. In the tier walk each analyzer tier
    decides by this predicate on the hash stored for that same tier: the walk
    is started with the hash in the column [text_sha_paddle] and the hash in
    the column [text_sha_azure] of the row of the URL as it was before the
    call (both empty when there is no row); at the stage [paddle] the walk
    goes on to the rest of the order when the predicate holds of the local
    reading and the first of the two, and returns [status=paddle] otherwise;
    at the stage [azure] it does the same with the cloud reading and the
    second; a stage that runs no tier is passed over. *)
Theorem C1_escalation_predicate :
  forall (clock : nat -> Z) (json_dumps : info -> string)
         (text_sha : string -> string) (img_sha : list Byte.byte -> string)
         (paddle_ocr : list Byte.byte -> outcome PaddleClient.result)
         (azure_post : list Byte.byte -> outcome AzureVisionClient.data)
         (cfg : VisionRouter.RouterConfig),
    let walk := VisionRouter.walk clock json_dumps text_sha paddle_ocr
                  azure_post cfg in
    (forall o prev,
        VisionRouter._needs_escalation text_sha cfg o prev = true <->
          Py.all_space (text o) = true
          \/ Py.len (text o) < VisionRouter.min_chars_for_confidence cfg
          \/ PrimFloat.ltb (confidence o) (VisionRouter.min_confidence cfg) = true
          \/ (prev <> EmptyString /\ text_sha (text o) <> prev))
    /\ (forall o prev,
          Py.len (text o) = VisionRouter.min_chars_for_confidence cfg ->
          (VisionRouter._needs_escalation text_sha cfg o prev = true <->
             Py.all_space (text o) = true
             \/ PrimFloat.ltb (confidence o) (VisionRouter.min_confidence cfg) = true
             \/ (prev <> EmptyString /\ text_sha (text o) <> prev)))
    /\ (forall u shot sha prev w r,
          paddle_ocr shot = Ok r ->
          fst (VisionRouter.paddle_stage clock json_dumps text_sha paddle_ocr cfg
                 u shot sha prev w)
          = Ok (if VisionRouter._needs_escalation text_sha cfg (PaddleClient.build r) prev
                then None
                else Some {| VisionRouter.status := "paddle";
                             VisionRouter.changed := false;
                             VisionRouter.fields := [] |}))
    /\ (forall u shot sha prev w d,
          azure_post shot = Ok d ->
          fst (VisionRouter.azure_stage clock json_dumps text_sha azure_post cfg
                 u shot sha prev w)
          = Ok (if VisionRouter._needs_escalation text_sha cfg (AzureVisionClient.build d) prev
                then None
                else Some {| VisionRouter.status := "azure";
                             VisionRouter.changed := false;
                             VisionRouter.fields := [] |}))
    /\ (forall u shot pfp cb w r,
          pages w !! u = Some r ->
          Footprints.or_empty (r_screenshot_sha r) <> img_sha shot ->
          VisionRouter.check_or_escalate clock json_dumps text_sha img_sha
            paddle_ocr azure_post cfg u shot pfp cb w
          = walk u shot (img_sha shot)
              (Footprints.or_empty (r_text_sha_paddle r))
              (Footprints.or_empty (r_text_sha_azure r))
              cb (VisionRouter.order cfg) false None w)
    /\ (forall u shot pfp cb w,
          pages w !! u = None ->
          VisionRouter.check_or_escalate clock json_dumps text_sha img_sha
            paddle_ocr azure_post cfg u shot pfp cb w
          = walk u shot (img_sha shot) "" "" cb (VisionRouter.order cfg)
              false None w)
    /\ (forall u shot sha prev_paddle_sha prev_azure_sha cb rest used last_stage
               w r,
          VisionRouter.enable_paddle cfg = true ->
          paddle_ocr shot = Ok r ->
          let o := PaddleClient.build r in
          let w1 := after_upsert clock u (paddle_kvs text_sha sha o)
                      (noted (PaddleRun shot) w) in
          walk u shot sha prev_paddle_sha prev_azure_sha cb ("paddle" :: rest)
            used last_stage w
          = if VisionRouter._needs_escalation text_sha cfg o prev_paddle_sha
            then walk u shot sha prev_paddle_sha prev_azure_sha cb rest true
                   (Some "paddle")
                   (after_escalation clock json_dumps u "paddle" o w1)
            else (Ok {| VisionRouter.status := "paddle";
                        VisionRouter.changed := false;
                        VisionRouter.fields := [] |},
                  wrote (OK_paddle u (confidence o) (Py.len (text o)))
                    (with_used_cheap_ocr (Z.add 1) w1)))
    /\ (forall u shot sha prev_paddle_sha prev_azure_sha cb rest used last_stage
               w d,
          VisionRouter.enable_azure cfg = true ->
          azure_post shot = Ok d ->
          let o := AzureVisionClient.build d in
          let w1 := after_upsert clock u (azure_kvs text_sha sha o)
                      (noted (AzureRun shot) w) in
          walk u shot sha prev_paddle_sha prev_azure_sha cb ("azure" :: rest)
            used last_stage w
          = if VisionRouter._needs_escalation text_sha cfg o prev_azure_sha
            then walk u shot sha prev_paddle_sha prev_azure_sha cb rest true
                   (Some "azure")
                   (after_escalation clock json_dumps u "azure" o w1)
            else (Ok {| VisionRouter.status := "azure";
                        VisionRouter.changed := false;
                        VisionRouter.fields := [] |},
                  wrote (OK_azure u (confidence o) (Py.len (text o)))
                    (with_used_cheap_ocr (Z.add 1) w1)))
    /\ (forall u shot sha prev_paddle_sha prev_azure_sha cb stage rest used
               last_stage w,
          runs_paddle cfg stage = false ->
          runs_azure cfg stage = false ->
          runs_gemini cfg stage = false ->
          walk u shot sha prev_paddle_sha prev_azure_sha cb (stage :: rest)
            used last_stage w
          = walk u shot sha prev_paddle_sha prev_azure_sha cb rest used
              (Some stage) w).
Proof.
  intros clock json_dumps text_sha img_sha paddle_ocr azure_post cfg walk.
  subst walk.
  split; [apply needs_escalation_iff|].
  split.
  { intros o prev Hlen. rewrite needs_escalation_iff. split.
    - intros [H|[H|H]]; [left; exact H | lia | right; exact H].
    - intros [H|H]; [left; exact H | right; right; exact H]. }
  split.
  { intros u shot sha prev w r Hr. rewrite paddle_stage_run, Hr. simpl.
    destruct (VisionRouter._needs_escalation _ _ _ _); reflexivity. }
  split.
  { intros u shot sha prev w d Hd. rewrite azure_stage_run, Hd. simpl.
    destruct (VisionRouter._needs_escalation _ _ _ _); reflexivity. }
  split.
  { intros u shot pfp cb w r Hr Hne. rewrite check_or_escalate_run, Hr.
    destruct (String.eqb_spec (Footprints.or_empty (r_screenshot_sha r))
                (img_sha shot)); [contradiction | reflexivity]. }
  split.
  { intros u shot pfp cb w Hr. rewrite check_or_escalate_run, Hr. reflexivity. }
  split.
  { intros u shot sha prev_p prev_a cb rest used last_stage w r Hen Hr o w1.
    subst o w1. cbn [VisionRouter.walk]. cbv [bind].
    rewrite stage_body_run. unfold runs_paddle. rewrite Hen.
    change (String.eqb "paddle" "paddle" && true) with true. cbv iota.
    rewrite paddle_stage_run, Hr. cbv zeta.
    destruct (VisionRouter._needs_escalation _ _ _ _); reflexivity. }
  split.
  { intros u shot sha prev_p prev_a cb rest used last_stage w d Hen Hd o w1.
    subst o w1. cbn [VisionRouter.walk]. cbv [bind].
    rewrite stage_body_run. unfold runs_paddle, runs_azure. rewrite Hen.
    change (String.eqb "azure" "paddle" && VisionRouter.enable_paddle cfg)
      with false.
    change (String.eqb "azure" "azure" && true) with true. cbv iota.
    rewrite azure_stage_run, Hd. cbv zeta.
    destruct (VisionRouter._needs_escalation _ _ _ _); reflexivity. }
  intros u shot sha prev_p prev_a cb stage rest used last_stage w Hp Ha Hg.
  cbn [VisionRouter.walk]. cbv [bind].
  rewrite stage_body_run, Hp, Ha, Hg. reflexivity.
Qed.

(** A five-character text at the threshold of five, read with confidence
    0.9 and no stored hash. Then a page whose row holds the hash of its text
    in the column of the local tier and nothing in the column of the cloud
    tier: shown again with other bytes and the same text, the local tier
    settles it. *)
Lemma C1_witness :
  let o := {| text := "coach"; confidence := 0.9%float; model := "paddle";
              extra_lines := 1 |} in
  let cfg := Scenario.small_config true true true in
  let u := "https://example.org/job/1" in
  let run shot := VisionRouter.check_or_escalate Scenario.ticking_clock
                    Scenario.json_dumps Scenario.text_sha Scenario.img_sha
                    Scenario.paddle_good Scenario.azure_no_words cfg u shot
                    None None in
  let w1 := snd (run Scenario.shot1 Scenario.fresh) in
  (Py.len (text o) = VisionRouter.min_chars_for_confidence cfg
   /\ (VisionRouter._needs_escalation Scenario.text_sha cfg o "" = true <->
         Py.all_space (text o) = true
         \/ PrimFloat.ltb (confidence o) (VisionRouter.min_confidence cfg) = true
         \/ ("" <> EmptyString /\ Scenario.text_sha (text o) <> "")))
  /\ stored_text (pages w1) u text_sha_paddle
     = Some (Scenario.text_sha "head coach")
  /\ stored_text (pages w1) u text_sha_azure = None
  /\ fst (run Scenario.shot2 w1)
     = Ok {| VisionRouter.status := "paddle"; VisionRouter.changed := false;
             VisionRouter.fields := [] |}.
Proof.
  intros o cfg u run w1.
  pose proof (C1_escalation_predicate Scenario.ticking_clock
                Scenario.json_dumps Scenario.text_sha Scenario.img_sha
                Scenario.paddle_good Scenario.azure_no_words cfg) as H.
  cbv zeta in H.
  destruct H as (_ & H2 & _ & _ & H5 & _ & H7 & _).
  split; [split; [reflexivity | apply H2; reflexivity]|].
  assert (Hp : stored_text (pages w1) u text_sha_paddle
               = Some (Scenario.text_sha "head coach"))
    by (vm_compute; reflexivity).
  assert (Ha : stored_text (pages w1) u text_sha_azure = None)
    by (vm_compute; reflexivity).
  assert (Hs : stored_text (pages w1) u screenshot_sha
               = Some (Scenario.img_sha Scenario.shot1))
    by (vm_compute; reflexivity).
  split; [exact Hp|]. split; [exact Ha|].
  unfold stored_text in Hp, Hs.
  destruct (pages w1 !! u) as [r|] eqn:Hr; [|discriminate Hp].
  assert (Hp' : r_text_sha_paddle r = Some (Scenario.text_sha "head coach"))
    by exact Hp.
  assert (Hs' : r_screenshot_sha r = Some (Scenario.img_sha Scenario.shot1))
    by exact Hs.
  unfold run.
  rewrite (H5 u Scenario.shot2 None None w1 r Hr)
    by (rewrite Hs'; vm_compute; discriminate).
  change (VisionRouter.order cfg) with ["paddle"; "azure"; "gemini"].
  rewrite (H7 u Scenario.shot2 _ _ _ None _ false None w1 _ eq_refl eq_refl).
  rewrite Hp'.
  replace (VisionRouter._needs_escalation Scenario.text_sha cfg
             (PaddleClient.build (Some [Some [Some (Some ("head coach", 0.9%float))]]))
             (Footprints.or_empty (Some (Scenario.text_sha "head coach"))))
    with false by (vm_compute; reflexivity).
  reflexivity.
Defined.

(** C2. When the store has a fingerprint for the URL whose screenshot hash
    equals the hash of the new bytes, [check_or_escalate] returns
    [status=skipped, changed=False, fields={}]; it adds one to
    [skipped_nochange] and leaves the other two counters; it writes the
    screenshot hash and the current time as [last_seen] into the row and
    leaves both text hashes and [last_model]; it calls no detector and no
    callback. *)
Theorem C2_fast_path_skip :
  forall (clock : nat -> Z) (json_dumps : info -> string)
         (text_sha : string -> string) (img_sha : list Byte.byte -> string)
         (paddle_ocr : list Byte.byte -> outcome PaddleClient.result)
         (azure_post : list Byte.byte -> outcome AzureVisionClient.data)
         (cfg : VisionRouter.RouterConfig)
         (u : string) (shot : list Byte.byte)
         (pfp : option (list (string * string)))
         (cb : option (unit -> outcome (option VisionRouter.fields_t)))
         (w : world) (p : Footprints.PageFP),
    fst (Footprints.get u w) = Ok (Some p) ->
    Footprints.fp_screenshot_sha p = img_sha shot ->
    let res := VisionRouter.check_or_escalate clock json_dumps text_sha img_sha
                 paddle_ocr azure_post cfg u shot pfp cb w in
    fst res = Ok {| VisionRouter.status := "skipped";
                    VisionRouter.changed := false;
                    VisionRouter.fields := [] |}
    /\ tally (snd res)
       = (skipped_nochange w + 1, used_cheap_ocr w, escalated_to_gemini w)
    /\ stored_text (pages (snd res)) u screenshot_sha = Some (img_sha shot)
    /\ stored_int (pages (snd res)) u last_seen = Some (clock (clock_reads w))
    /\ (forall c, c <> screenshot_sha ->
          stored_text (pages (snd res)) u c = stored_text (pages w) u c)
    /\ calls (snd res) = calls w
    /\ log (snd res) = (log w ++ [SKIP_nochange u])%list.
Proof.
  intros clock json_dumps text_sha img_sha paddle_ocr azure_post cfg u shot
    pfp cb w p Hget Hsha res.
  unfold Footprints.get, gets in Hget. simpl in Hget.
  destruct (pages w !! u) as [r|] eqn:Hr; [|discriminate].
  simpl in Hget. injection Hget as <-. simpl in Hsha.
  subst res. rewrite check_or_escalate_run, Hr, Hsha, String.eqb_refl.
  simpl. split; [reflexivity|].
  split; [unfold tally; simpl; f_equal; f_equal; lia|].
  unfold stored_text, stored_int.
  rewrite (upserted_existing _ u _ _ r Hr). simpl.
  split; [reflexivity|]. split; [reflexivity|].
  split; [|split; reflexivity].
  intros c Hc. rewrite Hr. simpl. destruct c; try reflexivity. contradiction.
Qed.

(** The second of two calls with the same bytes, the first on an empty
    store with only the local tier enabled (scenario A). *)
Lemma C2_witness :
  let run := VisionRouter.check_or_escalate Scenario.frozen_clock
               Scenario.json_dumps Scenario.text_sha Scenario.img_sha
               Scenario.paddle_good Scenario.azure_down
               (Scenario.small_config true false false)
               "https://example.org/job/1" Scenario.shot1 None None in
  let w1 := snd (run Scenario.fresh) in
  fst (run Scenario.fresh)
    = Ok {| VisionRouter.status := "paddle"; VisionRouter.changed := false;
            VisionRouter.fields := [] |}
  /\ fst (run w1) = Ok {| VisionRouter.status := "skipped";
                          VisionRouter.changed := false;
                          VisionRouter.fields := [] |}
  /\ tally (snd (run w1)) = (1, 1, 0)
  /\ calls (snd (run w1)) = calls w1.
Proof.
  intros run w1. split; [vm_compute; reflexivity|].
  pose proof (C2_fast_path_skip Scenario.frozen_clock
           Scenario.json_dumps Scenario.text_sha Scenario.img_sha
           Scenario.paddle_good Scenario.azure_down
           (Scenario.small_config true false false)
           "https://example.org/job/1" Scenario.shot1 None None w1
           (Footprints.to_PageFP "https://example.org/job/1"
              {| r_canonical_url := None; r_first_seen := Some 1700000000;
                 r_last_seen := Some 1700000000; r_last_model := Some "paddle";
                 r_screenshot_sha := Some (Scenario.img_sha Scenario.shot1);
                 r_text_sha_paddle := Some (Scenario.text_sha "head coach");
                 r_text_sha_azure := None; r_etag := None;
                 r_last_modified := None; r_notes := None |})
           ltac:(vm_compute; reflexivity) ltac:(vm_compute; reflexivity)) as H.
  destruct H as (H1 & H2 & _ & _ & _ & H6 & _).
  split; [exact H1|]. split; [|exact H6].
  unfold run. rewrite H2. vm_compute. reflexivity.
Defined.

(** C9. [previous_fp] is never read: two calls that differ only in it
    return the same decision and leave the same state, counters, tables,
    external calls and log included. *)
Theorem C9_previous_fp_unused :
  forall (clock : nat -> Z) (json_dumps : info -> string)
         (text_sha : string -> string) (img_sha : list Byte.byte -> string)
         (paddle_ocr : list Byte.byte -> outcome PaddleClient.result)
         (azure_post : list Byte.byte -> outcome AzureVisionClient.data)
         (cfg : VisionRouter.RouterConfig)
         (u : string) (shot : list Byte.byte)
         (cb : option (unit -> outcome (option VisionRouter.fields_t)))
         (w : world) (fp1 fp2 : option (list (string * string))),
    VisionRouter.check_or_escalate clock json_dumps text_sha img_sha paddle_ocr
      azure_post cfg u shot fp1 cb w
    = VisionRouter.check_or_escalate clock json_dumps text_sha img_sha paddle_ocr
        azure_post cfg u shot fp2 cb w.
Proof.
  intros. rewrite !check_or_escalate_run. reflexivity.
Qed.

(** C10. [record_run_summary] keys its row by the whole second read from
    the clock. When the clock gives the same second to two calls in a row, the
    second call raises sqlite3's IntegrityError and [runs] is as the first
    call left it: no second row. The first call adds its row when no row had
    that second yet. *)
Theorem C10_run_summary_same_second :
  forall (clock : nat -> Z) (w : world) (s1 o1 e1 s2 o2 e2 : Z),
    clock (S (clock_reads w)) = clock (clock_reads w) ->
    let first := Footprints.record_run_summary clock s1 o1 e1 w in
    let second := Footprints.record_run_summary clock s2 o2 e2 (snd first) in
    fst second = Raise (IntegrityError "UNIQUE constraint failed: runs.ts")
    /\ runs (snd second) = runs (snd first)
    /\ (runs w !! clock (clock_reads w) = None ->
        fst first = Ok tt
        /\ runs (snd first)
           = <[clock (clock_reads w) :=
                 {| run_skipped_nochange := s1; run_used_cheap_ocr := o1;
                    run_escalated_to_gemini := e1 |}]> (runs w)
        /\ size (runs (snd second)) = S (size (runs w))).
Proof.
  intros clock w s1 o1 e1 s2 o2 e2 Hsame first second.
  subst first second.
  unfold Footprints.record_run_summary, Footprints.time_now.
  cbv [bind gets modify raise].
  cbn [clock_reads with_clock_reads runs].
  destruct (runs w !! clock (clock_reads w)) as [row0|] eqn:Hrow;
    cbn [fst snd clock_reads with_clock_reads with_runs runs];
    rewrite Hsame.
  - rewrite Hrow. cbn [fst snd runs with_clock_reads].
    split; [reflexivity|]. split; [reflexivity|]. discriminate.
  - rewrite lookup_insert_eq. cbn [fst snd runs with_clock_reads].
    split; [reflexivity|]. split; [reflexivity|]. intros _.
    split; [reflexivity|]. split; [reflexivity|].
    apply map_size_insert_None, Hrow.
Qed.

(** Two summaries written within one second on an empty store. *)
Lemma C10_witness :
  let first := Footprints.record_run_summary Scenario.frozen_clock 3 2 1
                 Scenario.fresh in
  let second := Footprints.record_run_summary Scenario.frozen_clock 4 2 1
                  (snd first) in
  fst first = Ok tt
  /\ fst second = Raise (IntegrityError "UNIQUE constraint failed: runs.ts")
  /\ size (runs (snd second)) = 1%nat.
Proof.
  intros first second.
  destruct (C10_run_summary_same_second Scenario.frozen_clock Scenario.fresh
              3 2 1 4 2 1 eq_refl) as (H1 & _ & H3).
  destruct (H3 eq_refl) as (H4 & _ & H5).
  split; [exact H4|]. split; [exact H1|]. exact H5.
Defined.

(** C3, as the code has it. When the loop ends without a decision after an
    analyzer has run (the branch that logs [CHANGED:ocr]), the call returns
    [changed=True], [fields={}] and as status the last name in
    [cfg.order], enabled or not ("ocr" should that name be empty):
    [last_stage] is assigned at the top of every iteration. No counter moves,
    and the external calls of such a call are detector runs, at least one. *)
Theorem C3_exhausted_status_is_last_of_order :
  forall (clock : nat -> Z) (json_dumps : info -> string)
         (text_sha : string -> string) (img_sha : list Byte.byte -> string)
         (paddle_ocr : list Byte.byte -> outcome PaddleClient.result)
         (azure_post : list Byte.byte -> outcome AzureVisionClient.data)
         (cfg : VisionRouter.RouterConfig)
         (u : string) (shot : list Byte.byte)
         (pfp : option (list (string * string)))
         (cb : option (unit -> outcome (option VisionRouter.fields_t)))
         (w w' : world) (d : VisionRouter.decision) (u' : string),
    VisionRouter.check_or_escalate clock json_dumps text_sha img_sha paddle_ocr
      azure_post cfg u shot pfp cb w = (Ok d, w') ->
    log w' = (log w ++ [CHANGED_ocr u'])%list ->
    d = {| VisionRouter.status :=
             status_of (Some (List.last (VisionRouter.order cfg) ""));
           VisionRouter.changed := true;
           VisionRouter.fields := [] |}
    /\ tally w' = tally w
    /\ exists l, calls w' = (calls w ++ l)%list
                 /\ Forall analyzer_call l /\ l <> [].
Proof.
  intros clock json_dumps text_sha img_sha paddle_ocr azure_post cfg u shot
    pfp cb w w' d u' Hrun Hlog.
  destruct (check_or_escalate_ok _ _ _ _ _ _ _ _ _ _ _ _ _ _ Hrun)
    as (rec & Hl & Hv).
  rewrite Hlog in Hl. apply app_inv_head in Hl. injection Hl as <-.
  simpl in Hv. rewrite status_of_last in Hv. destruct Hv as (Hd & Ht).
  split; [exact Hd|]. split; [exact Ht|].
  apply (check_or_escalate_changed _ _ _ _ _ _ _ _ _ _ _ _ _ _ _ Hrun Hlog).
Qed.

(** Local tier enabled, cloud and expensive tiers disabled, default order,
    confidence 0.3. *)
Lemma C3_witness :
  let cfg := Scenario.small_config true false false in
  let res := VisionRouter.check_or_escalate Scenario.frozen_clock
               Scenario.json_dumps Scenario.text_sha Scenario.img_sha
               Scenario.paddle_low Scenario.azure_down cfg
               "https://example.org/job/1" Scenario.shot1 None None
               Scenario.fresh in
  let d := {| VisionRouter.status := "gemini"; VisionRouter.changed := true;
              VisionRouter.fields := [] |} in
  res = (Ok d, snd res)
  /\ log (snd res) = (log Scenario.fresh ++ [CHANGED_ocr "https://example.org/job/1"])%list
  /\ d = {| VisionRouter.status :=
              status_of (Some (List.last (VisionRouter.order cfg) ""));
            VisionRouter.changed := true;
            VisionRouter.fields := [] |}
  /\ tally (snd res) = tally Scenario.fresh
  /\ exists l, calls (snd res) = (calls Scenario.fresh ++ l)%list
               /\ Forall analyzer_call l /\ l <> [].
Proof.
  intros cfg res d.
  assert (E : res = (Ok d, snd res)) by (vm_compute; reflexivity).
  assert (L : log (snd res)
              = (log Scenario.fresh ++ [CHANGED_ocr "https://example.org/job/1"])%list)
    by (vm_compute; reflexivity).
  split; [exact E|]. split; [exact L|].
  exact (C3_exhausted_status_is_last_of_order Scenario.frozen_clock
           Scenario.json_dumps Scenario.text_sha Scenario.img_sha
           Scenario.paddle_low Scenario.azure_down cfg
           "https://example.org/job/1" Scenario.shot1 None None
           Scenario.fresh (snd res) d "https://example.org/job/1" E L).
Defined.

(** C3, as stated, fails: with the default order, the local tier enabled
    and the other two disabled, a local read of confidence 0.3 exhausts the
    loop; the only tier that ran is the local one, and the status returned
    is "gemini". *)
Lemma C3_counterexample :
  let res := VisionRouter.check_or_escalate Scenario.frozen_clock
               Scenario.json_dumps Scenario.text_sha Scenario.img_sha
               Scenario.paddle_low Scenario.azure_down
               (Scenario.small_config true false false)
               "https://example.org/job/1" Scenario.shot1 None None
               Scenario.fresh in
  exists d,
    fst res = Ok d
    /\ log (snd res) = [CHANGED_ocr "https://example.org/job/1"]
    /\ calls (snd res) = [PaddleRun Scenario.shot1]
    /\ last_tier_run (calls (snd res)) = Some "paddle"
    /\ VisionRouter.status d = "gemini"
    /\ Some (VisionRouter.status d) <> last_tier_run (calls (snd res)).
Proof.
  eexists. split; [vm_compute; reflexivity|].
  repeat split; try (vm_compute; reflexivity).
  vm_compute. discriminate.
Qed.

(** C4, as the code has it. Whatever clause of the predicate fired, the row
    the router appends to [escalations] carries the one reason
    "low_conf_or_changed", with [to_model] "next" and [from_model] the tier
    that escalated; a call appends nothing else to that table. A tier whose
    detector answers and whose predicate holds appends exactly one such row,
    stamped with the clock reading after the tier's [upsert], its payload the
    confidence and the text length. *)
Theorem C4_escalation_reason_is_constant :
  forall (clock : nat -> Z) (json_dumps : info -> string)
         (text_sha : string -> string) (img_sha : list Byte.byte -> string)
         (paddle_ocr : list Byte.byte -> outcome PaddleClient.result)
         (azure_post : list Byte.byte -> outcome AzureVisionClient.data)
         (cfg : VisionRouter.RouterConfig),
    (forall u shot pfp cb w,
        exists l,
          escalations (snd (VisionRouter.check_or_escalate clock json_dumps
                              text_sha img_sha paddle_ocr azure_post cfg
                              u shot pfp cb w))
          = (escalations w ++ l)%list
          /\ Forall (fun e => e_url e = u /\ e_to_model e = "next"
                              /\ e_reason e = "low_conf_or_changed"
                              /\ (e_from_model e = "paddle"
                                  \/ e_from_model e = "azure")) l)
    /\ (forall u shot sha prev w r,
          paddle_ocr shot = Ok r ->
          VisionRouter._needs_escalation text_sha cfg (PaddleClient.build r) prev = true ->
          escalations (snd (VisionRouter.paddle_stage clock json_dumps text_sha
                              paddle_ocr cfg u shot sha prev w))
          = (escalations w ++
             [ {| e_ts := clock (S (clock_reads w)); e_url := u;
                  e_from_model := "paddle"; e_to_model := "next";
                  e_reason := "low_conf_or_changed";
                  e_info := Py.take 2000
                    (json_dumps {| conf := confidence (PaddleClient.build r);
                                   chars := Py.len (text (PaddleClient.build r)) |}) |} ])%list)
    /\ (forall u shot sha prev w d,
          azure_post shot = Ok d ->
          VisionRouter._needs_escalation text_sha cfg (AzureVisionClient.build d) prev = true ->
          escalations (snd (VisionRouter.azure_stage clock json_dumps text_sha
                              azure_post cfg u shot sha prev w))
          = (escalations w ++
             [ {| e_ts := clock (S (clock_reads w)); e_url := u;
                  e_from_model := "azure"; e_to_model := "next";
                  e_reason := "low_conf_or_changed";
                  e_info := Py.take 2000
                    (json_dumps {| conf := confidence (AzureVisionClient.build d);
                                   chars := Py.len (text (AzureVisionClient.build d)) |}) |} ])%list).
Proof.
  intros clock json_dumps text_sha img_sha paddle_ocr azure_post cfg.
  split; [|split].
  - intros u shot pfp cb w.
    apply (check_or_escalate_appends clock json_dumps text_sha img_sha
             paddle_ocr azure_post cfg u shot pfp cb w).
  - intros u shot sha prev w r Hr Hn.
    rewrite paddle_stage_run, Hr. simpl. rewrite Hn. reflexivity.
  - intros u shot sha prev w d Hd Hn.
    rewrite azure_stage_run, Hd. simpl. rewrite Hn. reflexivity.
Qed.

(** Scenario C run through the local stage. *)
Lemma C4_witness :
  let r := Some [Some [Some (Some ("head coach", 0.3%float))]] in
  let cfg := Scenario.small_config true true true in
  Scenario.paddle_low Scenario.shot1 = Ok r
  /\ VisionRouter._needs_escalation Scenario.text_sha cfg (PaddleClient.build r) "" = true
  /\ escalations (snd (VisionRouter.paddle_stage Scenario.frozen_clock
                         Scenario.json_dumps Scenario.text_sha
                         Scenario.paddle_low cfg "https://example.org/job/1"
                         Scenario.shot1 "sha1:A" "" Scenario.fresh))
     = [ {| e_ts := 1700000000; e_url := "https://example.org/job/1";
            e_from_model := "paddle"; e_to_model := "next";
            e_reason := "low_conf_or_changed"; e_info := "{}" |} ].
Proof.
  intros r cfg. split; [reflexivity|]. split; [vm_compute; reflexivity|].
  exact (proj1 (proj2 (C4_escalation_reason_is_constant Scenario.frozen_clock
           Scenario.json_dumps Scenario.text_sha Scenario.img_sha
           Scenario.paddle_low Scenario.azure_no_words cfg))
           "https://example.org/job/1" Scenario.shot1 "sha1:A" "" Scenario.fresh
           r eq_refl eq_refl).
Defined.

(** C4, as stated, fails on scenario C: the local tier reads ten
    characters (the threshold is five) with confidence 0.3, nothing is stored
    for the URL, so only the confidence clause fires; the row written has the
    reason "low_conf_or_changed", not "low-confidence", and no row of the
    table has a reason of the enumeration. *)
Lemma C4_counterexample :
  let cfg := Scenario.small_config true true true in
  let o := PaddleClient.build (Some [Some [Some (Some ("head coach", 0.3%float))]]) in
  let res := VisionRouter.check_or_escalate Scenario.frozen_clock
               Scenario.json_dumps Scenario.text_sha Scenario.img_sha
               Scenario.paddle_low Scenario.azure_no_words cfg
               "https://example.org/job/1" Scenario.shot1 None None
               Scenario.fresh in
  Scenario.paddle_low Scenario.shot1
    = Ok (Some [Some [Some (Some ("head coach", 0.3%float))]])
  /\ Py.all_space (text o) = false
  /\ VisionRouter.min_chars_for_confidence cfg <= Py.len (text o)
  /\ PrimFloat.ltb (confidence o) (VisionRouter.min_confidence cfg) = true
  /\ pages Scenario.fresh !! "https://example.org/job/1" = None
  /\ map e_from_model (escalations (snd res)) = ["paddle"]
  /\ map e_reason (escalations (snd res)) = ["low_conf_or_changed"]
  /\ (forall e, In e (escalations (snd res)) ->
        e_reason e <> "low-confidence" /\ e_reason e <> "low-text-volume"
        /\ e_reason e <> "content-changed").
Proof.
  intros cfg o res.
  split; [reflexivity|]. split; [vm_compute; reflexivity|].
  split; [vm_compute; discriminate|]. split; [vm_compute; reflexivity|].
  split; [reflexivity|]. split; [vm_compute; reflexivity|].
  split; [vm_compute; reflexivity|].
  intros e He.
  assert (Hrows : map e_reason (escalations (snd res)) = ["low_conf_or_changed"])
    by (vm_compute; reflexivity).
  assert (Hin : In (e_reason e) (map e_reason (escalations (snd res))))
    by (apply in_map; exact He).
  rewrite Hrows in Hin. destruct Hin as [<-|[]].
  repeat split; discriminate.
Qed.



(** The frame of [upsert], on the calls SQLite accepts. On a row that
    exists, [upsert] leaves every column it is not given a value for as it
    was, [last_seen] apart, which a successful call sets to the current time;
    rows of other URLs are not touched. A call with no value at all on an
    existing row is rejected by SQLite and writes nothing. Hence the cloud
    stage never changes a stored [text_sha_paddle], the local stage never
    changes a stored [text_sha_azure], and a call of [check_or_escalate] with
    a tier disabled leaves that tier's hash column alone, whatever the call
    does otherwise. *)
Theorem upsert_frame :
  forall (clock : nat -> Z) (json_dumps : info -> string)
         (text_sha : string -> string) (img_sha : list Byte.byte -> string)
         (paddle_ocr : list Byte.byte -> outcome PaddleClient.result)
         (azure_post : list Byte.byte -> outcome AzureVisionClient.data)
         (cfg : VisionRouter.RouterConfig),
    (forall u kvs w r,
        pages w !! u = Some r ->
        let res := Footprints.upsert clock u kvs w in
        exists r',
          pages (snd res) !! u = Some r'
          /\ (forall c, ~ supplies_text c kvs ->
                Footprints.get_text r' c = Footprints.get_text r c)
          /\ (forall c, c <> last_seen -> ~ supplies_int c kvs ->
                Footprints.get_int r' c = Footprints.get_int r c)
          /\ (fst res = Ok tt ->
                Footprints.get_int r' last_seen = Some (clock (clock_reads w)))
          /\ (forall u', u' <> u -> pages (snd res) !! u' = pages w !! u')
          /\ (List.filter Footprints.is_supplied kvs = [] ->
                (exists msg, fst res = Raise (OperationalError msg)) /\ r' = r))
    /\ (forall u shot sha prev w u',
          stored_text
            (pages (snd (VisionRouter.azure_stage clock json_dumps text_sha
                           azure_post cfg u shot sha prev w))) u' text_sha_paddle
          = stored_text (pages w) u' text_sha_paddle)
    /\ (forall u shot sha prev w u',
          stored_text
            (pages (snd (VisionRouter.paddle_stage clock json_dumps text_sha
                           paddle_ocr cfg u shot sha prev w))) u' text_sha_azure
          = stored_text (pages w) u' text_sha_azure)
    /\ (forall u shot pfp cb w u',
          VisionRouter.enable_paddle cfg = false ->
          stored_text
            (pages (snd (VisionRouter.check_or_escalate clock json_dumps text_sha
                           img_sha paddle_ocr azure_post cfg u shot pfp cb w)))
            u' text_sha_paddle
          = stored_text (pages w) u' text_sha_paddle)
    /\ (forall u shot pfp cb w u',
          VisionRouter.enable_azure cfg = false ->
          stored_text
            (pages (snd (VisionRouter.check_or_escalate clock json_dumps text_sha
                           img_sha paddle_ocr azure_post cfg u shot pfp cb w)))
            u' text_sha_azure
          = stored_text (pages w) u' text_sha_azure).
Proof.
  intros clock json_dumps text_sha img_sha paddle_ocr azure_post cfg.
  split; [|split; [|split; [|split]]].
  - intros u kvs w r Hr res. subst res. rewrite upsert_run, Hr.
    destruct (List.filter Footprints.is_supplied kvs) as [|a l] eqn:Hf.
    + exists r. simpl. split; [exact Hr|].
      split; [reflexivity|]. split; [reflexivity|].
      split; [discriminate|]. split; [reflexivity|].
      intros _. split; [eexists; reflexivity | reflexivity].
    + eexists. cbn [fst snd after_upsert with_pages with_clock_reads pages].
      split; [apply (upserted_existing _ u kvs (pages w) r Hr)|].
      rewrite Hf. split; [|split; [|split; [|split]]].
      * intros c Hc. rewrite set_int_text. apply fold_left_assign_text.
        -- rewrite <- Hf. apply filter_supplied.
        -- rewrite <- Hf. apply filter_keeps_unsupplied_text, Hc.
      * intros c Hls Hc. rewrite set_int_other by congruence.
        apply fold_left_assign_int.
        -- rewrite <- Hf. apply filter_supplied.
        -- rewrite <- Hf. apply filter_keeps_unsupplied_int, Hc.
      * intros _. apply set_int_same.
      * intros u' Hne. apply upserted_other, Hne.
      * discriminate.
  - intros u shot sha prev w u'.
    apply (azure_stage_keeps clock json_dumps text_sha azure_post cfg); discriminate.
  - intros u shot sha prev w u'.
    apply (paddle_stage_keeps clock json_dumps text_sha paddle_ocr cfg); discriminate.
  - intros u shot pfp cb w u' Hoff.
    apply (disabled_paddle_keeps clock json_dumps text_sha img_sha paddle_ocr
             azure_post cfg u shot pfp cb w Hoff).
  - intros u shot pfp cb w u' Hoff.
    apply (disabled_azure_keeps clock json_dumps text_sha img_sha paddle_ocr
             azure_post cfg u shot pfp cb w Hoff).
Qed.

(** A row written by the local tier, then updated with a cloud-tier hash. *)
Lemma upsert_frame_example :
  let u := "https://example.org/job/1" in
  let w1 := snd (VisionRouter.check_or_escalate Scenario.ticking_clock
                   Scenario.json_dumps Scenario.text_sha Scenario.img_sha
                   Scenario.paddle_good Scenario.azure_down
                   (Scenario.small_config true false false)
                   u Scenario.shot1 None None Scenario.fresh) in
  let r := {| r_canonical_url := None; r_first_seen := Some 1700000000;
              r_last_seen := Some 1700000000; r_last_model := Some "paddle";
              r_screenshot_sha := Some (Scenario.img_sha Scenario.shot1);
              r_text_sha_paddle := Some (Scenario.text_sha "head coach");
              r_text_sha_azure := None; r_etag := None;
              r_last_modified := None; r_notes := None |} in
  let res := Footprints.upsert Scenario.ticking_clock u
               [Footprints.SetText text_sha_azure (Some "sha256:cloud")] w1 in
  pages w1 !! u = Some r
  /\ exists r',
       pages (snd res) !! u = Some r'
       /\ Footprints.get_text r' text_sha_paddle
          = Some (Scenario.text_sha "head coach")
       /\ Footprints.get_int r' first_seen = Some 1700000000
       /\ Footprints.get_int r' last_seen = Some 1700000001.
Proof.
  intros u w1 r res.
  assert (Hr : pages w1 !! u = Some r) by (vm_compute; reflexivity).
  split; [exact Hr|].
  destruct (proj1 (upsert_frame Scenario.ticking_clock Scenario.json_dumps
                     Scenario.text_sha Scenario.img_sha Scenario.paddle_good
                     Scenario.azure_down (Scenario.small_config true false false))
              u [Footprints.SetText text_sha_azure (Some "sha256:cloud")] w1 r Hr)
    as (r' & H1 & H2 & H3 & H4 & _).
  exists r'. split; [exact H1|]. split; [|split].
  - rewrite H2; [reflexivity|]. intros (v & [H|[]]). discriminate H.
  - rewrite H3; [reflexivity | discriminate |]. intros (v & [H|[]]). discriminate H.
  - rewrite H4; [vm_compute; reflexivity|]. vm_compute. reflexivity.
Defined.

(** C6, where the code departs from it. [upsert] drops the keywords whose
    value is None and writes [UPDATE pages SET <columns>, last_seen=?], so it
    means to refresh [last_seen] on every call; but when no keyword is left
    the statement reads [SET , last_seen=?], SQLite rejects it, and the row
    keeps the [last_seen] it had. Here a row is inserted at second
    1700000000 and one second later [upsert(url, etag=None)] is called: the
    call raises and [last_seen] is still 1700000000. *)
Lemma C6_failing_input :
  let u := "https://example.org/job/1" in
  let w := snd (Footprints.upsert Scenario.ticking_clock u
                  [Footprints.SetText screenshot_sha (Some "sha1:A")]
                  Scenario.fresh) in
  let res := Footprints.upsert Scenario.ticking_clock u
               [Footprints.SetText etag None] w in
  stored_int (pages w) u last_seen = Some 1700000000
  /\ Scenario.ticking_clock (clock_reads w) = 1700000001
  /\ fst res = Raise (OperationalError "near , : syntax error")
  /\ stored_int (pages (snd res)) u last_seen = Some 1700000000
  /\ fst (Footprints.upsert Scenario.ticking_clock u [] w)
     = Raise (OperationalError "near , : syntax error").
Proof.
  intros u w res. repeat split; vm_compute; reflexivity.
Qed.



(** C8, as the code has it. The local client returns the mean of the scores
    of the entries whose text is not empty, 0.0 when there is none. The cloud
    client returns the mean of the word confidences present in the answer;
    when the answer carries none it returns 0.9 if the joined text is not
    empty and 0.0 otherwise. A detector that reports nothing gives 0.0 in
    both. *)
Theorem C8_confidence_is_mean_with_fallback :
  (forall r : PaddleClient.result,
      confidence (PaddleClient.build r) = mean_or_zero (map snd (paddle_kept r))
      /\ text (PaddleClient.build r)
         = Py.strip (Py.join newline (map fst (paddle_kept r))))
  /\ (forall d : AzureVisionClient.data,
        confidence (AzureVisionClient.build d)
        = match azure_word_confs d with
          | [] => if Py.truthy (text (AzureVisionClient.build d))
                  then 0.9%float else 0%float
          | c :: cs => mean (c :: cs)
          end)
  /\ (forall (ocr : list Byte.byte -> outcome PaddleClient.result)
             (post : list Byte.byte -> outcome AzureVisionClient.data)
             (b : list Byte.byte),
        PaddleClient.run ocr b
        = match ocr b with Ok r => Ok (PaddleClient.build r) | Raise e => Raise e end
        /\ AzureVisionClient.run post b
           = match post b with
             | Ok d => Ok (AzureVisionClient.build d)
             | Raise e => Raise e
             end)
  /\ confidence (PaddleClient.build None) = 0%float
  /\ confidence (PaddleClient.build (Some [])) = 0%float
  /\ confidence (AzureVisionClient.build []) = 0%float.
Proof.
  split; [|split; [|split]].
  - intros r. unfold PaddleClient.build. rewrite paddle_collect.
    cbn [text confidence]. split; [|reflexivity].
    destruct (map snd (paddle_kept r)); reflexivity.
  - intros d. unfold AzureVisionClient.build.
    pose proof (azure_collect d) as Hc.
    destruct (AzureVisionClient.collect d) as [lines confs].
    cbn [snd] in Hc. subst confs. cbn [text confidence].
    destruct (azure_word_confs d); reflexivity.
  - intros ocr post b. split; reflexivity.
  - repeat split; reflexivity.
Qed.

(** C8, as stated, fails for the cloud client. An answer with the line
    "head coach" and no word confidence gets 0.9, where the mean of what was
    reported, with 0.0 for nothing, is 0.0. An answer whose only line is blank
    and whose only word has confidence 0.5 gets the text "" and the confidence
    0.5, not 0.0. *)
Lemma C8_counterexample :
  let d1 := [[ {| AzureVisionClient.ln_text := Some "head coach";
                  AzureVisionClient.ln_words := [] |} ]] in
  let d2 := [[ {| AzureVisionClient.ln_text := Some " ";
                  AzureVisionClient.ln_words := [Some 0.5%float] |} ]] in
  AzureVisionClient.run Scenario.azure_no_words Scenario.shot1
    = Ok (AzureVisionClient.build d1)
  /\ azure_word_confs d1 = []
  /\ confidence (AzureVisionClient.build d1) = 0.9%float
  /\ confidence (AzureVisionClient.build d1) <> mean_or_zero (azure_word_confs d1)
  /\ AzureVisionClient.run Scenario.azure_blank_line Scenario.shot1
     = Ok (AzureVisionClient.build d2)
  /\ text (AzureVisionClient.build d2) = EmptyString
  /\ confidence (AzureVisionClient.build d2) = 0.5%float
  /\ confidence (AzureVisionClient.build d2) <> 0%float.
Proof.
  intros d1 d2.
  split; [reflexivity|]. split; [reflexivity|]. split; [vm_compute; reflexivity|].
  split.
  { intros H. apply (f_equal (PrimFloat.ltb 0%float)) in H.
    vm_compute in H. discriminate H. }
  split; [reflexivity|]. split; [vm_compute; reflexivity|].
  split; [vm_compute; reflexivity|].
  intros H. apply (f_equal (PrimFloat.ltb 0%float)) in H.
  vm_compute in H. discriminate H.
Qed.

(** * Beyond the claims: more of the router *)

Section RouterMore.

Variable clock : nat -> Z.
Variable json_dumps : info -> string.
Variable text_sha : string -> string.
Variable img_sha : list Byte.byte -> string.
Variable paddle_ocr : list Byte.byte -> outcome PaddleClient.result.
Variable azure_post : list Byte.byte -> outcome AzureVisionClient.data.
Variable cfg : VisionRouter.RouterConfig.

(** A name in [order] that enters none of the three [if]s of the loop
    body: a disabled tier, or a name that is no tier. *)
Definition inert (stage : string) : bool :=
  negb (runs_paddle cfg stage) && negb (runs_azure cfg stage)
  && negb (runs_gemini cfg stage).

Lemma stage_body_inert (u : string) (shot : list Byte.byte)
    (sha prev_p prev_a : string)
    (cb : option (unit -> outcome (option VisionRouter.fields_t)))
    (stage : string) (used : bool) (w : world) :
  inert stage = true ->
  VisionRouter.stage_body clock json_dumps text_sha paddle_ocr azure_post cfg
    u shot sha prev_p prev_a cb stage used w = (Ok (None, used), w).
Proof.
  unfold inert. intros H. rewrite stage_body_run.
  destruct (runs_paddle cfg stage); [discriminate|].
  destruct (runs_azure cfg stage); [discriminate|].
  destruct (runs_gemini cfg stage); [discriminate|]. reflexivity.
Qed.

Lemma walk_inert_prefix (u : string) (shot : list Byte.byte)
    (sha prev_p prev_a : string)
    (cb : option (unit -> outcome (option VisionRouter.fields_t)))
    (pre rest : list string) :
  forall (used : bool) (last_stage : option string) (w : world),
    forallb inert pre = true ->
    VisionRouter.walk clock json_dumps text_sha paddle_ocr azure_post cfg
      u shot sha prev_p prev_a cb (pre ++ rest)%list used last_stage w
    = VisionRouter.walk clock json_dumps text_sha paddle_ocr azure_post cfg
        u shot sha prev_p prev_a cb rest used (last_stage_after pre last_stage) w.
Proof.
  induction pre as [|stage pre IH]; intros used last_stage w H; [reflexivity|].
  cbn [forallb] in H. apply andb_prop in H as [Hs Hp].
  cbn [app VisionRouter.walk last_stage_after]. cbv [bind].
  rewrite (stage_body_inert _ _ _ _ _ _ _ _ _ Hs). apply IH, Hp.
Qed.

(** The condition of the fast path, as the code tests it. *)
Definition fast_path (u : string) (shot : list Byte.byte) (w : world) : bool :=
  match pages w !! u with
  | Some r => String.eqb (Footprints.or_empty (r_screenshot_sha r)) (img_sha shot)
  | None => false
  end.

(** The two per-tier hashes [check_or_escalate] reads before the loop. *)
Definition prev_paddle (u : string) (w : world) : string :=
  match pages w !! u with
  | Some r => Footprints.or_empty (r_text_sha_paddle r)
  | None => ""
  end.

Definition prev_azure (u : string) (w : world) : string :=
  match pages w !! u with
  | Some r => Footprints.or_empty (r_text_sha_azure r)
  | None => ""
  end.

Lemma check_or_escalate_walks (u : string) (shot : list Byte.byte)
    (pfp : option (list (string * string)))
    (cb : option (unit -> outcome (option VisionRouter.fields_t))) (w : world) :
  fast_path u shot w = false ->
  VisionRouter.check_or_escalate clock json_dumps text_sha img_sha paddle_ocr
    azure_post cfg u shot pfp cb w
  = VisionRouter.walk clock json_dumps text_sha paddle_ocr azure_post cfg
      u shot (img_sha shot) (prev_paddle u w) (prev_azure u w) cb
      (VisionRouter.order cfg) false None w.
Proof.
  unfold fast_path, prev_paddle, prev_azure. intros H.
  rewrite check_or_escalate_run. destruct (pages w !! u) as [r|]; [|reflexivity].
  rewrite H. reflexivity.
Qed.

Lemma check_or_escalate_skips (u : string) (shot : list Byte.byte)
    (pfp : option (list (string * string)))
    (cb : option (unit -> outcome (option VisionRouter.fields_t))) (w : world) :
  fast_path u shot w = true ->
  VisionRouter.check_or_escalate clock json_dumps text_sha img_sha paddle_ocr
    azure_post cfg u shot pfp cb w
  = (Ok skipped_decision, after_skip clock img_sha u shot w).
Proof.
  unfold fast_path. intros H.
  rewrite check_or_escalate_run. destruct (pages w !! u) as [r|]; [|discriminate].
  rewrite H. reflexivity.
Qed.

End RouterMore.

(** X1. With the three tiers disabled and no matching screenshot stored,
    a call returns [status=noop, changed=True, fields={}] and does nothing but
    log the warning: tables, clock readings, counters and external calls are
    as before, whatever names [order] holds. *)
Theorem X1_all_disabled_is_noop :
  forall (clock : nat -> Z) (json_dumps : info -> string)
         (text_sha : string -> string) (img_sha : list Byte.byte -> string)
         (paddle_ocr : list Byte.byte -> outcome PaddleClient.result)
         (azure_post : list Byte.byte -> outcome AzureVisionClient.data)
         (cfg : VisionRouter.RouterConfig)
         (u : string) (shot : list Byte.byte)
         (pfp : option (list (string * string)))
         (cb : option (unit -> outcome (option VisionRouter.fields_t)))
         (w : world),
    VisionRouter.enable_paddle cfg = false ->
    VisionRouter.enable_azure cfg = false ->
    VisionRouter.enable_gemini cfg = false ->
    fast_path img_sha u shot w = false ->
    VisionRouter.check_or_escalate clock json_dumps text_sha img_sha paddle_ocr
      azure_post cfg u shot pfp cb w
    = (Ok {| VisionRouter.status := "noop"; VisionRouter.changed := true;
             VisionRouter.fields := [] |},
       with_log (fun l => (l ++ [NOOP u])%list) w).
Proof.
  intros clock json_dumps text_sha img_sha paddle_ocr azure_post cfg u shot
    pfp cb w Hp Ha Hg Hfast.
  rewrite (check_or_escalate_walks _ _ _ _ _ _ _ _ _ _ _ _ Hfast).
  rewrite <- (app_nil_r (VisionRouter.order cfg)).
  rewrite walk_inert_prefix.
  - reflexivity.
  - apply forallb_forall. intros stage _. unfold inert, runs_paddle, runs_azure,
      runs_gemini. rewrite Hp, Ha, Hg, !andb_false_r. reflexivity.
Qed.

(** Scenario D on an empty store. *)
Lemma X1_witness :
  VisionRouter.check_or_escalate Scenario.frozen_clock Scenario.json_dumps
    Scenario.text_sha Scenario.img_sha Scenario.paddle_good
    Scenario.azure_no_words (Scenario.small_config false false false)
    "https://example.org/job/1" Scenario.shot1 None
    (Some Scenario.gemini_extracts) Scenario.fresh
  = (Ok {| VisionRouter.status := "noop"; VisionRouter.changed := true;
           VisionRouter.fields := [] |},
     with_log (fun l => (l ++ [NOOP "https://example.org/job/1"])%list)
       Scenario.fresh).
Proof.
  apply (X1_all_disabled_is_noop Scenario.frozen_clock Scenario.json_dumps
           Scenario.text_sha Scenario.img_sha Scenario.paddle_good
           Scenario.azure_no_words (Scenario.small_config false false false));
    reflexivity.
Defined.

(** X2. A detector that fails fails the call: when the first name in
    [order] that is an enabled tier is an analyzer whose detector raises, the
    call raises that exception, having only called that detector; no table is
    written, no counter moves, no later tier is tried. *)
Theorem X2_analyzer_failure_propagates :
  forall (clock : nat -> Z) (json_dumps : info -> string)
         (text_sha : string -> string) (img_sha : list Byte.byte -> string)
         (paddle_ocr : list Byte.byte -> outcome PaddleClient.result)
         (azure_post : list Byte.byte -> outcome AzureVisionClient.data)
         (cfg : VisionRouter.RouterConfig)
         (u : string) (shot : list Byte.byte)
         (pfp : option (list (string * string)))
         (cb : option (unit -> outcome (option VisionRouter.fields_t)))
         (w : world) (pre rest : list string) (e : exn),
    fast_path img_sha u shot w = false ->
    forallb (inert cfg) pre = true ->
    (VisionRouter.order cfg = (pre ++ "paddle" :: rest)%list ->
     VisionRouter.enable_paddle cfg = true ->
     paddle_ocr shot = Raise e ->
     VisionRouter.check_or_escalate clock json_dumps text_sha img_sha paddle_ocr
       azure_post cfg u shot pfp cb w
     = (Raise e, with_calls (fun l => (l ++ [PaddleRun shot])%list) w))
    /\ (VisionRouter.order cfg = (pre ++ "azure" :: rest)%list ->
        VisionRouter.enable_azure cfg = true ->
        azure_post shot = Raise e ->
        VisionRouter.check_or_escalate clock json_dumps text_sha img_sha paddle_ocr
          azure_post cfg u shot pfp cb w
        = (Raise e, with_calls (fun l => (l ++ [AzureRun shot])%list) w)).
Proof.
  intros clock json_dumps text_sha img_sha paddle_ocr azure_post cfg u shot
    pfp cb w pre rest e Hfast Hpre.
  rewrite (check_or_escalate_walks _ _ _ _ _ _ _ _ _ _ _ _ Hfast).
  split; intros Ho Hen Hraise; rewrite Ho, walk_inert_prefix by exact Hpre;
    cbn [VisionRouter.walk]; cbv [bind]; rewrite stage_body_run;
    unfold runs_paddle, runs_azure; rewrite Hen; cbn [String.eqb Ascii.eqb Bool.eqb andb].
  - rewrite paddle_stage_run, Hraise. reflexivity.
  - rewrite azure_stage_run, Hraise. reflexivity.
Qed.

(** The cloud service is down and the local tier is disabled. *)
Lemma X2_witness :
  VisionRouter.check_or_escalate Scenario.frozen_clock Scenario.json_dumps
    Scenario.text_sha Scenario.img_sha Scenario.paddle_good
    Scenario.azure_down (Scenario.small_config false true true)
    "https://example.org/job/1" Scenario.shot1 None
    (Some Scenario.gemini_extracts) Scenario.fresh
  = (Raise (ExternalError "503"),
     with_calls (fun l => (l ++ [AzureRun Scenario.shot1])%list) Scenario.fresh).
Proof.
  apply (proj2 (X2_analyzer_failure_propagates Scenario.frozen_clock
           Scenario.json_dumps Scenario.text_sha Scenario.img_sha
           Scenario.paddle_good Scenario.azure_down
           (Scenario.small_config false true true)
           "https://example.org/job/1" Scenario.shot1 None
           (Some Scenario.gemini_extracts) Scenario.fresh
           ["paddle"] ["gemini"] (ExternalError "503") eq_refl eq_refl));
    reflexivity.
Defined.

(** X3. The expensive tier ends the walk. When every name before "gemini" in
    [order] is a disabled tier or no tier, a call that misses the fast path
    goes straight to the expensive stage: it adds one to
    [escalated_to_gemini], invokes the callback if there is one, writes the
    screenshot hash and [last_model = "gemini"], and returns
    [status=gemini, changed=True] with the callback's dict ([{}] without a
    callback or when it returns None). The names after "gemini" are never
    visited. *)
Theorem X3_straight_to_gemini :
  forall (clock : nat -> Z) (json_dumps : info -> string)
         (text_sha : string -> string) (img_sha : list Byte.byte -> string)
         (paddle_ocr : list Byte.byte -> outcome PaddleClient.result)
         (azure_post : list Byte.byte -> outcome AzureVisionClient.data)
         (cfg : VisionRouter.RouterConfig)
         (u : string) (shot : list Byte.byte)
         (pfp : option (list (string * string)))
         (w : world) (pre rest : list string),
    fast_path img_sha u shot w = false ->
    VisionRouter.order cfg = (pre ++ "gemini" :: rest)%list ->
    forallb (inert cfg) pre = true ->
    VisionRouter.enable_gemini cfg = true ->
    let write := Footprints.upsert clock u
                   [Footprints.SetText screenshot_sha (Some (img_sha shot));
                    Footprints.SetText last_model (Some "gemini")] in
    VisionRouter.check_or_escalate clock json_dumps text_sha img_sha paddle_ocr
      azure_post cfg u shot pfp None w
    = (Ok {| VisionRouter.status := "gemini"; VisionRouter.changed := true;
             VisionRouter.fields := [] |},
       with_log (fun l => (l ++ [EXTRACT_gemini u])%list)
         (snd (write (with_escalated_to_gemini (Z.add 1) w))))
    /\ (forall f r,
          f tt = Ok r ->
          VisionRouter.check_or_escalate clock json_dumps text_sha img_sha
            paddle_ocr azure_post cfg u shot pfp (Some f) w
          = (Ok {| VisionRouter.status := "gemini"; VisionRouter.changed := true;
                   VisionRouter.fields := match r with Some d => d | None => [] end |},
             with_log (fun l => (l ++ [EXTRACT_gemini u])%list)
               (snd (write (with_calls (fun l => (l ++ [GeminiCallback])%list)
                              (with_escalated_to_gemini (Z.add 1) w)))))).
Proof.
  intros clock json_dumps text_sha img_sha paddle_ocr azure_post cfg u shot
    pfp w pre rest Hfast Ho Hpre Hen write. subst write.
  assert (Hstage : forall cb used last,
             VisionRouter.walk clock json_dumps text_sha paddle_ocr azure_post cfg
               u shot (img_sha shot) (prev_paddle u w) (prev_azure u w) cb
               (VisionRouter.order cfg) used last w
             = tagged (fun d => d) (VisionRouter.gemini_stage clock u (img_sha shot) cb w)).
  { intros cb used last. rewrite Ho, walk_inert_prefix by exact Hpre.
    cbn [VisionRouter.walk]. cbv [bind ret]. rewrite stage_body_run.
    unfold runs_paddle, runs_azure, runs_gemini. rewrite Hen.
    cbn [String.eqb Ascii.eqb Bool.eqb andb].
    destruct (VisionRouter.gemini_stage clock u (img_sha shot) cb w) as [[d|e] w'];
      reflexivity. }
  split.
  - rewrite (check_or_escalate_walks _ _ _ _ _ _ _ _ _ _ _ _ Hfast), Hstage.
    rewrite gemini_stage_run, upsert_ok by (simpl; discriminate). reflexivity.
  - intros f r Hf.
    rewrite (check_or_escalate_walks _ _ _ _ _ _ _ _ _ _ _ _ Hfast), Hstage.
    rewrite gemini_stage_run, Hf, upsert_ok by (simpl; discriminate). reflexivity.
Qed.

(** Scenario B's second half: the cloud tier is disabled, the local tier is
    too, and the agent extracts a title. *)
Lemma X3_witness :
  let res := VisionRouter.check_or_escalate Scenario.frozen_clock
               Scenario.json_dumps Scenario.text_sha Scenario.img_sha
               Scenario.paddle_good Scenario.azure_down
               (Scenario.small_config false false true)
               "https://example.org/job/1" Scenario.shot1 None
               (Some Scenario.gemini_extracts) Scenario.fresh in
  fst res = Ok {| VisionRouter.status := "gemini"; VisionRouter.changed := true;
                  VisionRouter.fields := [("job_title", "Head Coach")] |}
  /\ calls (snd res) = [GeminiCallback]
  /\ tally (snd res) = (0, 0, 1).
Proof.
  intros res. subst res.
  rewrite (proj2 (X3_straight_to_gemini Scenario.frozen_clock
             Scenario.json_dumps Scenario.text_sha Scenario.img_sha
             Scenario.paddle_good Scenario.azure_down
             (Scenario.small_config false false true)
             "https://example.org/job/1" Scenario.shot1 None Scenario.fresh
             ["paddle"; "azure"] [] eq_refl eq_refl eq_refl eq_refl)
           Scenario.gemini_extracts (Some [("job_title", "Head Coach")]) eq_refl).
  repeat split; vm_compute; reflexivity.
Defined.

Section ExpensiveInOrder.

Variable clock : nat -> Z.
Variable json_dumps : info -> string.
Variable text_sha : string -> string.
Variable img_sha : list Byte.byte -> string.
Variable paddle_ocr : list Byte.byte -> outcome PaddleClient.result.
Variable azure_post : list Byte.byte -> outcome AzureVisionClient.data.
Variable cfg : VisionRouter.RouterConfig.
Hypothesis gemini_on : VisionRouter.enable_gemini cfg = true.

(** The sum of the three counters. *)
Definition total (w : world) : Z :=
  skipped_nochange w + used_cheap_ocr w + escalated_to_gemini w.

Lemma stage_body_none_not_gemini (u : string) (shot : list Byte.byte)
    (sha prev_p prev_a : string)
    (cb : option (unit -> outcome (option VisionRouter.fields_t)))
    (stage : string) (used used' : bool) (w w' : world) :
  VisionRouter.stage_body clock json_dumps text_sha paddle_ocr azure_post cfg
    u shot sha prev_p prev_a cb stage used w = (Ok (None, used'), w') ->
  stage <> "gemini".
Proof.
  intros H ->. rewrite stage_body_run in H.
  unfold runs_paddle, runs_azure, runs_gemini in H. rewrite gemini_on in H.
  cbn [String.eqb Ascii.eqb Bool.eqb andb] in H.
  destruct (VisionRouter.gemini_stage clock u sha cb w) as [[d|e] w1];
    discriminate H.
Qed.

Lemma walk_resolves (u : string) (shot : list Byte.byte)
    (sha prev_p prev_a : string)
    (cb : option (unit -> outcome (option VisionRouter.fields_t)))
    (stages : list string) :
  forall (used : bool) (last_stage : option string) (w w' : world)
         (d : VisionRouter.decision),
    In "gemini" stages ->
    VisionRouter.walk clock json_dumps text_sha paddle_ocr azure_post cfg
      u shot sha prev_p prev_a cb stages used last_stage w = (Ok d, w') ->
    exists rec, log w' = (log w ++ [rec])%list
                /\ resolved rec d (tally w) (tally w').
Proof.
  induction stages as [|stage rest IH]; intros used last_stage w w' d Hin;
    [destruct Hin|].
  cbn [VisionRouter.walk]. cbv [bind ret].
  destruct (VisionRouter.stage_body _ _ _ _ _ _ _ _ _ _ _ _ _ _ w)
    as [[[[d0|] used']|e] w1] eqn:Hb; try discriminate.
  - intros H; injection H as <- <-.
    apply (stage_body_ok _ _ _ _ _ _ _ _ _ _ _ _ _ _ _ _ _ _ Hb).
  - intros H.
    destruct (stage_body_ok _ _ _ _ _ _ _ _ _ _ _ _ _ _ _ _ _ _ Hb) as (Hl & Ht).
    destruct Hin as [->|Hin];
      [exfalso; exact (stage_body_none_not_gemini _ _ _ _ _ _ _ _ _ _ _ Hb eq_refl)|].
    destruct (IH _ _ _ _ _ Hin H) as (rec & Hl' & Hr).
    exists rec. rewrite Hl', Hl, <- Ht. split; [reflexivity | exact Hr].
Qed.

Lemma resolved_shape (rec : log_record) (d : VisionRouter.decision)
    (sk us es sk' us' es' : Z) :
  resolved rec d (sk, us, es) (sk', us', es') ->
  In (VisionRouter.status d) ["paddle"; "azure"; "gemini"]
  /\ sk' + us' + es' = sk + us + es + 1
  /\ (VisionRouter.changed d = true <-> VisionRouter.status d = "gemini").
Proof.
  destruct rec; simpl; try contradiction.
  - intros (-> & H). injection H as -> -> ->. simpl.
    split; [tauto|]. split; [lia|]. split; discriminate.
  - intros (-> & H). injection H as -> -> ->. simpl.
    split; [tauto|]. split; [lia|]. split; discriminate.
  - intros (Hs & Hc & H). injection H as -> -> ->. rewrite Hs, Hc.
    split; [simpl; tauto|]. split; [lia|]. split; reflexivity.
Qed.

Lemma check_or_escalate_resolves (u : string) (shot : list Byte.byte)
    (pfp : option (list (string * string)))
    (cb : option (unit -> outcome (option VisionRouter.fields_t)))
    (w w' : world) (d : VisionRouter.decision) :
  In "gemini" (VisionRouter.order cfg) ->
  VisionRouter.check_or_escalate clock json_dumps text_sha img_sha paddle_ocr
    azure_post cfg u shot pfp cb w = (Ok d, w') ->
  In (VisionRouter.status d) ["skipped"; "paddle"; "azure"; "gemini"]
  /\ total w' = total w + 1
  /\ (VisionRouter.changed d = true <-> VisionRouter.status d = "gemini").
Proof.
  intros Hin. rewrite check_or_escalate_run.
  assert (Hwalk : forall pp pa,
             VisionRouter.walk clock json_dumps text_sha paddle_ocr azure_post cfg
               u shot (img_sha shot) pp pa cb (VisionRouter.order cfg) false None w
             = (Ok d, w') ->
             In (VisionRouter.status d) ["skipped"; "paddle"; "azure"; "gemini"]
             /\ total w' = total w + 1
             /\ (VisionRouter.changed d = true <-> VisionRouter.status d = "gemini")).
  { intros pp pa H. destruct (walk_resolves _ _ _ _ _ _ _ _ _ _ _ _ Hin H)
      as (rec & _ & Hr).
    unfold tally in Hr. apply resolved_shape in Hr as (H1 & H2 & H3).
    split; [right; exact H1|]. split; [unfold total; lia | exact H3]. }
  destruct (pages w !! u) as [r|]; [|apply Hwalk].
  destruct (String.eqb _ _); [|apply Hwalk].
  intros H; injection H as <- <-. unfold total. simpl.
  split; [tauto|]. split; [lia|]. split; discriminate.
Qed.

Lemma batch_resolves (reqs : list request) :
  forall (w w' : world) (ds : list VisionRouter.decision),
    In "gemini" (VisionRouter.order cfg) ->
    batch clock json_dumps text_sha img_sha paddle_ocr azure_post cfg reqs w
    = (Ok ds, w') ->
    total w' = total w + Z.of_nat (length reqs).
Proof.
  induction reqs as [|q rest IH]; intros w w' ds Hin; simpl.
  - cbv [ret]. intros H; injection H as <- <-. lia.
  - cbv [bind ret].
    destruct (serve _ _ _ _ _ _ _ q w) as [[d|e] w1] eqn:Hq; [|discriminate].
    destruct (batch _ _ _ _ _ _ _ rest w1) as [[ds'|e] w2] eqn:Hb; [|discriminate].
    intros H; injection H as <- <-. unfold serve in Hq.
    destruct (check_or_escalate_resolves _ _ _ _ _ _ _ Hin Hq) as (_ & Ht & _).
    rewrite (IH _ _ _ Hin Hb), Ht. lia.
Qed.

End ExpensiveInOrder.

(** X4. When "gemini" is in [order] and the expensive tier is enabled (as in
    the default configuration), the loop never runs to its end: a call that
    returns has status skipped, paddle, azure or gemini, never noop; it
    reports [changed=True] exactly when the status is gemini; and it adds
    exactly one to the sum of the three counters. Over calls made one after
    the other, none raising, the sum grows by the number of calls. *)
Theorem X4_expensive_in_order_always_resolves :
  forall (clock : nat -> Z) (json_dumps : info -> string)
         (text_sha : string -> string) (img_sha : list Byte.byte -> string)
         (paddle_ocr : list Byte.byte -> outcome PaddleClient.result)
         (azure_post : list Byte.byte -> outcome AzureVisionClient.data)
         (cfg : VisionRouter.RouterConfig),
    VisionRouter.enable_gemini cfg = true ->
    In "gemini" (VisionRouter.order cfg) ->
    (forall u shot pfp cb w w' d,
        VisionRouter.check_or_escalate clock json_dumps text_sha img_sha
          paddle_ocr azure_post cfg u shot pfp cb w = (Ok d, w') ->
        In (VisionRouter.status d) ["skipped"; "paddle"; "azure"; "gemini"]
        /\ total w' = total w + 1
        /\ (VisionRouter.changed d = true <-> VisionRouter.status d = "gemini"))
    /\ (forall reqs w w' ds,
          batch clock json_dumps text_sha img_sha paddle_ocr azure_post cfg reqs w
          = (Ok ds, w') ->
          total w' = total w + Z.of_nat (length reqs)).
Proof.
  intros clock json_dumps text_sha img_sha paddle_ocr azure_post cfg Hen Hin.
  split.
  - intros u shot pfp cb w w' d H.
    apply (check_or_escalate_resolves clock json_dumps text_sha img_sha
             paddle_ocr azure_post cfg Hen u shot pfp cb w w' d Hin H).
  - intros reqs w w' ds H.
    apply (batch_resolves clock json_dumps text_sha img_sha paddle_ocr
             azure_post cfg Hen reqs w w' ds Hin H).
Qed.

(** The default configuration on a page read with low confidence, the
    cloud service answering without word confidences. *)
Lemma X4_witness :
  let res := VisionRouter.check_or_escalate Scenario.frozen_clock
               Scenario.json_dumps Scenario.text_sha Scenario.img_sha
               Scenario.paddle_low Scenario.azure_no_words
               VisionRouter.default_config
               "https://example.org/job/1" Scenario.shot1 None
               (Some Scenario.gemini_extracts) Scenario.fresh in
  VisionRouter.status (match fst res with
                       | Ok d => d
                       | Raise _ => skipped_decision
                       end) = "gemini"
  /\ total (snd res) = total Scenario.fresh + 1.
Proof.
  intros res.
  assert (E : exists d, res = (Ok d, snd res) /\ VisionRouter.status d = "gemini").
  { eexists. split; vm_compute; reflexivity. }
  destruct E as (d & E & Hd). split; [rewrite E; exact Hd|].
  apply (proj1 (X4_expensive_in_order_always_resolves Scenario.frozen_clock
                  Scenario.json_dumps Scenario.text_sha Scenario.img_sha
                  Scenario.paddle_low Scenario.azure_no_words
                  VisionRouter.default_config eq_refl
                  ltac:(right; right; left; reflexivity))
           "https://example.org/job/1" Scenario.shot1 None
           (Some Scenario.gemini_extracts) Scenario.fresh (snd res) d E).
Defined.

Section CallbackTrace.

Variable clock : nat -> Z.
Variable json_dumps : info -> string.
Variable text_sha : string -> string.
Variable img_sha : list Byte.byte -> string.
Variable paddle_ocr : list Byte.byte -> outcome PaddleClient.result.
Variable azure_post : list Byte.byte -> outcome AzureVisionClient.data.
Variable cfg : VisionRouter.RouterConfig.
Variable cb : option (unit -> outcome (option VisionRouter.fields_t)).

(** The external calls a run adds are detector runs, then at most the
    callback; [escalated_to_gemini] grows by one when the callback was
    invoked (or, without a callback, when the expensive stage was entered)
    and not otherwise. *)
Definition callback_last (w w' : world) : Prop :=
  exists l0,
    Forall analyzer_call l0
    /\ ((calls w' = (calls w ++ l0)%list
         /\ (escalated_to_gemini w' = escalated_to_gemini w
             \/ (cb = None /\ escalated_to_gemini w' = 1 + escalated_to_gemini w)))
        \/ (cb <> None
            /\ calls w' = (calls w ++ l0 ++ [GeminiCallback])%list
            /\ escalated_to_gemini w' = 1 + escalated_to_gemini w)).

Lemma callback_last_quiet (w w' : world) :
  calls w' = calls w -> escalated_to_gemini w' = escalated_to_gemini w ->
  callback_last w w'.
Proof.
  intros Hc He. exists []. split; [constructor|]. left.
  split; [rewrite Hc; symmetry; apply app_nil_r | left; exact He].
Qed.

Lemma callback_last_analyzer (c : call) (w w' : world) :
  analyzer_call c ->
  calls w' = (calls w ++ [c])%list ->
  escalated_to_gemini w' = escalated_to_gemini w ->
  callback_last w w'.
Proof.
  intros Ha Hc He. exists [c]. split; [constructor; [exact Ha | constructor]|].
  left. split; [exact Hc | left; exact He].
Qed.

Lemma callback_last_prepend (l1 : list call) (w w1 w' : world) :
  calls w1 = (calls w ++ l1)%list -> Forall analyzer_call l1 ->
  escalated_to_gemini w1 = escalated_to_gemini w ->
  callback_last w1 w' -> callback_last w w'.
Proof.
  intros Hc Hf He (l0 & Hf0 & H). exists (l1 ++ l0)%list.
  split; [apply Forall_app; split; assumption|].
  rewrite Hc, He in H. rewrite <- !app_assoc in H.
  rewrite <- app_assoc. exact H.
Qed.

Lemma stage_body_callback_last (u : string) (shot : list Byte.byte)
    (sha prev_p prev_a stage : string) (used : bool) (w : world) :
  callback_last w
    (snd (VisionRouter.stage_body clock json_dumps text_sha paddle_ocr azure_post
            cfg u shot sha prev_p prev_a cb stage used w)).
Proof.
  rewrite stage_body_run.
  destruct (runs_paddle cfg stage).
  { rewrite snd_tagged, paddle_stage_run.
    apply (callback_last_analyzer (PaddleRun shot)); [discriminate| |];
      destruct (paddle_ocr shot); try reflexivity; simpl;
      destruct (VisionRouter._needs_escalation _ _ _ _); reflexivity. }
  destruct (runs_azure cfg stage).
  { rewrite snd_tagged, azure_stage_run.
    apply (callback_last_analyzer (AzureRun shot)); [discriminate| |];
      destruct (azure_post shot); try reflexivity; simpl;
      destruct (VisionRouter._needs_escalation _ _ _ _); reflexivity. }
  destruct (runs_gemini cfg stage).
  { rewrite snd_tagged, gemini_stage_run. exists []. split; [constructor|].
    destruct cb as [f|] eqn:Hcb.
    - right. split; [discriminate|]. destruct (f tt); simpl; split; reflexivity.
    - left. simpl. split; [symmetry; apply app_nil_r|]. right. split; reflexivity. }
  apply callback_last_quiet; reflexivity.
Qed.

Lemma walk_callback_last (u : string) (shot : list Byte.byte)
    (sha prev_p prev_a : string) (stages : list string) :
  forall (used : bool) (last_stage : option string) (w : world),
    callback_last w
      (snd (VisionRouter.walk clock json_dumps text_sha paddle_ocr azure_post cfg
              u shot sha prev_p prev_a cb stages used last_stage w)).
Proof.
  induction stages as [|stage rest IH]; intros used last_stage w.
  - cbn [VisionRouter.walk]. unfold VisionRouter.exhausted, VisionRouter.logged.
    cbv [bind modify ret]. destruct used; apply callback_last_quiet; reflexivity.
  - cbn [VisionRouter.walk]. cbv [bind ret].
    pose proof (stage_body_callback_last u shot sha prev_p prev_a stage used w) as Hb.
    destruct (VisionRouter.stage_body _ _ _ _ _ _ _ _ _ _ _ _ _ _ w)
      as [[[[d|] used']|e] w1] eqn:Hs; try exact Hb.
    destruct (stage_body_ok _ _ _ _ _ _ _ _ _ _ _ _ _ _ _ _ _ _ Hs) as (_ & Ht).
    assert (He : escalated_to_gemini w1 = escalated_to_gemini w)
      by (unfold tally in Ht; congruence).
    destruct (stage_body_falls_through _ _ _ _ _ _ _ _ _ _ _ _ _ _ _ _ _ Hs)
      as [(_ & Hc)|(_ & c & Hc & Ha)].
    + apply (callback_last_prepend [] w w1); [rewrite Hc; symmetry; apply app_nil_r
        | constructor | exact He | apply IH].
    + apply (callback_last_prepend [c] w w1); [exact Hc
        | constructor; [exact Ha | constructor] | exact He | apply IH].
Qed.

Lemma check_or_escalate_callback_last (u : string) (shot : list Byte.byte)
    (pfp : option (list (string * string))) (w : world) :
  callback_last w
    (snd (VisionRouter.check_or_escalate clock json_dumps text_sha img_sha
            paddle_ocr azure_post cfg u shot pfp cb w)).
Proof.
  rewrite check_or_escalate_run.
  destruct (pages w !! u) as [r|]; [|apply walk_callback_last].
  destruct (String.eqb _ _); [|apply walk_callback_last].
  apply callback_last_quiet; reflexivity.
Qed.

End CallbackTrace.

(** X5. Whatever the outcome of a call, the external calls it makes are
    detector runs followed by at most one invocation of the callback, which is
    then the last call made; and [escalated_to_gemini] has grown by one
    exactly when the expensive stage was entered, the callback raising or
    not. *)
Theorem X5_callback_at_most_once_and_last :
  forall (clock : nat -> Z) (json_dumps : info -> string)
         (text_sha : string -> string) (img_sha : list Byte.byte -> string)
         (paddle_ocr : list Byte.byte -> outcome PaddleClient.result)
         (azure_post : list Byte.byte -> outcome AzureVisionClient.data)
         (cfg : VisionRouter.RouterConfig)
         (u : string) (shot : list Byte.byte)
         (pfp : option (list (string * string)))
         (cb : option (unit -> outcome (option VisionRouter.fields_t)))
         (w : world),
    let w' := snd (VisionRouter.check_or_escalate clock json_dumps text_sha
                     img_sha paddle_ocr azure_post cfg u shot pfp cb w) in
    exists l0,
      Forall (fun c => tier_of_call c <> None) l0
      /\ ((calls w' = (calls w ++ l0)%list
           /\ (escalated_to_gemini w' = escalated_to_gemini w
               \/ (cb = None
                   /\ escalated_to_gemini w' = 1 + escalated_to_gemini w)))
          \/ (cb <> None
              /\ calls w' = (calls w ++ l0 ++ [GeminiCallback])%list
              /\ escalated_to_gemini w' = 1 + escalated_to_gemini w)).
Proof.
  intros clock json_dumps text_sha img_sha paddle_ocr azure_post cfg u shot
    pfp cb w.
  apply (check_or_escalate_callback_last clock json_dumps text_sha img_sha
           paddle_ocr azure_post cfg cb u shot pfp w).
Qed.

Section Marked.

Variable clock : nat -> Z.
Variable json_dumps : info -> string.
Variable text_sha : string -> string.
Variable img_sha : list Byte.byte -> string.
Variable paddle_ocr : list Byte.byte -> outcome PaddleClient.result.
Variable azure_post : list Byte.byte -> outcome AzureVisionClient.data.
Variable cfg : VisionRouter.RouterConfig.
Variable u : string.
Variable shot : list Byte.byte.

(** The row of [u] holds the hash of [shot] as its screenshot hash. *)
Definition marked (w : world) : Prop :=
  stored_text (pages w) u screenshot_sha = Some (img_sha shot).

Lemma marked_fast_path (w : world) :
  marked w -> fast_path img_sha u shot w = true.
Proof.
  unfold marked, stored_text, fast_path.
  destruct (pages w !! u) as [r|]; simpl; [|discriminate].
  intros ->. apply String.eqb_refl.
Qed.

Lemma marked_same (w w' : world) : pages w' = pages w -> marked w -> marked w'.
Proof. unfold marked. intros ->. tauto. Qed.

Lemma after_upsert_marks (kvs : list Footprints.assignment) (w : world) :
  (forall r, Footprints.get_text
               (fold_left Footprints.assign (List.filter Footprints.is_supplied kvs) r)
               screenshot_sha = Some (img_sha shot)) ->
  (forall r, Footprints.get_text
               (fold_right (fun a r => Footprints.assign r a) r
                  (List.filter Footprints.is_supplied kvs))
               screenshot_sha = Some (img_sha shot)) ->
  marked (after_upsert clock u kvs w).
Proof.
  intros Hl Hr. unfold marked, stored_text, after_upsert.
  cbn [pages with_pages with_clock_reads].
  destruct (pages w !! u) as [r|] eqn:E.
  - rewrite (upserted_existing _ u kvs _ r E). apply Hl.
  - rewrite (upserted_fresh _ u kvs _ E). apply Hr.
Qed.

(** What one pass through the loop body can have done, as far as the
    stored screenshot hash and the external calls go. *)
Inductive stage_outcome (used : bool) (w : world)
  : outcome (option VisionRouter.decision * bool) * world -> Prop :=
| so_inert : stage_outcome used w (Ok (None, used), w)
| so_analyzer_raise (e : exn) (w1 : world) (c : call) :
    analyzer_call c -> calls w1 = (calls w ++ [c])%list -> pages w1 = pages w ->
    stage_outcome used w (Raise e, w1)
| so_analyzer_escalate (w1 : world) (c : call) :
    analyzer_call c -> calls w1 = (calls w ++ [c])%list -> marked w1 ->
    stage_outcome used w (Ok (None, true), w1)
| so_analyzer_resolve (d : VisionRouter.decision) (w1 : world) (c : call) :
    analyzer_call c -> calls w1 = (calls w ++ [c])%list -> marked w1 ->
    stage_outcome used w (Ok (Some d, true), w1)
| so_gemini_raise (e : exn) (w1 : world) :
    calls w1 = (calls w ++ [GeminiCallback])%list -> pages w1 = pages w ->
    stage_outcome used w (Raise e, w1)
| so_gemini_return (d : VisionRouter.decision) (w1 : world) (l : list call) :
    marked w1 -> calls w1 = (calls w ++ l)%list ->
    l = [] \/ l = [GeminiCallback] ->
    stage_outcome used w (Ok (Some d, used), w1).

Lemma stage_body_outcome (prev_p prev_a : string)
    (cb : option (unit -> outcome (option VisionRouter.fields_t)))
    (stage : string) (used : bool) (w : world) :
  stage_outcome used w
    (VisionRouter.stage_body clock json_dumps text_sha paddle_ocr azure_post cfg
       u shot (img_sha shot) prev_p prev_a cb stage used w).
Proof.
  rewrite stage_body_run.
  destruct (runs_paddle cfg stage).
  { rewrite paddle_stage_run. destruct (paddle_ocr shot) as [r|e]; simpl.
    - assert (marked (after_upsert clock u
                        (paddle_kvs text_sha (img_sha shot) (PaddleClient.build r))
                        (noted (PaddleRun shot) w))) as Hm
        by (apply after_upsert_marks; intros r0; reflexivity).
      destruct (VisionRouter._needs_escalation _ _ _ _); simpl.
      + apply (so_analyzer_escalate used w _ (PaddleRun shot));
          [discriminate | reflexivity | exact Hm].
      + apply (so_analyzer_resolve used w _ _ (PaddleRun shot));
          [discriminate | reflexivity | exact Hm].
    - apply (so_analyzer_raise used w e _ (PaddleRun shot));
        [discriminate | reflexivity | reflexivity]. }
  destruct (runs_azure cfg stage).
  { rewrite azure_stage_run. destruct (azure_post shot) as [r|e]; simpl.
    - assert (marked (after_upsert clock u
                        (azure_kvs text_sha (img_sha shot) (AzureVisionClient.build r))
                        (noted (AzureRun shot) w))) as Hm
        by (apply after_upsert_marks; intros r0; reflexivity).
      destruct (VisionRouter._needs_escalation _ _ _ _); simpl.
      + apply (so_analyzer_escalate used w _ (AzureRun shot));
          [discriminate | reflexivity | exact Hm].
      + apply (so_analyzer_resolve used w _ _ (AzureRun shot));
          [discriminate | reflexivity | exact Hm].
    - apply (so_analyzer_raise used w e _ (AzureRun shot));
        [discriminate | reflexivity | reflexivity]. }
  destruct (runs_gemini cfg stage).
  { rewrite gemini_stage_run.
    assert (forall w0, marked (after_upsert clock u (gemini_kvs (img_sha shot)) w0)) as Hm
      by (intros w0; apply after_upsert_marks; intros r0; reflexivity).
    destruct cb as [f|]; simpl.
    - destruct (f tt) as [r|e]; simpl.
      + apply (so_gemini_return used w _ _ [GeminiCallback]);
          [apply Hm | reflexivity | right; reflexivity].
      + apply so_gemini_raise; reflexivity.
    - apply (so_gemini_return used w _ _ []);
        [apply Hm | symmetry; apply app_nil_r | left; reflexivity]. }
  apply so_inert.
Qed.

(** After the loop, or after the return or raise that left it: the calls
    made; for a returned decision, the hash is stored unless nothing ran and
    the status is noop; and if the callback was invoked after an analyzer
    had run, the hash is stored. *)
Definition walk_outcome (used : bool) (w : world)
    (res : outcome VisionRouter.decision * world) : Prop :=
  exists l,
    calls (snd res) = (calls w ++ l)%list
    /\ (forall d, fst res = Ok d ->
          marked (snd res)
          \/ (pages (snd res) = pages w /\ VisionRouter.status d = "noop" /\ l = []))
    /\ (In GeminiCallback l -> used = true \/ Exists analyzer_call l ->
        marked (snd res)).

Lemma walk_marks (prev_p prev_a : string)
    (cb : option (unit -> outcome (option VisionRouter.fields_t)))
    (stages : list string) :
  forall (used : bool) (last_stage : option string) (w : world),
    (used = true -> marked w) ->
    walk_outcome used w
      (VisionRouter.walk clock json_dumps text_sha paddle_ocr azure_post cfg
         u shot (img_sha shot) prev_p prev_a cb stages used last_stage w).
Proof.
  induction stages as [|stage rest IH]; intros used last_stage w Hpre.
  - cbn [VisionRouter.walk]. unfold VisionRouter.exhausted, VisionRouter.logged.
    cbv [bind modify ret]. exists []. destruct used; simpl.
    + split; [symmetry; apply app_nil_r|]. split; [|intros []].
      intros d _. left. apply (marked_same w); [reflexivity | apply Hpre; reflexivity].
    + split; [symmetry; apply app_nil_r|]. split; [|intros []].
      intros d H. injection H as <-. right. repeat split.
  - cbn [VisionRouter.walk]. cbv [bind ret].
    pose proof (stage_body_outcome prev_p prev_a cb stage used w) as Hb.
    inversion Hb as [Heq | e w1 c Ha Hc Hp Heq | w1 c Ha Hc Hm Heq
                     | d w1 c Ha Hc Hm Heq | e w1 Hc Hp Heq | d w1 l Hm Hc Hl Heq];
      clear Hb; cbv iota beta.
    + destruct (IH used (Some stage) w Hpre) as (l & H1 & H2 & H3).
      exists l. split; [exact H1|]. split; assumption.
    + exists [c]. split; [exact Hc|]. split; [intros d H; discriminate H|].
      simpl. intros [H|[]]. subst c. exfalso. apply Ha. reflexivity.
    + destruct (IH true (Some stage) w1 (fun _ => Hm)) as (l & H1 & H2 & H3).
      exists (c :: l). split; [rewrite H1, Hc, <- app_assoc; reflexivity|].
      split.
      * intros d H. destruct (H2 d H) as [Hk|(Hk & _ & _)]; [left; exact Hk|].
        left. apply (marked_same w1); assumption.
      * intros Hin _. apply H3; [|left; reflexivity].
        destruct Hin as [Hin|Hin]; [subst c; exfalso; apply Ha; reflexivity | exact Hin].
    + exists [c]. split; [exact Hc|]. split; [intros d0 _; left; exact Hm|].
      intros _ _. exact Hm.
    + exists [GeminiCallback]. split; [exact Hc|].
      split; [intros d H; discriminate H|].
      intros _ [Hu|Hex].
      * apply (marked_same w); [exact Hp | apply Hpre, Hu].
      * apply Exists_cons in Hex as [Hex|Hex]; [exfalso; apply Hex; reflexivity|].
        inversion Hex.
    + exists l. split; [exact Hc|]. split; [intros d0 _; left; exact Hm|].
      intros _ _. exact Hm.
Qed.

Lemma check_or_escalate_marks (pfp : option (list (string * string)))
    (cb : option (unit -> outcome (option VisionRouter.fields_t))) (w : world) :
  walk_outcome false w
    (VisionRouter.check_or_escalate clock json_dumps text_sha img_sha paddle_ocr
       azure_post cfg u shot pfp cb w).
Proof.
  destruct (fast_path img_sha u shot w) eqn:Hf.
  - rewrite (check_or_escalate_skips clock json_dumps text_sha img_sha paddle_ocr
               azure_post cfg u shot pfp cb w Hf).
    exists []. simpl. split; [symmetry; apply app_nil_r|]. split; [|intros []].
    intros d _. left. unfold after_skip.
    apply (marked_same (after_upsert clock u
             [Footprints.SetText screenshot_sha (Some (img_sha shot))]
             (with_skipped_nochange (Z.add 1) w))); [reflexivity|].
    apply after_upsert_marks; intros r0; reflexivity.
  - rewrite (check_or_escalate_walks clock json_dumps text_sha img_sha paddle_ocr
               azure_post cfg u shot pfp cb w Hf).
    apply walk_marks. discriminate.
Qed.

(** With the hash stored, the next call with the same bytes takes the fast
    path. *)
Lemma marked_then_skipped (pfp : option (list (string * string)))
    (cb : option (unit -> outcome (option VisionRouter.fields_t))) (w : world) :
  marked w ->
  let res := VisionRouter.check_or_escalate clock json_dumps text_sha img_sha
               paddle_ocr azure_post cfg u shot pfp cb w in
  fst res = Ok skipped_decision
  /\ calls (snd res) = calls w
  /\ tally (snd res)
     = (1 + skipped_nochange w, used_cheap_ocr w, escalated_to_gemini w).
Proof.
  intros Hm res. subst res.
  rewrite (check_or_escalate_skips clock json_dumps text_sha img_sha paddle_ocr
             azure_post cfg u shot pfp cb w (marked_fast_path w Hm)).
  repeat split.
Qed.

End Marked.

(** X6. Idempotence of the fast path. After a call that returned with a
    status other than noop, a call for the same URL with the same bytes
    returns [status=skipped, changed=False, fields={}], adds one to
    [skipped_nochange] only and makes no external call, whatever callback or
    [previous_fp] it is given. This holds also after the exit that reports
    [changed=True] with no fields: the change is not reported twice. *)
Theorem X6_fast_path_idempotent :
  forall (clock : nat -> Z) (json_dumps : info -> string)
         (text_sha : string -> string) (img_sha : list Byte.byte -> string)
         (paddle_ocr : list Byte.byte -> outcome PaddleClient.result)
         (azure_post : list Byte.byte -> outcome AzureVisionClient.data)
         (cfg : VisionRouter.RouterConfig)
         (u : string) (shot : list Byte.byte)
         (pfp pfp' : option (list (string * string)))
         (cb cb' : option (unit -> outcome (option VisionRouter.fields_t)))
         (w w' : world) (d : VisionRouter.decision),
    VisionRouter.check_or_escalate clock json_dumps text_sha img_sha paddle_ocr
      azure_post cfg u shot pfp cb w = (Ok d, w') ->
    VisionRouter.status d <> "noop" ->
    let again := VisionRouter.check_or_escalate clock json_dumps text_sha img_sha
                   paddle_ocr azure_post cfg u shot pfp' cb' w' in
    fst again = Ok {| VisionRouter.status := "skipped";
                      VisionRouter.changed := false;
                      VisionRouter.fields := [] |}
    /\ calls (snd again) = calls w'
    /\ tally (snd again)
       = (1 + skipped_nochange w', used_cheap_ocr w', escalated_to_gemini w').
Proof.
  intros clock json_dumps text_sha img_sha paddle_ocr azure_post cfg u shot
    pfp pfp' cb cb' w w' d Hrun Hstatus.
  apply (marked_then_skipped clock json_dumps text_sha img_sha paddle_ocr
           azure_post cfg u shot pfp' cb' w').
  destruct (check_or_escalate_marks clock json_dumps text_sha img_sha paddle_ocr
              azure_post cfg u shot pfp cb w) as (l & _ & H & _).
  rewrite Hrun in H. destruct (H d eq_refl) as [Hm|(_ & Hn & _)];
    [exact Hm | contradiction].
Qed.

(** A local read that escalates with the two later tiers disabled reports
    a change without fields; the same bytes again are skipped. *)
Lemma X6_witness :
  let run := VisionRouter.check_or_escalate Scenario.frozen_clock
               Scenario.json_dumps Scenario.text_sha Scenario.img_sha
               Scenario.paddle_low Scenario.azure_down
               (Scenario.small_config true false false)
               "https://example.org/job/1" Scenario.shot1 None None in
  let d := {| VisionRouter.status := "gemini"; VisionRouter.changed := true;
              VisionRouter.fields := [] |} in
  fst (run Scenario.fresh) = Ok d
  /\ fst (run (snd (run Scenario.fresh)))
     = Ok {| VisionRouter.status := "skipped"; VisionRouter.changed := false;
             VisionRouter.fields := [] |}.
Proof.
  intros run d.
  assert (E : run Scenario.fresh = (Ok d, snd (run Scenario.fresh)))
    by (vm_compute; reflexivity).
  split; [rewrite E; reflexivity|].
  apply (X6_fast_path_idempotent Scenario.frozen_clock
           Scenario.json_dumps Scenario.text_sha Scenario.img_sha
           Scenario.paddle_low Scenario.azure_down
           (Scenario.small_config true false false)
           "https://example.org/job/1" Scenario.shot1 None None None None
           Scenario.fresh (snd (run Scenario.fresh)) d E).
  discriminate.
Defined.

(** X7. No second chance after a failed extraction. Whatever the outcome of
    a call, if its callback was invoked after an analyzer tier had run, the
    new screenshot hash is in the store when the call ends: the analyzer tier
    wrote it before the callback ran. So when the callback raises, the retry
    with the same bytes takes the fast path: it returns skipped and does not
    invoke the callback. *)
Theorem X7_retry_after_failed_callback_is_skipped :
  forall (clock : nat -> Z) (json_dumps : info -> string)
         (text_sha : string -> string) (img_sha : list Byte.byte -> string)
         (paddle_ocr : list Byte.byte -> outcome PaddleClient.result)
         (azure_post : list Byte.byte -> outcome AzureVisionClient.data)
         (cfg : VisionRouter.RouterConfig)
         (u : string) (shot : list Byte.byte)
         (pfp : option (list (string * string)))
         (cb : option (unit -> outcome (option VisionRouter.fields_t)))
         (w : world),
    let res := VisionRouter.check_or_escalate clock json_dumps text_sha img_sha
                 paddle_ocr azure_post cfg u shot pfp cb w in
    exists l,
      calls (snd res) = (calls w ++ l)%list
      /\ (In GeminiCallback l ->
          Exists (fun c => tier_of_call c <> None) l ->
          stored_text (pages (snd res)) u screenshot_sha = Some (img_sha shot)
          /\ forall pfp' cb',
               let again := VisionRouter.check_or_escalate clock json_dumps
                              text_sha img_sha paddle_ocr azure_post cfg
                              u shot pfp' cb' (snd res) in
               fst again = Ok {| VisionRouter.status := "skipped";
                                 VisionRouter.changed := false;
                                 VisionRouter.fields := [] |}
               /\ calls (snd again) = calls (snd res)).
Proof.
  intros clock json_dumps text_sha img_sha paddle_ocr azure_post cfg u shot
    pfp cb w res.
  destruct (check_or_escalate_marks clock json_dumps text_sha img_sha paddle_ocr
              azure_post cfg u shot pfp cb w) as (l & Hl & _ & H).
  exists l. split; [exact Hl|]. intros Hin Hex.
  assert (Hm : marked img_sha u shot (snd res)) by (apply H; [exact Hin | right; exact Hex]).
  split; [exact Hm|]. intros pfp' cb' again.
  destruct (marked_then_skipped clock json_dumps text_sha img_sha paddle_ocr
              azure_post cfg u shot pfp' cb' (snd res) Hm) as (H1 & H2 & _).
  split; assumption.
Qed.

(** The local read has low confidence, the cloud tier is disabled, the
    agent fails; then the same page is tried again with an agent that
    works. *)
Lemma X7_witness :
  let run cb := VisionRouter.check_or_escalate Scenario.frozen_clock
                  Scenario.json_dumps Scenario.text_sha Scenario.img_sha
                  Scenario.paddle_low Scenario.azure_down
                  (Scenario.small_config true false true)
                  "https://example.org/job/1" Scenario.shot1 None cb in
  let first := run (Some Scenario.gemini_fails) Scenario.fresh in
  let again := run (Some Scenario.gemini_extracts) (snd first) in
  fst first = Raise (ExternalError "agent failed")
  /\ calls (snd first) = [PaddleRun Scenario.shot1; GeminiCallback]
  /\ fst again = Ok {| VisionRouter.status := "skipped";
                       VisionRouter.changed := false;
                       VisionRouter.fields := [] |}
  /\ calls (snd again) = calls (snd first).
Proof.
  intros run first again.
  assert (Hc : calls (snd first) = [PaddleRun Scenario.shot1; GeminiCallback])
    by (vm_compute; reflexivity).
  split; [vm_compute; reflexivity|]. split; [exact Hc|].
  destruct (X7_retry_after_failed_callback_is_skipped Scenario.frozen_clock
              Scenario.json_dumps Scenario.text_sha Scenario.img_sha
              Scenario.paddle_low Scenario.azure_down
              (Scenario.small_config true false true)
              "https://example.org/job/1" Scenario.shot1 None
              (Some Scenario.gemini_fails) Scenario.fresh) as (l & Hl & H).
  unfold first, run in Hc. rewrite Hc in Hl. simpl in Hl. subst l.
  destruct H as (_ & H).
  - right. left. reflexivity.
  - constructor. discriminate.
  - apply (H None (Some Scenario.gemini_extracts)).
Defined.

(** * Beyond the claims: more of the store *)

(** The column a keyword names. *)
Definition column_of (a : Footprints.assignment) : tcol + icol :=
  match a with
  | Footprints.SetText c _ => inl c
  | Footprints.SetInt c _ => inr c
  end.

(** The field of [PageFP] a TEXT column is read into; [notes] has none. *)
Definition fp_text (p : Footprints.PageFP) (c : tcol) : option string :=
  match c with
  | canonical_url => Some (Footprints.fp_canonical_url p)
  | last_model => Some (Footprints.fp_last_model p)
  | screenshot_sha => Some (Footprints.fp_screenshot_sha p)
  | text_sha_paddle => Some (Footprints.fp_text_sha_paddle p)
  | text_sha_azure => Some (Footprints.fp_text_sha_azure p)
  | etag => Some (Footprints.fp_etag p)
  | last_modified => Some (Footprints.fp_last_modified p)
  | notes => None
  end.

Lemma fp_text_reads (u : string) (r : row) (c : tcol) :
  c <> notes ->
  fp_text (Footprints.to_PageFP u r) c
  = Some (Footprints.or_empty (Footprints.get_text r c)).
Proof. destruct c; intros H; try reflexivity. contradiction. Qed.

Lemma filter_nodup_columns (kvs : list Footprints.assignment) :
  List.NoDup (map column_of kvs) ->
  List.NoDup (map column_of (List.filter Footprints.is_supplied kvs)).
Proof.
  induction kvs as [|a l IH]; intros H; [constructor|].
  inversion H as [|x xs Hnin Hnd]; subst. simpl.
  destruct (Footprints.is_supplied a); [|apply IH, Hnd].
  simpl. constructor; [|apply IH, Hnd].
  intros Hin. apply Hnin. apply in_map_iff in Hin as (b & Hb & Hin).
  apply in_map_iff. exists b. split; [exact Hb|].
  apply (supplied_in_filter b l Hin).
Qed.

Lemma not_in_columns_text (c : tcol) (l : list Footprints.assignment) :
  ~ In (inl c) (map column_of l) ->
  forall v, ~ In (Footprints.SetText c (Some v)) l.
Proof.
  intros H v Hin. apply H. apply in_map_iff.
  exists (Footprints.SetText c (Some v)). split; [reflexivity | exact Hin].
Qed.

(** With distinct keywords, a supplied TEXT value is what the folded
    assignments leave in its column, in either order of folding. *)
Lemma fold_left_assign_sets (c : tcol) (v : string) (kvs : list Footprints.assignment) :
  forall r,
    (forall a, In a kvs -> Footprints.is_supplied a = true) ->
    List.NoDup (map column_of kvs) ->
    In (Footprints.SetText c (Some v)) kvs ->
    Footprints.get_text (fold_left Footprints.assign kvs r) c = Some v.
Proof.
  induction kvs as [|a l IH]; intros r Hs Hnd Hin; [destruct Hin|].
  inversion Hnd as [|x xs Hnin Hnd']; subst. cbn [fold_left].
  destruct Hin as [->|Hin].
  - rewrite fold_left_assign_text.
    + apply set_text_same.
    + intros b Hb. apply Hs. right. exact Hb.
    + apply not_in_columns_text, Hnin.
  - apply IH; [intros b Hb; apply Hs; right; exact Hb | exact Hnd' | exact Hin].
Qed.

Lemma fold_right_assign_sets (c : tcol) (v : string) (kvs : list Footprints.assignment) :
  forall r,
    (forall a, In a kvs -> Footprints.is_supplied a = true) ->
    List.NoDup (map column_of kvs) ->
    In (Footprints.SetText c (Some v)) kvs ->
    Footprints.get_text (fold_right (fun a r => Footprints.assign r a) r kvs) c
    = Some v.
Proof.
  induction kvs as [|a l IH]; intros r Hs Hnd Hin; [destruct Hin|].
  inversion Hnd as [|x xs Hnin Hnd']; subst. cbn [fold_right].
  destruct Hin as [->|Hin].
  - apply set_text_same.
  - rewrite assign_text_frame.
    + apply IH; [intros b Hb; apply Hs; right; exact Hb | exact Hnd' | exact Hin].
    + apply Hs. left. reflexivity.
    + intros v' ->. apply Hnin. apply in_map_iff.
      exists (Footprints.SetText c (Some v)). split; [reflexivity | exact Hin].
Qed.

Lemma in_filter_supplied (c : tcol) (v : string) (kvs : list Footprints.assignment) :
  In (Footprints.SetText c (Some v)) kvs ->
  In (Footprints.SetText c (Some v)) (List.filter Footprints.is_supplied kvs).
Proof. intros H. apply List.filter_In. split; [exact H | reflexivity]. Qed.

Lemma upserted_sets (now : Z) (u : string) (kvs : list Footprints.assignment)
    (pg : gmap string row) (c : tcol) (v : string) :
  List.NoDup (map column_of kvs) ->
  In (Footprints.SetText c (Some v)) kvs ->
  stored_text (upserted now u kvs pg) u c = Some v.
Proof.
  intros Hnd Hin. unfold stored_text.
  destruct (pg !! u) as [r|] eqn:E.
  - rewrite (upserted_existing now u kvs pg r E). simpl. rewrite set_int_text.
    apply fold_left_assign_sets;
      [apply filter_supplied | apply filter_nodup_columns, Hnd
       | apply in_filter_supplied, Hin].
  - rewrite (upserted_fresh now u kvs pg E). simpl. rewrite !set_int_text.
    apply fold_right_assign_sets;
      [apply filter_supplied | apply filter_nodup_columns, Hnd
       | apply in_filter_supplied, Hin].
Qed.

Lemma upserted_last_seen (now : Z) (u : string) (kvs : list Footprints.assignment)
    (pg : gmap string row) :
  stored_int (upserted now u kvs pg) u last_seen = Some now.
Proof.
  unfold stored_int. destruct (pg !! u) as [r|] eqn:E.
  - rewrite (upserted_existing now u kvs pg r E). reflexivity.
  - rewrite (upserted_fresh now u kvs pg E). reflexivity.
Qed.

Lemma upsert_ok_state (clock : nat -> Z) (u : string)
    (kvs : list Footprints.assignment) (w : world) :
  fst (Footprints.upsert clock u kvs w) = Ok tt ->
  snd (Footprints.upsert clock u kvs w) = after_upsert clock u kvs w.
Proof.
  rewrite upsert_run. destruct (pages w !! u);
    [destruct (List.filter Footprints.is_supplied kvs)|]; simpl;
    intros H; try discriminate; reflexivity.
Qed.

(** X8. Insert or update, then look up. After an [upsert] that succeeded,
    with keywords naming distinct columns, [get] finds a fingerprint for the
    URL whose [last_seen] is the time of the [upsert], whose fields hold
    the values supplied, and whose other fields hold what the row held before
    ("" for NULL and for a row just inserted). [get] itself changes nothing,
    and the rows of other URLs read as before. *)
Theorem X8_upsert_then_get :
  forall (clock : nat -> Z) (u : string) (kvs : list Footprints.assignment)
         (w : world),
    List.NoDup (map column_of kvs) ->
    fst (Footprints.upsert clock u kvs w) = Ok tt ->
    let w' := snd (Footprints.upsert clock u kvs w) in
    exists p,
      Footprints.get u w' = (Ok (Some p), w')
      /\ Footprints.url p = u
      /\ Footprints.fp_last_seen p = clock (clock_reads w)
      /\ (forall c v, c <> notes -> In (Footprints.SetText c (Some v)) kvs ->
            fp_text p c = Some v)
      /\ (forall c, c <> notes -> ~ supplies_text c kvs ->
            fp_text p c = Some (Footprints.or_empty (stored_text (pages w) u c)))
      /\ (forall u', u' <> u -> Footprints.get u' w' = (fst (Footprints.get u' w), w')).
Proof.
  intros clock u kvs w Hnd Hok w'. subst w'. rewrite (upsert_ok_state _ _ _ _ Hok).
  unfold Footprints.get, gets, after_upsert.
  cbn [pages with_pages with_clock_reads fst snd].
  pose proof (upserted_last_seen (clock (clock_reads w)) u kvs (pages w)) as Hls.
  unfold stored_int in Hls.
  destruct (upserted (clock (clock_reads w)) u kvs (pages w) !! u) as [r'|] eqn:E;
    [|discriminate Hls].
  simpl in Hls. exists (Footprints.to_PageFP u r').
  split; [reflexivity|]. split; [reflexivity|].
  split; [simpl; rewrite Hls; reflexivity|].
  split; [|split].
  - intros c v Hc Hin. rewrite fp_text_reads by exact Hc.
    pose proof (upserted_sets (clock (clock_reads w)) u kvs (pages w) c v Hnd Hin) as Hv.
    unfold stored_text in Hv. rewrite E in Hv. simpl in Hv. rewrite Hv. reflexivity.
  - intros c Hc Hns. rewrite fp_text_reads by exact Hc.
    pose proof (upserted_text_frame (clock (clock_reads w)) u u kvs (pages w) c Hns) as Hv.
    unfold stored_text in Hv at 1. rewrite E in Hv. simpl in Hv. rewrite Hv. reflexivity.
  - intros u' Hne. rewrite upserted_other by exact Hne. reflexivity.
Qed.

(** A first observation stores the screenshot hash and the tier. *)
Lemma X8_witness :
  let kvs := [Footprints.SetText screenshot_sha (Some "sha1:A");
              Footprints.SetText last_model (Some "paddle");
              Footprints.SetText etag None] in
  let w' := snd (Footprints.upsert Scenario.ticking_clock
                   "https://example.org/job/1" kvs Scenario.fresh) in
  exists p,
    Footprints.get "https://example.org/job/1" w' = (Ok (Some p), w')
    /\ Footprints.fp_last_seen p = 1700000000
    /\ Footprints.fp_screenshot_sha p = "sha1:A"
    /\ Footprints.fp_text_sha_paddle p = "".
Proof.
  intros kvs w'.
  destruct (X8_upsert_then_get Scenario.ticking_clock
              "https://example.org/job/1" kvs Scenario.fresh)
    as (p & H1 & _ & H3 & H4 & H5 & _).
  - repeat constructor; simpl; intuition discriminate.
  - reflexivity.
  - exists p. split; [exact H1|]. split; [exact H3|]. split.
    + specialize (H4 screenshot_sha "sha1:A"). simpl in H4.
      assert (Some (Footprints.fp_screenshot_sha p) = Some "sha1:A") as E
        by (apply H4; [discriminate | left; reflexivity]).
      injection E as E. exact E.
    + specialize (H5 text_sha_paddle). simpl in H5.
      assert (Some (Footprints.fp_text_sha_paddle p) = Some "") as E.
      { apply H5; [discriminate|]. intros (v & [H|[H|[H|[]]]]); discriminate H. }
      injection E as E. exact E.
Defined.

Section Monotone.

Variable clock : nat -> Z.
Hypothesis clock_mono : forall n, clock n <= clock (S n).

Lemma clock_le (n m : nat) : (n <= m)%nat -> clock n <= clock m.
Proof.
  induction 1 as [|m Hle IH]; [lia|]. specialize (clock_mono m). lia.
Qed.

(** No row was last seen later than the clock's next reading. *)
Definition not_ahead (w : world) : Prop :=
  forall u t, stored_int (pages w) u last_seen = Some t ->
              t <= clock (clock_reads w).

(** Every [last_seen] of [w] is still there in [w'], and no earlier. *)
Definition last_seen_grows (w w' : world) : Prop :=
  forall u t, stored_int (pages w) u last_seen = Some t ->
              exists t', stored_int (pages w') u last_seen = Some t' /\ t <= t'.

Definition advances (w w' : world) : Prop :=
  (clock_reads w <= clock_reads w')%nat
  /\ (not_ahead w -> not_ahead w' /\ last_seen_grows w w').

Lemma advances_same_pages (w w' : world) :
  pages w' = pages w -> (clock_reads w <= clock_reads w')%nat -> advances w w'.
Proof.
  intros Hp Hr. split; [exact Hr|]. intros Hn. split.
  - intros u t. rewrite Hp. intros H. specialize (Hn u t H).
    pose proof (clock_le _ _ Hr). lia.
  - intros u t. rewrite Hp. intros H. exists t. split; [exact H | lia].
Qed.

Lemma advances_trans (a b c : world) : advances a b -> advances b c -> advances a c.
Proof.
  intros (Hr1 & H1) (Hr2 & H2). split; [lia|]. intros Hn.
  destruct (H1 Hn) as (Hnb & Hg1). destruct (H2 Hnb) as (Hnc & Hg2).
  split; [exact Hnc|]. intros u t H.
  destruct (Hg1 u t H) as (t1 & Ht1 & Hle1).
  destruct (Hg2 u t1 Ht1) as (t2 & Ht2 & Hle2).
  exists t2. split; [exact Ht2 | lia].
Qed.

Lemma stored_int_upserted (u u' : string) (kvs : list Footprints.assignment)
    (now : Z) (pg : gmap string row) :
  stored_int (upserted now u kvs pg) u' last_seen
  = if String.eqb u' u then Some now else stored_int pg u' last_seen.
Proof.
  destruct (String.eqb_spec u' u) as [->|Hne]; [apply upserted_last_seen|].
  unfold stored_int. rewrite upserted_other by exact Hne. reflexivity.
Qed.

Lemma advances_after_upsert (u : string) (kvs : list Footprints.assignment) (w : world) :
  advances w (after_upsert clock u kvs w).
Proof.
  split; [simpl; lia|]. intros Hn. split.
  - intros u' t. unfold after_upsert. cbn [pages with_pages with_clock_reads clock_reads].
    rewrite stored_int_upserted. specialize (clock_mono (clock_reads w)).
    destruct (String.eqb u' u).
    + intros H. injection H as <-. lia.
    + intros H. specialize (Hn u' t H). lia.
  - intros u' t H. unfold after_upsert. cbn [pages with_pages with_clock_reads].
    rewrite stored_int_upserted. destruct (String.eqb u' u).
    + eexists. split; [reflexivity|]. apply (Hn u' t H).
    + exists t. split; [exact H | lia].
Qed.

Lemma advances_upsert (u : string) (kvs : list Footprints.assignment) (w : world) :
  advances w (snd (Footprints.upsert clock u kvs w)).
Proof.
  rewrite upsert_run.
  destruct (pages w !! u); [destruct (List.filter Footprints.is_supplied kvs)|];
    try apply advances_after_upsert.
  apply advances_same_pages; [reflexivity | simpl; lia].
Qed.

Section MonotoneRouter.

Variable json_dumps : info -> string.
Variable text_sha : string -> string.
Variable img_sha : list Byte.byte -> string.
Variable paddle_ocr : list Byte.byte -> outcome PaddleClient.result.
Variable azure_post : list Byte.byte -> outcome AzureVisionClient.data.
Variable cfg : VisionRouter.RouterConfig.

Lemma advances_check_or_escalate (u : string) (shot : list Byte.byte)
    (pfp : option (list (string * string)))
    (cb : option (unit -> outcome (option VisionRouter.fields_t))) (w : world) :
  advances w
    (snd (VisionRouter.check_or_escalate clock json_dumps text_sha img_sha
            paddle_ocr azure_post cfg u shot pfp cb w)).
Proof.
  assert (Hstep : forall kvs w0 w1 w2,
             pages w0 = pages w1 -> clock_reads w0 = clock_reads w1 ->
             pages w2 = pages (after_upsert clock u kvs w1) ->
             (clock_reads (after_upsert clock u kvs w1) <= clock_reads w2)%nat ->
             advances w0 w2).
  { intros kvs w0 w1 w2 Hp Hr Hp2 Hr2.
    apply (advances_trans w0 w1); [apply advances_same_pages; [congruence | lia]|].
    apply (advances_trans w1 (after_upsert clock u kvs w1));
      [apply advances_after_upsert | apply advances_same_pages; assumption]. }
  apply check_or_escalate_invariant.
  - intros w0. apply advances_same_pages; [reflexivity | lia].
  - apply advances_trans.
  - intros _ sha prev w0. rewrite paddle_stage_run.
    destruct (paddle_ocr shot) as [r|e];
      [|apply advances_same_pages; [reflexivity | simpl; lia]].
    simpl. destruct (VisionRouter._needs_escalation _ _ _ _);
      eapply (Hstep _ w0 (noted (PaddleRun shot) w0));
      try reflexivity; simpl; lia.
  - intros _ sha prev w0. rewrite azure_stage_run.
    destruct (azure_post shot) as [r|e];
      [|apply advances_same_pages; [reflexivity | simpl; lia]].
    simpl. destruct (VisionRouter._needs_escalation _ _ _ _);
      eapply (Hstep _ w0 (noted (AzureRun shot) w0));
      try reflexivity; simpl; lia.
  - intros _ sha w0. rewrite gemini_stage_run. destruct cb as [f|]; simpl.
    + destruct (f tt); simpl;
        [|apply advances_same_pages; [reflexivity | simpl; lia]].
      eapply (Hstep _ w0 (noted GeminiCallback (with_escalated_to_gemini (Z.add 1) w0)));
        try reflexivity; simpl; lia.
    + eapply (Hstep _ w0 (with_escalated_to_gemini (Z.add 1) w0));
        try reflexivity; simpl; lia.
  - intros r w0. apply advances_same_pages; [reflexivity | simpl; lia].
  - intros w0. unfold after_skip.
    eapply (Hstep _ w0 (with_skipped_nochange (Z.add 1) w0));
      try reflexivity; simpl; lia.
Qed.

End MonotoneRouter.

End Monotone.

(** X9. Monotonic [last_seen]. Suppose the clock never goes back and no row
    of the store was last seen later than now. Then after any [upsert], and
    after any call of [check_or_escalate] whatever its outcome, that is still
    so, and the [last_seen] of every row that had one is still set and has
    not decreased. *)
Theorem X9_last_seen_monotone :
  forall (clock : nat -> Z),
    (forall n, clock n <= clock (S n)) ->
    (forall u kvs w,
        not_ahead clock w ->
        let w' := snd (Footprints.upsert clock u kvs w) in
        not_ahead clock w'
        /\ forall u' t, stored_int (pages w) u' last_seen = Some t ->
             exists t', stored_int (pages w') u' last_seen = Some t' /\ t <= t')
    /\ (forall (json_dumps : info -> string) (text_sha : string -> string)
               (img_sha : list Byte.byte -> string)
               (paddle_ocr : list Byte.byte -> outcome PaddleClient.result)
               (azure_post : list Byte.byte -> outcome AzureVisionClient.data)
               (cfg : VisionRouter.RouterConfig) u shot pfp cb w,
          not_ahead clock w ->
          let w' := snd (VisionRouter.check_or_escalate clock json_dumps text_sha
                           img_sha paddle_ocr azure_post cfg u shot pfp cb w) in
          not_ahead clock w'
          /\ forall u' t, stored_int (pages w) u' last_seen = Some t ->
               exists t', stored_int (pages w') u' last_seen = Some t' /\ t <= t').
Proof.
  intros clock Hmono. split.
  - intros u kvs w Hn w'. apply (advances_upsert clock Hmono u kvs w), Hn.
  - intros json_dumps text_sha img_sha paddle_ocr azure_post cfg u shot pfp cb w
      Hn w'.
    apply (advances_check_or_escalate clock Hmono json_dumps text_sha img_sha
             paddle_ocr azure_post cfg u shot pfp cb w), Hn.
Qed.

(** Two checks of one page, a second apart, the second with new bytes. *)
Lemma X9_witness :
  let run b := VisionRouter.check_or_escalate Scenario.ticking_clock
                 Scenario.json_dumps Scenario.text_sha Scenario.img_sha
                 Scenario.paddle_good Scenario.azure_down
                 (Scenario.small_config true false false)
                 "https://example.org/job/1" b None None in
  let w1 := snd (run Scenario.shot1 Scenario.fresh) in
  let w2 := snd (run Scenario.shot2 w1) in
  stored_int (pages w1) "https://example.org/job/1" last_seen = Some 1700000000
  /\ exists t', stored_int (pages w2) "https://example.org/job/1" last_seen = Some t'
                /\ 1700000000 <= t'.
Proof.
  intros run w1 w2.
  assert (H1 : stored_int (pages w1) "https://example.org/job/1" last_seen
               = Some 1700000000) by (vm_compute; reflexivity).
  split; [exact H1|].
  assert (Hmono : forall n, Scenario.ticking_clock n <= Scenario.ticking_clock (S n))
    by (intros n; unfold Scenario.ticking_clock; lia).
  assert (Hfresh : not_ahead Scenario.ticking_clock Scenario.fresh)
    by (intros u t H; discriminate H).
  pose proof (proj2 (X9_last_seen_monotone Scenario.ticking_clock Hmono)
                Scenario.json_dumps Scenario.text_sha Scenario.img_sha
                Scenario.paddle_good Scenario.azure_down
                (Scenario.small_config true false false)
                "https://example.org/job/1") as H.
  destruct (H Scenario.shot1 None None Scenario.fresh Hfresh) as (Hn1 & _).
  destruct (H Scenario.shot2 None None w1 Hn1) as (_ & Hg).
  apply (Hg "https://example.org/job/1" 1700000000 H1).
Defined.

(** Every row of [w] is still a row of [w'], first seen when it was. *)
Definition rows_kept (w w' : world) : Prop :=
  forall u r, pages w !! u = Some r ->
              exists r', pages w' !! u = Some r' /\ r_first_seen r' = r_first_seen r.

Lemma rows_kept_same (w w' : world) : pages w' = pages w -> rows_kept w w'.
Proof. intros H u r Hr. exists r. rewrite H. split; [exact Hr | reflexivity]. Qed.

Lemma rows_kept_trans (a b c : world) :
  rows_kept a b -> rows_kept b c -> rows_kept a c.
Proof.
  intros H1 H2 u r Hr. destruct (H1 u r Hr) as (r1 & Hr1 & E1).
  destruct (H2 u r1 Hr1) as (r2 & Hr2 & E2). exists r2.
  split; [exact Hr2 | congruence].
Qed.

Lemma rows_kept_after_upsert (clock : nat -> Z) (u : string)
    (kvs : list Footprints.assignment) (w : world) :
  ~ supplies_int first_seen kvs -> rows_kept w (after_upsert clock u kvs w).
Proof.
  intros Hns u' r Hr. unfold after_upsert. cbn [pages with_pages with_clock_reads].
  destruct (String.eqb_spec u' u) as [->|Hne].
  - rewrite (upserted_existing _ u kvs _ r Hr). eexists. split; [reflexivity|].
    change (Footprints.get_int
              (Footprints.set_int last_seen (Some (clock (clock_reads w)))
                 (fold_left Footprints.assign
                    (List.filter Footprints.is_supplied kvs) r)) first_seen
            = Footprints.get_int r first_seen).
    rewrite set_int_other by discriminate.
    apply fold_left_assign_int;
      [apply filter_supplied | apply filter_keeps_unsupplied_int, Hns].
  - rewrite upserted_other by exact Hne. exists r. split; [exact Hr | reflexivity].
Qed.

Section RowsKept.

Variable clock : nat -> Z.
Variable json_dumps : info -> string.
Variable text_sha : string -> string.
Variable img_sha : list Byte.byte -> string.
Variable paddle_ocr : list Byte.byte -> outcome PaddleClient.result.
Variable azure_post : list Byte.byte -> outcome AzureVisionClient.data.
Variable cfg : VisionRouter.RouterConfig.

Lemma rows_kept_check_or_escalate (u : string) (shot : list Byte.byte)
    (pfp : option (list (string * string)))
    (cb : option (unit -> outcome (option VisionRouter.fields_t))) (w : world) :
  rows_kept w
    (snd (VisionRouter.check_or_escalate clock json_dumps text_sha img_sha
            paddle_ocr azure_post cfg u shot pfp cb w)).
Proof.
  assert (Hstep : forall kvs w0 w1 w2,
             ~ supplies_int first_seen kvs ->
             pages w1 = pages w0 ->
             pages w2 = pages (after_upsert clock u kvs w1) ->
             rows_kept w0 w2).
  { intros kvs w0 w1 w2 Hns Hp Hp2.
    apply (rows_kept_trans w0 w1); [apply rows_kept_same, Hp|].
    apply (rows_kept_trans w1 (after_upsert clock u kvs w1));
      [apply rows_kept_after_upsert, Hns | apply rows_kept_same, Hp2]. }
  assert (Hp : forall sha o, ~ supplies_int first_seen (paddle_kvs text_sha sha o))
    by (intros sha o (v & [H|[H|[H|[]]]]); discriminate H).
  assert (Ha : forall sha o, ~ supplies_int first_seen (azure_kvs text_sha sha o))
    by (intros sha o (v & [H|[H|[H|[]]]]); discriminate H).
  assert (Hg : forall sha, ~ supplies_int first_seen (gemini_kvs sha))
    by (intros sha (v & [H|[H|[]]]); discriminate H).
  apply check_or_escalate_invariant.
  - intros w0. apply rows_kept_same. reflexivity.
  - apply rows_kept_trans.
  - intros _ sha prev w0. rewrite paddle_stage_run.
    destruct (paddle_ocr shot) as [r|e]; [|apply rows_kept_same; reflexivity].
    simpl. destruct (VisionRouter._needs_escalation _ _ _ _);
      apply (Hstep _ w0 (noted (PaddleRun shot) w0) _ (Hp sha (PaddleClient.build r)));
      reflexivity.
  - intros _ sha prev w0. rewrite azure_stage_run.
    destruct (azure_post shot) as [r|e]; [|apply rows_kept_same; reflexivity].
    simpl. destruct (VisionRouter._needs_escalation _ _ _ _);
      apply (Hstep _ w0 (noted (AzureRun shot) w0) _ (Ha sha (AzureVisionClient.build r)));
      reflexivity.
  - intros _ sha w0. rewrite gemini_stage_run. destruct cb as [f|]; simpl.
    + destruct (f tt); simpl; [|apply rows_kept_same; reflexivity].
      apply (Hstep _ w0 (noted GeminiCallback (with_escalated_to_gemini (Z.add 1) w0))
               _ (Hg sha)); reflexivity.
    + apply (Hstep _ w0 (with_escalated_to_gemini (Z.add 1) w0) _ (Hg sha));
        reflexivity.
  - intros r w0. apply rows_kept_same. reflexivity.
  - intros w0. unfold after_skip.
    apply (Hstep [Footprints.SetText screenshot_sha (Some (img_sha shot))] w0
             (with_skipped_nochange (Z.add 1) w0)); try reflexivity.
    intros (v & [H|[]]). discriminate H.
Qed.

End RowsKept.

(** X10. Rows are never deleted and keep their [first_seen]. An [upsert]
    that is not given [first_seen], and any call of [check_or_escalate]
    whatever its outcome, leaves every row of [pages] in place with the
    [first_seen] it had. A row that [upsert] inserts gets the time of the
    insertion as both [first_seen] and [last_seen], whatever keywords were
    given. *)
Theorem X10_rows_kept_first_seen_fixed :
  forall (clock : nat -> Z),
    (forall u kvs w u' r,
        ~ supplies_int first_seen kvs ->
        pages w !! u' = Some r ->
        exists r', pages (snd (Footprints.upsert clock u kvs w)) !! u' = Some r'
                   /\ r_first_seen r' = r_first_seen r)
    /\ (forall u kvs w,
          pages w !! u = None ->
          let res := Footprints.upsert clock u kvs w in
          fst res = Ok tt
          /\ stored_int (pages (snd res)) u first_seen = Some (clock (clock_reads w))
          /\ stored_int (pages (snd res)) u last_seen = Some (clock (clock_reads w)))
    /\ (forall (json_dumps : info -> string) (text_sha : string -> string)
               (img_sha : list Byte.byte -> string)
               (paddle_ocr : list Byte.byte -> outcome PaddleClient.result)
               (azure_post : list Byte.byte -> outcome AzureVisionClient.data)
               (cfg : VisionRouter.RouterConfig) u shot pfp cb w u' r,
          pages w !! u' = Some r ->
          exists r',
            pages (snd (VisionRouter.check_or_escalate clock json_dumps text_sha
                          img_sha paddle_ocr azure_post cfg u shot pfp cb w)) !! u'
            = Some r'
            /\ r_first_seen r' = r_first_seen r).
Proof.
  intros clock. split; [|split].
  - intros u kvs w u' r Hns Hr. rewrite upsert_run.
    destruct (pages w !! u) as [r0|] eqn:E;
      [destruct (List.filter Footprints.is_supplied kvs) eqn:Hf|].
    + exists r. split; [exact Hr | reflexivity].
    + apply (rows_kept_after_upsert clock u kvs w Hns u' r Hr).
    + apply (rows_kept_after_upsert clock u kvs w Hns u' r Hr).
  - intros u kvs w Hnone res. subst res. rewrite upsert_run, Hnone.
    cbn [fst snd]. split; [reflexivity|].
    unfold stored_int, after_upsert. cbn [pages with_pages with_clock_reads].
    rewrite (upserted_fresh _ u kvs _ Hnone). split; reflexivity.
  - intros json_dumps text_sha img_sha paddle_ocr azure_post cfg u shot pfp cb w
      u' r Hr.
    apply (rows_kept_check_or_escalate clock json_dumps text_sha img_sha
             paddle_ocr azure_post cfg u shot pfp cb w u' r Hr).
Qed.

(** A page first seen at one second and checked again at the next. *)
Lemma X10_witness :
  let run b := VisionRouter.check_or_escalate Scenario.ticking_clock
                 Scenario.json_dumps Scenario.text_sha Scenario.img_sha
                 Scenario.paddle_good Scenario.azure_down
                 (Scenario.small_config true false false)
                 "https://example.org/job/1" b None None in
  let w1 := snd (run Scenario.shot1 Scenario.fresh) in
  let w2 := snd (run Scenario.shot2 w1) in
  stored_int (pages w1) "https://example.org/job/1" first_seen = Some 1700000000
  /\ stored_int (pages w2) "https://example.org/job/1" first_seen = Some 1700000000
  /\ stored_int (pages w2) "https://example.org/job/1" last_seen = Some 1700000001.
Proof.
  intros run w1 w2.
  assert (Hs : stored_int (pages w1) "https://example.org/job/1" first_seen
               = Some 1700000000) by (vm_compute; reflexivity).
  split; [exact Hs|].
  split; [|vm_compute; reflexivity].
  unfold stored_int in Hs.
  destruct (pages w1 !! "https://example.org/job/1") as [r|] eqn:Hr;
    [|discriminate Hs].
  assert (Hf : r_first_seen r = Some 1700000000) by exact Hs.
  destruct (proj2 (proj2 (X10_rows_kept_first_seen_fixed Scenario.ticking_clock))
              Scenario.json_dumps Scenario.text_sha Scenario.img_sha
              Scenario.paddle_good Scenario.azure_down
              (Scenario.small_config true false false)
              "https://example.org/job/1" Scenario.shot2 None None w1
              "https://example.org/job/1" r Hr) as (r' & Hr' & Hf').
  unfold stored_int. fold (run Scenario.shot2 w1) in Hr'. fold w2 in Hr'.
  rewrite Hr'. simpl. rewrite Hf'. exact Hf.
Defined.

(** * Beyond the claims: the escalation log *)

(** [s[:n]] has [min n (len s)] characters, is a prefix of [s], and is [s]
    itself when [s] has at most [n] characters. *)
Lemma take_length (n : nat) (s : string) :
  String.length (Py.take n s) = Nat.min n (String.length s).
Proof.
  revert s. induction n as [|n IH]; intros [|a r]; simpl; try reflexivity.
  rewrite IH. reflexivity.
Qed.

Lemma take_prefix (n : nat) (s : string) :
  exists rest, s = String.append (Py.take n s) rest.
Proof.
  revert s. induction n as [|n IH]; intros [|a r]; simpl.
  - exists EmptyString. reflexivity.
  - exists (String a r). reflexivity.
  - exists EmptyString. reflexivity.
  - destruct (IH r) as (rest & Hr). exists rest.
    change (String a r = String a (String.append (Py.take n r) rest)).
    f_equal. exact Hr.
Qed.

Lemma take_all (n : nat) (s : string) :
  (String.length s <= n)%nat -> Py.take n s = s.
Proof.
  revert s. induction n as [|n IH]; intros [|a r]; simpl; intros H;
    try reflexivity; try lia.
  rewrite IH; [reflexivity | lia].
Qed.

(** X11. The row [record_escalation] writes. For a payload as the router
    passes it (a confidence and a character count, which [json.dumps] always
    serialises), a call appends exactly one row to [escalations], after the
    rows that were there, stamped with the second read from the clock and
    carrying the arguments as given. The stored [info] is the first 2000
    characters of the JSON text: never longer than 2000, always a prefix of
    the JSON text (so a long payload is cut in the middle and is no longer
    JSON), and the whole text when that has at most 2000 characters. [pages]
    and [runs] are not touched. *)
Theorem X11_record_escalation_appends_capped :
  forall (clock : nat -> Z) (json_dumps : info -> string)
         (u from_model to_model reason : string) (i : info) (w : world),
    let res := Footprints.record_escalation clock json_dumps u from_model
                 to_model reason i w in
    pages (snd res) = pages w
    /\ runs (snd res) = runs w
    /\ exists row,
         escalations (snd res) = (escalations w ++ [row])%list
         /\ e_ts row = clock (clock_reads w)
         /\ (e_url row, e_from_model row, e_to_model row, e_reason row)
            = (u, from_model, to_model, reason)
         /\ (String.length (e_info row) <= 2000)%nat
         /\ (exists rest, json_dumps i = String.append (e_info row) rest)
         /\ ((String.length (json_dumps i) <= 2000)%nat ->
             e_info row = json_dumps i).
Proof.
  intros clock json_dumps u from_model to_model reason i w res. subst res.
  unfold Footprints.record_escalation, Footprints.time_now.
  cbv [bind modify]. cbn [fst snd pages runs escalations with_escalations
                           with_clock_reads clock_reads].
  split; [reflexivity|]. split; [reflexivity|].
  eexists. split; [reflexivity|]. cbn [e_ts e_url e_from_model e_to_model
                                        e_reason e_info].
  split; [reflexivity|]. split; [reflexivity|]. split; [|split].
  - rewrite take_length. apply Nat.le_min_l.
  - apply take_prefix.
  - apply take_all.
Qed.

(** * Beyond the claims: the caller of the router

    [main] of [imagescrape1.py], in its rescrape mode, is the one caller of
    [check_or_escalate], [summary] and [record_run_summary]: for every known
    Apply URL it takes a screenshot, asks the router, and tells the XML
    writer; at the end it stores the counters. The browser, the extraction
    agent and the writer are outside this development: they appear as
    oracles and as traces of the calls made on them. *)

Module Rescrape.

(** The calls the loop makes on the [JobsXML] writer; [active] is always
    [True]. *)
Inductive writer_op : Type :=
| mark_seen_by_apply_url (apply_url : string)
| write.

Record site : Type := {
  store : world;                    (* the Footprints database and the router *)
  visited : list string;            (* [browser.goto] calls *)
  written : list writer_op;         (* calls on the writer *)
  errors : list (string * exn)      (* [logger.exception] records *)
}.

Definition with_store (f : world -> world) (s : site) : site :=
  {| store := f (store s); visited := visited s; written := written s;
     errors := errors s |}.
Definition with_visited (f : list string -> list string) (s : site) : site :=
  {| store := store s; visited := f (visited s); written := written s;
     errors := errors s |}.
Definition with_written (f : list writer_op -> list writer_op) (s : site)
  : site :=
  {| store := store s; visited := visited s; written := f (written s);
     errors := errors s |}.
Definition with_errors (f : list (string * exn) -> list (string * exn))
    (s : site) : site :=
  {| store := store s; visited := visited s; written := written s;
     errors := f (errors s) |}.

(** A computation on the store, run inside the caller's state. *)
Definition on_store {A} (m : M world A) : M site A :=
  fun s => let (r, w') := m (store s) in (r, with_store (fun _ => w') s).

(** [try: m  except Exception: pass]: a raise that is no [Exception] goes
    through. *)
Definition try_pass (m : M site unit) : M site unit :=
  fun s => match m s with
           | (Ok _, s') => (Ok tt, s')
           | (Raise e, s') =>
               if is_exception e then (Ok tt, s') else (Raise e, s')
           end.

Section Loop.

Variable clock : nat -> Z.
Variable json_dumps : info -> string.
Variable text_sha : string -> string.
Variable img_sha : list Byte.byte -> string.
Variable paddle_ocr : list Byte.byte -> outcome PaddleClient.result.
Variable azure_post : list Byte.byte -> outcome AzureVisionClient.data.
Variable cfg : VisionRouter.RouterConfig.
(** [browser.goto(u)] then [browser.screenshot_bytes()], as the [n]-th
    navigation of the run: the bytes, or what either call raised. *)
Variable capture : nat -> string -> outcome (list Byte.byte).
(** [_extract_with_gemini], the closure over the screenshot: the dict of
    fields, or what the agent raised. *)
Variable extract : string -> list Byte.byte -> outcome VisionRouter.fields_t.
(** A call on the writer, given the calls made before it: done, or what it
    raised. *)
Variable writer : list writer_op -> writer_op -> outcome unit.

Definition goto_and_shoot (u : string) : M site (list Byte.byte) :=
  fun s => (capture (length (visited s)) u,
            with_visited (fun l => (l ++ [u])%list) s).

Definition call_writer (op : writer_op) : M site unit :=
  fun s => (writer (written s) op,
            with_written (fun l => (l ++ [op])%list) s).

Definition _extract_with_gemini (u : string) (shot : list Byte.byte)
  : unit -> outcome (option VisionRouter.fields_t) :=
  fun _ => match extract u shot with
           | Ok f => Ok (Some f)
           | Raise e => Raise e
           end.

(** The body of the [try] of one iteration. [JobsXML] has no attribute
    [update_fields_by_apply_url], so the [hasattr] test is false and
    [updated] stays [False]. *)
Definition rescrape_body (apply_url : string) : M site unit :=
  (shot <- goto_and_shoot apply_url ;;
   decision <- on_store
     (VisionRouter.check_or_escalate clock json_dumps text_sha img_sha paddle_ocr
        azure_post cfg apply_url shot None
        (Some (_extract_with_gemini apply_url shot))) ;;
   let status := VisionRouter.status decision in
   let changed := VisionRouter.changed decision in
   if String.eqb status "skipped" then
     (_ <- call_writer (mark_seen_by_apply_url apply_url) ;;
      call_writer write)
   else if (String.eqb status "paddle" || String.eqb status "azure")
           && negb changed then
     (_ <- call_writer (mark_seen_by_apply_url apply_url) ;;
      call_writer write)
   else
     let updated := false in
     (_ <- (if negb updated
            then call_writer (mark_seen_by_apply_url apply_url)
            else ret tt) ;;
      call_writer write))%py.

(** One iteration: [except Exception as e: logger.exception(...)]. A raise
    that is no [Exception] is not caught and leaves the loop. *)
Definition rescrape_one (apply_url : string) : M site unit :=
  fun s => match rescrape_body apply_url s with
           | (Ok _, s') => (Ok tt, s')
           | (Raise e, s') =>
               if is_exception e
               then (Ok tt,
                     with_errors (fun l => (l ++ [(apply_url, e)])%list) s')
               else (Raise e, s')
           end.

(** [for apply_url in seen_apply: ...]; the first raise that leaves an
    iteration ends the loop. *)
Fixpoint rescrape_urls (seen_apply : list string) : M site unit :=
  match seen_apply with
  | [] => ret tt
  | u :: rest => (_ <- rescrape_one u ;; rescrape_urls rest)%py
  end.

(** The end of the run: [s = router.summary()], then the row of counters,
    any failure of which is passed over. *)
Definition finish : M site unit :=
  (s <- on_store VisionRouter.summary ;;
   let '(skipped, used_ocr, escalated) := s in
   try_pass (on_store (Footprints.record_run_summary clock skipped used_ocr
                         escalated)))%py.

End Loop.

End Rescrape.

Section Caller.

Variable clock : nat -> Z.
Variable json_dumps : info -> string.
Variable text_sha : string -> string.
Variable img_sha : list Byte.byte -> string.
Variable paddle_ocr : list Byte.byte -> outcome PaddleClient.result.
Variable azure_post : list Byte.byte -> outcome AzureVisionClient.data.
Variable cfg : VisionRouter.RouterConfig.
Variable capture : nat -> string -> outcome (list Byte.byte).
Variable extract : string -> list Byte.byte -> outcome VisionRouter.fields_t.
Variable writer : list Rescrape.writer_op -> Rescrape.writer_op -> outcome unit.

(** The router call of one iteration. *)
Definition route (u : string) (shot : list Byte.byte)
  : M world VisionRouter.decision :=
  VisionRouter.check_or_escalate clock json_dumps text_sha img_sha paddle_ocr
    azure_post cfg u shot None (Some (Rescrape._extract_with_gemini extract u shot)).

Definition visit (u : string) (s : Rescrape.site) : Rescrape.site :=
  Rescrape.with_visited (fun l => (l ++ [u])%list) s.
Definition put (w : world) (s : Rescrape.site) : Rescrape.site :=
  Rescrape.with_store (fun _ => w) s.
Definition told (op : Rescrape.writer_op) (s : Rescrape.site) : Rescrape.site :=
  Rescrape.with_written (fun l => (l ++ [op])%list) s.
Definition complained (u : string) (e : exn) (s : Rescrape.site)
  : Rescrape.site :=
  Rescrape.with_errors (fun l => (l ++ [(u, e)])%list) s.

(** The two writer calls every decision ends in. *)
Definition mark_and_write (u : string) (s : Rescrape.site)
  : outcome unit * Rescrape.site :=
  match writer (Rescrape.written s) (Rescrape.mark_seen_by_apply_url u) with
  | Raise e => (Raise e, told (Rescrape.mark_seen_by_apply_url u) s)
  | Ok _ =>
      (writer (Rescrape.written s ++ [Rescrape.mark_seen_by_apply_url u])%list
         Rescrape.write,
       told Rescrape.write (told (Rescrape.mark_seen_by_apply_url u) s))
  end.

Lemma rescrape_body_run (u : string) (s : Rescrape.site) :
  Rescrape.rescrape_body clock json_dumps text_sha img_sha paddle_ocr azure_post
    cfg capture extract writer u s
  = match capture (length (Rescrape.visited s)) u with
    | Raise e => (Raise e, visit u s)
    | Ok shot =>
        match route u shot (Rescrape.store s) with
        | (Raise e, w') => (Raise e, put w' (visit u s))
        | (Ok d, w') => mark_and_write u (put w' (visit u s))
        end
    end.
Proof.
  unfold Rescrape.rescrape_body, Rescrape.goto_and_shoot. cbv [bind].
  destruct (capture (length (Rescrape.visited s)) u) as [shot|e]; [|reflexivity].
  unfold Rescrape.on_store, route. cbn [Rescrape.store Rescrape.with_visited].
  destruct (VisionRouter.check_or_escalate _ _ _ _ _ _ _ _ _ _ _ _)
    as [[d|e] w']; [|reflexivity].
  assert (Hmw : forall s0,
    (let (r, s1) := Rescrape.call_writer writer
                      (Rescrape.mark_seen_by_apply_url u) s0 in
     match r with
     | Ok _ => Rescrape.call_writer writer Rescrape.write s1
     | Raise e => (Raise e, s1)
     end) = mark_and_write u s0).
  { intros s0. unfold Rescrape.call_writer, mark_and_write.
    destruct (writer _ _); reflexivity. }
  destruct (String.eqb (VisionRouter.status d) "skipped"); [apply Hmw|].
  destruct ((String.eqb (VisionRouter.status d) "paddle"
             || String.eqb (VisionRouter.status d) "azure")
            && negb (VisionRouter.changed d)); apply Hmw.
Qed.

Lemma mark_and_write_trace (u : string) (s : Rescrape.site) :
  let res := mark_and_write u s in
  Rescrape.store (snd res) = Rescrape.store s
  /\ Rescrape.visited (snd res) = Rescrape.visited s
  /\ Rescrape.errors (snd res) = Rescrape.errors s
  /\ exists ws, Rescrape.written (snd res) = (Rescrape.written s ++ ws)%list
                /\ (length ws <= 2)%nat.
Proof.
  unfold mark_and_write. destruct (writer _ _); cbn.
  - repeat split. eexists. rewrite <- app_assoc. split; [reflexivity|].
    simpl. lia.
  - repeat split. eexists. split; [reflexivity|]. simpl. lia.
Qed.

Lemma rescrape_body_trace (u : string) (s : Rescrape.site) :
  let res := Rescrape.rescrape_body clock json_dumps text_sha img_sha paddle_ocr
               azure_post cfg capture extract writer u s in
  Rescrape.visited (snd res) = (Rescrape.visited s ++ [u])%list
  /\ Rescrape.errors (snd res) = Rescrape.errors s
  /\ exists ws, Rescrape.written (snd res) = (Rescrape.written s ++ ws)%list
                /\ (length ws <= 2)%nat.
Proof.
  rewrite rescrape_body_run.
  assert (Hnil : forall l : list Rescrape.writer_op,
            exists ws, l = (l ++ ws)%list /\ (length ws <= 2)%nat).
  { intros l. exists []. rewrite app_nil_r. split; [reflexivity | simpl; lia]. }
  destruct (capture _ u) as [shot|e]; [|cbn; repeat split; apply Hnil].
  destruct (route u shot (Rescrape.store s)) as [[d|e] w'];
    [|cbn; repeat split; apply Hnil].
  destruct (mark_and_write_trace u (put w' (visit u s))) as (_ & Hv & He & Hw).
  repeat split; assumption.
Qed.

(** One iteration has navigated to its URL and has made at most two writer
    calls. It returns, with at most one error logged, under its URL and of
    class [Exception], or it raises what its body raised, which is then no
    [Exception], and logs nothing. *)
Lemma rescrape_one_trace (u : string) (s : Rescrape.site) :
  let res := Rescrape.rescrape_one clock json_dumps text_sha img_sha paddle_ocr
               azure_post cfg capture extract writer u s in
  Rescrape.visited (snd res) = (Rescrape.visited s ++ [u])%list
  /\ (exists ws, Rescrape.written (snd res) = (Rescrape.written s ++ ws)%list
                 /\ (length ws <= 2)%nat)
  /\ match fst res with
     | Ok _ =>
         Rescrape.errors (snd res) = Rescrape.errors s
         \/ exists e, is_exception e = true
                      /\ Rescrape.errors (snd res)
                         = (Rescrape.errors s ++ [(u, e)])%list
     | Raise e =>
         is_exception e = false
         /\ Rescrape.errors (snd res) = Rescrape.errors s
         /\ fst (Rescrape.rescrape_body clock json_dumps text_sha img_sha
                   paddle_ocr azure_post cfg capture extract writer u s)
            = Raise e
     end.
Proof.
  unfold Rescrape.rescrape_one.
  destruct (rescrape_body_trace u s) as (Hv & He & Hw).
  destruct (Rescrape.rescrape_body _ _ _ _ _ _ _ _ _ _ u s) as [[[]|e] s'];
    cbn [fst snd] in *.
  - repeat split; [exact Hv | exact Hw | left; exact He].
  - destruct (is_exception e) eqn:Hc; cbn [fst snd].
    + cbn [Rescrape.visited Rescrape.written Rescrape.errors
           Rescrape.with_errors].
      repeat split; [exact Hv | exact Hw |]. right. exists e.
      rewrite He. split; [exact Hc | reflexivity].
    + repeat split; assumption.
Qed.

(** ** Where a raise comes from *)

(** An outcome that raises nothing but an [Exception]. *)
Definition calm {A} (o : outcome A) : Prop :=
  forall e, o = Raise e -> is_exception e = true.

Lemma stage_body_raise_source (u : string) (shot : list Byte.byte)
    (sha prev_p prev_a : string)
    (cb : option (unit -> outcome (option VisionRouter.fields_t)))
    (stage : string) (used : bool) (w w' : world) (e : exn) :
  VisionRouter.stage_body clock json_dumps text_sha paddle_ocr azure_post cfg
    u shot sha prev_p prev_a cb stage used w = (Raise e, w') ->
  paddle_ocr shot = Raise e \/ azure_post shot = Raise e
  \/ exists f, cb = Some f /\ f tt = Raise e.
Proof.
  rewrite stage_body_run.
  destruct (runs_paddle cfg stage).
  { rewrite paddle_stage_run. destruct (paddle_ocr shot) as [r|e0]; simpl.
    - destruct (VisionRouter._needs_escalation _ _ _ _); discriminate.
    - intros H. left. congruence. }
  destruct (runs_azure cfg stage).
  { rewrite azure_stage_run. destruct (azure_post shot) as [d|e0]; simpl.
    - destruct (VisionRouter._needs_escalation _ _ _ _); discriminate.
    - intros H. right. left. congruence. }
  destruct (runs_gemini cfg stage); [|discriminate].
  rewrite gemini_stage_run. destruct cb as [f|]; simpl; [|discriminate].
  destruct (f tt) as [r|e0] eqn:Hf; simpl; [discriminate|].
  intros H. right. right. exists f. split; [reflexivity | congruence].
Qed.

Lemma walk_raise_source (u : string) (shot : list Byte.byte)
    (sha prev_p prev_a : string)
    (cb : option (unit -> outcome (option VisionRouter.fields_t)))
    (stages : list string) :
  forall (used : bool) (last_stage : option string) (w w' : world) (e : exn),
    VisionRouter.walk clock json_dumps text_sha paddle_ocr azure_post cfg
      u shot sha prev_p prev_a cb stages used last_stage w = (Raise e, w') ->
    paddle_ocr shot = Raise e \/ azure_post shot = Raise e
    \/ exists f, cb = Some f /\ f tt = Raise e.
Proof.
  induction stages as [|stage rest IH]; intros used last_stage w w' e.
  - cbn [VisionRouter.walk]. unfold VisionRouter.exhausted, VisionRouter.logged.
    cbv [bind modify ret]. destruct used; discriminate.
  - cbn [VisionRouter.walk]. cbv [bind ret].
    destruct (VisionRouter.stage_body _ _ _ _ _ _ _ _ _ _ _ _ _ _ w)
      as [[[[d|] used']|e0] w1] eqn:Hb; cbv iota beta.
    + discriminate.
    + apply IH.
    + intros H. injection H as <- <-.
      apply (stage_body_raise_source _ _ _ _ _ _ _ _ _ _ _ Hb).
Qed.

Lemma route_raise_source (u : string) (shot : list Byte.byte) (w w' : world)
    (e : exn) :
  route u shot w = (Raise e, w') ->
  paddle_ocr shot = Raise e \/ azure_post shot = Raise e
  \/ extract u shot = Raise e.
Proof.
  unfold route. rewrite check_or_escalate_run. intros H.
  assert (Hw : forall prev_p prev_a,
            VisionRouter.walk clock json_dumps text_sha paddle_ocr azure_post cfg
              u shot (img_sha shot) prev_p prev_a
              (Some (Rescrape._extract_with_gemini extract u shot))
              (VisionRouter.order cfg) false None w = (Raise e, w') ->
            paddle_ocr shot = Raise e \/ azure_post shot = Raise e
            \/ extract u shot = Raise e).
  { intros prev_p prev_a Hk.
    destruct (walk_raise_source _ _ _ _ _ _ _ _ _ _ _ _ Hk)
      as [Hs|[Hs|(f & Hf & Hs)]]; [left; exact Hs | right; left; exact Hs|].
    right. right. injection Hf as <-. unfold Rescrape._extract_with_gemini in Hs.
    destruct (extract u shot); congruence. }
  destruct (pages w !! u) as [r|]; [|apply (Hw _ _ H)].
  destruct (String.eqb _ _); [discriminate H | apply (Hw _ _ H)].
Qed.

(** What the body of an iteration raises, one of its collaborators raised. *)
Lemma rescrape_body_raise_source (u : string) (s : Rescrape.site) (e : exn) :
  fst (Rescrape.rescrape_body clock json_dumps text_sha img_sha paddle_ocr
         azure_post cfg capture extract writer u s) = Raise e ->
  capture (length (Rescrape.visited s)) u = Raise e
  \/ (exists shot, paddle_ocr shot = Raise e \/ azure_post shot = Raise e
                   \/ extract u shot = Raise e)
  \/ exists before op, writer before op = Raise e.
Proof.
  rewrite rescrape_body_run.
  destruct (capture _ u) as [shot|e0]; [|cbn; intros H; left; congruence].
  destruct (route u shot (Rescrape.store s)) as [[d|e0] w'] eqn:Hr.
  - unfold mark_and_write. intros H. right. right.
    destruct (writer _ (Rescrape.mark_seen_by_apply_url u)) as [[]|e1] eqn:H1;
      cbn [fst] in H; [eauto|].
    injection H as <-. eauto.
  - cbn [fst]. intros H. injection H as ->. right. left. exists shot.
    apply (route_raise_source u shot _ _ e Hr).
Qed.

End Caller.

(** X12. Only a raise that is no [Exception] stops the loop over the known
    Apply URLs. The loop navigates to the URLs in the order of the list, once
    each, and either returns after the last one or is left by a
    [KeyboardInterrupt] or [SystemExit] that a collaborator raised, after the
    URLs up to that one. A failure of class [Exception], from the browser, a
    detector, the agent or the writer, is logged under its URL and costs only
    the rest of that iteration: at most one error record per URL, in the
    order of the list, and at most two writer calls per URL. When no
    collaborator raises anything but an [Exception], the loop returns. *)
Theorem X12_rescrape_loop_stops_only_on_interrupt :
  forall (clock : nat -> Z) (json_dumps : info -> string)
         (text_sha : string -> string) (img_sha : list Byte.byte -> string)
         (paddle_ocr : list Byte.byte -> outcome PaddleClient.result)
         (azure_post : list Byte.byte -> outcome AzureVisionClient.data)
         (cfg : VisionRouter.RouterConfig)
         (capture : nat -> string -> outcome (list Byte.byte))
         (extract : string -> list Byte.byte -> outcome VisionRouter.fields_t)
         (writer : list Rescrape.writer_op -> Rescrape.writer_op -> outcome unit)
         (seen_apply : list string) (s : Rescrape.site),
    let res := Rescrape.rescrape_urls clock json_dumps text_sha img_sha
                 paddle_ocr azure_post cfg capture extract writer seen_apply s in
    (exists done todo,
        seen_apply = (done ++ todo)%list
        /\ Rescrape.visited (snd res) = (Rescrape.visited s ++ done)%list
        /\ match fst res with
           | Ok _ => todo = []
           | Raise e => is_exception e = false /\ done <> []
           end)
    /\ (exists ws,
          Rescrape.written (snd res) = (Rescrape.written s ++ ws)%list
          /\ (length ws <= 2 * length seen_apply)%nat)
    /\ (exists es,
          Rescrape.errors (snd res) = (Rescrape.errors s ++ es)%list
          /\ sublist (List.map fst es) seen_apply
          /\ Forall (fun ue => is_exception (snd ue) = true) es)
    /\ ((forall n u, calm (capture n u)) ->
        (forall u shot, calm (extract u shot)) ->
        (forall before op, calm (writer before op)) ->
        (forall b, calm (paddle_ocr b)) ->
        (forall b, calm (azure_post b)) ->
        fst res = Ok tt).
Proof.
  intros clock json_dumps text_sha img_sha paddle_ocr azure_post cfg capture
    extract writer seen_apply.
  induction seen_apply as [|u rest IH]; intros s.
  - cbn. split; [exists [], []; repeat split; symmetry; apply app_nil_r|].
    split; [exists []; split; [symmetry; apply app_nil_r | simpl; lia]|].
    split; [|reflexivity].
    exists []. split; [symmetry; apply app_nil_r|]. split; constructor.
  - cbn [Rescrape.rescrape_urls]. cbv [bind].
    pose proof (rescrape_one_trace clock json_dumps text_sha img_sha paddle_ocr
                  azure_post cfg capture extract writer u s) as H1.
    cbv zeta in H1.
    destruct (Rescrape.rescrape_one _ _ _ _ _ _ _ _ _ _ u s) as [[[]|e] s1].
    + cbn [fst snd] in H1. destruct H1 as (Hv & (ws1 & Hw & Hl) & He).
      specialize (IH s1). cbv zeta in IH.
      destruct (Rescrape.rescrape_urls _ _ _ _ _ _ _ _ _ _ rest s1) as [r2 s2].
      cbn [fst snd] in *.
      destruct IH as ((done & todo & Hsplit & Hv2 & Hm) & (ws2 & Hw2 & Hl2)
                      & (es2 & He2 & Hs2 & Hf2) & Hcalm).
      split; [|split; [|split]].
      * exists (u :: done), todo. rewrite Hsplit, Hv2, Hv, <- app_assoc.
        split; [reflexivity|]. split; [reflexivity|].
        destruct r2; [exact Hm|]. split; [apply Hm | discriminate].
      * exists (ws1 ++ ws2)%list. rewrite Hw2, Hw, <- app_assoc.
        split; [reflexivity|]. rewrite length_app. simpl. lia.
      * destruct He as [He|(e & Hc & He)].
        -- exists es2. rewrite He2, He. split; [reflexivity|].
           split; [apply sublist_cons, Hs2 | exact Hf2].
        -- exists ((u, e) :: es2). rewrite He2, He, <- app_assoc.
           split; [reflexivity|].
           split; [simpl; apply sublist_skip, Hs2|].
           constructor; [exact Hc | exact Hf2].
      * exact Hcalm.
    + cbn [fst snd] in *. destruct H1 as (Hv & (ws1 & Hw & Hl) & Hc & He & Hb).
      split; [|split; [|split]].
      * exists [u], rest. split; [reflexivity|]. split; [exact Hv|].
        split; [exact Hc | discriminate].
      * exists ws1. split; [exact Hw | simpl; lia].
      * exists []. rewrite app_nil_r. split; [exact He|].
        split; [apply sublist_nil_l | constructor].
      * intros Hcap Hext Hwr Hpad Haz. exfalso.
        assert (Ht : is_exception e = true); [|congruence].
        destruct (rescrape_body_raise_source clock json_dumps text_sha img_sha
                    paddle_ocr azure_post cfg capture extract writer u s e Hb)
          as [H|[(shot & [H|[H|H]])|(before & op & H)]].
        -- apply (Hcap _ _ e H).
        -- apply (Hpad _ e H).
        -- apply (Haz _ e H).
        -- apply (Hext _ _ e H).
        -- apply (Hwr _ _ e H).
Qed.

(** What [except Exception as e: logger.exception(...)] makes of a raise
    [e] in the iteration for [u] started in [s]: an [Exception] is logged
    under the URL and the iteration returns; anything else is raised on and
    not logged. *)
Definition handled (u : string) (e : exn) (s : Rescrape.site)
    (res : outcome unit * Rescrape.site) : Prop :=
  if is_exception e
  then fst res = Ok tt
       /\ Rescrape.errors (snd res) = (Rescrape.errors s ++ [(u, e)])%list
  else fst res = Raise e /\ Rescrape.errors (snd res) = Rescrape.errors s.

(** X13. What the loop tells the writer does not depend on the decision.
    Once the screenshot is taken and the router has returned a decision [d],
    whatever its status, [changed] flag and fields, the iteration makes the
    same two writer calls, [mark_seen_by_apply_url(url, active=True)] and
    then [write()] (the second only when the first did not raise): the three
    branches on the status coincide, because the writer has no
    [update_fields_by_apply_url]. The fields the callback extracted are
    dropped. A writer failure of class [Exception] is logged under the URL.
    The store is left as the router left it. *)
Theorem X13_every_decision_is_mark_and_write :
  forall (clock : nat -> Z) (json_dumps : info -> string)
         (text_sha : string -> string) (img_sha : list Byte.byte -> string)
         (paddle_ocr : list Byte.byte -> outcome PaddleClient.result)
         (azure_post : list Byte.byte -> outcome AzureVisionClient.data)
         (cfg : VisionRouter.RouterConfig)
         (capture : nat -> string -> outcome (list Byte.byte))
         (extract : string -> list Byte.byte -> outcome VisionRouter.fields_t)
         (writer : list Rescrape.writer_op -> Rescrape.writer_op -> outcome unit)
         (u : string) (s : Rescrape.site) (shot : list Byte.byte)
         (d : VisionRouter.decision) (w' : world),
    capture (length (Rescrape.visited s)) u = Ok shot ->
    route clock json_dumps text_sha img_sha paddle_ocr azure_post cfg extract
      u shot (Rescrape.store s) = (Ok d, w') ->
    let res := Rescrape.rescrape_one clock json_dumps text_sha img_sha paddle_ocr
                 azure_post cfg capture extract writer u s in
    let mark := Rescrape.mark_seen_by_apply_url u in
    Rescrape.store (snd res) = w'
    /\ match writer (Rescrape.written s) mark with
       | Raise e =>
           Rescrape.written (snd res) = (Rescrape.written s ++ [mark])%list
           /\ handled u e s res
       | Ok _ =>
           Rescrape.written (snd res)
           = (Rescrape.written s ++ [mark; Rescrape.write])%list
           /\ match writer (Rescrape.written s ++ [mark])%list Rescrape.write with
              | Ok _ =>
                  fst res = Ok tt
                  /\ Rescrape.errors (snd res) = Rescrape.errors s
              | Raise e => handled u e s res
              end
       end.
Proof.
  intros clock json_dumps text_sha img_sha paddle_ocr azure_post cfg capture
    extract writer u s shot d w' Hshot Hroute res mark. subst res mark.
  unfold Rescrape.rescrape_one. rewrite rescrape_body_run, Hshot, Hroute.
  unfold mark_and_write, handled.
  cbn [Rescrape.written put visit Rescrape.with_store Rescrape.with_visited].
  destruct (writer (Rescrape.written s) (Rescrape.mark_seen_by_apply_url u))
    as [[]|e].
  - destruct (writer _ Rescrape.write) as [[]|e]; [|destruct (is_exception e)];
      cbn; rewrite <- app_assoc; repeat split.
  - destruct (is_exception e); cbn; repeat split.
Qed.

(** Concrete collaborators of the loop: a browser that shows every page the
    same way, an agent that extracts a title and one that fails, and a
    writer that never fails. *)
Module Visit.

Definition capture (n : nat) (u : string) : outcome (list Byte.byte) :=
  Ok Scenario.shot1.
Definition extract (u : string) (shot : list Byte.byte)
  : outcome VisionRouter.fields_t :=
  Ok [("job_title", "Head Coach")].
Definition extract_fails (u : string) (shot : list Byte.byte)
  : outcome VisionRouter.fields_t :=
  Raise (ExternalError "agent failed").
Definition writer (before : list Rescrape.writer_op) (op : Rescrape.writer_op)
  : outcome unit :=
  Ok tt.
Definition start : Rescrape.site :=
  {| Rescrape.store := Scenario.fresh; Rescrape.visited := [];
     Rescrape.written := []; Rescrape.errors := [] |}.

End Visit.

(** A low-confidence page goes to the agent, which extracts a title; the
    writer is told to mark the URL and to write, and is not given the
    title. *)
Lemma X13_witness :
  let u := "https://example.org/job/1" in
  let cfg := Scenario.small_config true false true in
  let d := {| VisionRouter.status := "gemini"; VisionRouter.changed := true;
              VisionRouter.fields := [("job_title", "Head Coach")] |} in
  let routed := route Scenario.ticking_clock Scenario.json_dumps
                  Scenario.text_sha Scenario.img_sha Scenario.paddle_low
                  Scenario.azure_down cfg Visit.extract u Scenario.shot1
                  Scenario.fresh in
  let res := Rescrape.rescrape_one Scenario.ticking_clock Scenario.json_dumps
               Scenario.text_sha Scenario.img_sha Scenario.paddle_low
               Scenario.azure_down cfg Visit.capture Visit.extract Visit.writer
               u Visit.start in
  fst routed = Ok d
  /\ Rescrape.written (snd res)
     = [Rescrape.mark_seen_by_apply_url u; Rescrape.write]
  /\ Rescrape.errors (snd res) = [].
Proof.
  intros u cfg d routed res.
  assert (E : routed = (Ok d, snd routed)) by (vm_compute; reflexivity).
  split; [rewrite E; reflexivity|].
  destruct (X13_every_decision_is_mark_and_write Scenario.ticking_clock
              Scenario.json_dumps Scenario.text_sha Scenario.img_sha
              Scenario.paddle_low Scenario.azure_down cfg Visit.capture
              Visit.extract Visit.writer u Visit.start Scenario.shot1 d
              (snd routed) eq_refl E) as (_ & Hw & _ & He).
  split; [exact Hw | exact He].
Defined.

(** ** Counting *)

(** From [t] to [t'] at most one of the three counters moved, up by one. *)
Definition bumped (t t' : Z * Z * Z) : Prop :=
  match t with
  | (sk, us, es) =>
      t' = t \/ t' = (1 + sk, us, es) \/ t' = (sk, 1 + us, es)
      \/ t' = (sk, us, 1 + es)
  end.

Lemma bumped_refl (t : Z * Z * Z) : bumped t t.
Proof. destruct t as [[sk us] es]. left. reflexivity. Qed.

Section Counting.

Variable clock : nat -> Z.
Variable json_dumps : info -> string.
Variable text_sha : string -> string.
Variable img_sha : list Byte.byte -> string.
Variable paddle_ocr : list Byte.byte -> outcome PaddleClient.result.
Variable azure_post : list Byte.byte -> outcome AzureVisionClient.data.
Variable cfg : VisionRouter.RouterConfig.

(** A pass through the loop body that falls through has moved no counter;
    one that returns or raises has moved at most one. *)
Lemma stage_body_tally (u : string) (shot : list Byte.byte)
    (sha prev_p prev_a : string)
    (cb : option (unit -> outcome (option VisionRouter.fields_t)))
    (stage : string) (used : bool) (w : world) :
  let res := VisionRouter.stage_body clock json_dumps text_sha paddle_ocr
               azure_post cfg u shot sha prev_p prev_a cb stage used w in
  match fst res with
  | Ok (None, _) => tally (snd res) = tally w
  | _ => bumped (tally w) (tally (snd res))
  end.
Proof.
  cbv zeta. rewrite stage_body_run.
  destruct (runs_paddle cfg stage).
  { rewrite paddle_stage_run. destruct (paddle_ocr shot) as [r|e]; simpl.
    - destruct (VisionRouter._needs_escalation _ _ _ _); simpl;
        [reflexivity | right; right; left; reflexivity].
    - left. reflexivity. }
  destruct (runs_azure cfg stage).
  { rewrite azure_stage_run. destruct (azure_post shot) as [d|e]; simpl.
    - destruct (VisionRouter._needs_escalation _ _ _ _); simpl;
        [reflexivity | right; right; left; reflexivity].
    - left. reflexivity. }
  destruct (runs_gemini cfg stage); [|reflexivity].
  rewrite gemini_stage_run. destruct cb as [f|]; simpl.
  - destruct (f tt); simpl; right; right; right; reflexivity.
  - right. right. right. reflexivity.
Qed.

Lemma walk_tally (u : string) (shot : list Byte.byte)
    (sha prev_p prev_a : string)
    (cb : option (unit -> outcome (option VisionRouter.fields_t)))
    (stages : list string) :
  forall (used : bool) (last_stage : option string) (w : world),
    bumped (tally w)
      (tally (snd (VisionRouter.walk clock json_dumps text_sha paddle_ocr
                     azure_post cfg u shot sha prev_p prev_a cb stages used
                     last_stage w))).
Proof.
  induction stages as [|stage rest IH]; intros used last_stage w.
  - cbn [VisionRouter.walk]. unfold VisionRouter.exhausted, VisionRouter.logged.
    cbv [bind modify ret]. destruct used; apply bumped_refl.
  - cbn [VisionRouter.walk]. cbv [bind ret].
    pose proof (stage_body_tally u shot sha prev_p prev_a cb stage used w) as Hb.
    cbv zeta in Hb.
    destruct (VisionRouter.stage_body _ _ _ _ _ _ _ _ _ _ _ _ _ _ w)
      as [[[[d|] used']|e] w1]; cbn [fst snd] in Hb; cbv iota beta.
    + exact Hb.
    + rewrite <- Hb. apply IH.
    + exact Hb.
Qed.

(** A call of [check_or_escalate], whatever its outcome, moves at most one
    of the three counters, up by one. *)
Lemma check_or_escalate_tally (u : string) (shot : list Byte.byte)
    (pfp : option (list (string * string)))
    (cb : option (unit -> outcome (option VisionRouter.fields_t))) (w : world) :
  bumped (tally w)
    (tally (snd (VisionRouter.check_or_escalate clock json_dumps text_sha
                   img_sha paddle_ocr azure_post cfg u shot pfp cb w))).
Proof.
  rewrite check_or_escalate_run.
  destruct (pages w !! u) as [r|]; [|apply walk_tally].
  destruct (String.eqb _ _); [|apply walk_tally].
  right. left. reflexivity.
Qed.

Variable capture : nat -> string -> outcome (list Byte.byte).
Variable extract : string -> list Byte.byte -> outcome VisionRouter.fields_t.
Variable writer : list Rescrape.writer_op -> Rescrape.writer_op -> outcome unit.

Lemma rescrape_one_tally (u : string) (s : Rescrape.site) :
  bumped (tally (Rescrape.store s))
    (tally (Rescrape.store
              (snd (Rescrape.rescrape_one clock json_dumps text_sha img_sha
                      paddle_ocr azure_post cfg capture extract writer u s)))).
Proof.
  unfold Rescrape.rescrape_one. rewrite rescrape_body_run.
  destruct (capture _ u) as [shot|e];
    [|destruct (is_exception e); apply bumped_refl].
  pose proof (check_or_escalate_tally u shot None
                (Some (Rescrape._extract_with_gemini extract u shot))
                (Rescrape.store s)) as H.
  fold (route clock json_dumps text_sha img_sha paddle_ocr azure_post cfg
          extract u shot (Rescrape.store s)) in H.
  destruct (route _ _ _ _ _ _ _ _ u shot (Rescrape.store s)) as [[d|e] w'];
    cbn [snd] in H.
  - destruct (mark_and_write_trace writer u (put w' (visit u s)))
      as (Hs & _).
    destruct (mark_and_write writer u (put w' (visit u s))) as [[[]|e] s'];
      cbn [fst snd] in *; [|destruct (is_exception e); cbn];
      rewrite Hs; exact H.
  - destruct (is_exception e); exact H.
Qed.

End Counting.

Lemma bumped_le (w w' : world) :
  bumped (tally w) (tally w') ->
  skipped_nochange w <= skipped_nochange w'
  /\ used_cheap_ocr w <= used_cheap_ocr w'
  /\ escalated_to_gemini w <= escalated_to_gemini w'
  /\ total w' <= total w + 1.
Proof.
  unfold bumped, tally, total. intros [H|[H|[H|H]]]; injection H as -> -> ->; lia.
Qed.

(** The three counters as a row of [runs]. *)
Definition run_of (w : world) : run :=
  {| run_skipped_nochange := skipped_nochange w;
     run_used_cheap_ocr := used_cheap_ocr w;
     run_escalated_to_gemini := escalated_to_gemini w |}.

(** X14. The summary a run stores never counts more than the URLs it went
    through. Over the loop no counter of the router goes down and their sum
    grows by at most the number of URLs in the list, whatever fails on the
    way: every iteration, whether it returns, logs an error or is left by an
    interrupt, moves at most one counter, by one. At the end [finish] takes
    the three counters as they are then. When [runs] has no row for the
    second read from the clock it gets one, holding exactly these counters;
    when it has one, from a run that ended within the same second, the
    IntegrityError is passed over: the caller goes on, [runs] is left as it
    was and the counters of this run are not stored. [finish] leaves [pages]
    and the counters as they were. *)
Theorem X14_stored_summary_counts_at_most_the_urls :
  forall (clock : nat -> Z) (json_dumps : info -> string)
         (text_sha : string -> string) (img_sha : list Byte.byte -> string)
         (paddle_ocr : list Byte.byte -> outcome PaddleClient.result)
         (azure_post : list Byte.byte -> outcome AzureVisionClient.data)
         (cfg : VisionRouter.RouterConfig)
         (capture : nat -> string -> outcome (list Byte.byte))
         (extract : string -> list Byte.byte -> outcome VisionRouter.fields_t)
         (writer : list Rescrape.writer_op -> Rescrape.writer_op -> outcome unit)
         (seen_apply : list string) (s : Rescrape.site),
    let loop := Rescrape.rescrape_urls clock json_dumps text_sha img_sha
                  paddle_ocr azure_post cfg capture extract writer seen_apply s in
    let w := Rescrape.store s in
    let w' := Rescrape.store (snd loop) in
    let now := clock (clock_reads w') in
    let res := Rescrape.finish clock (snd loop) in
    (skipped_nochange w <= skipped_nochange w'
     /\ used_cheap_ocr w <= used_cheap_ocr w'
     /\ escalated_to_gemini w <= escalated_to_gemini w'
     /\ total w' <= total w + Z.of_nat (length seen_apply))
    /\ (runs w' !! now = None ->
        fst res = Ok tt
        /\ runs (Rescrape.store (snd res)) = <[now := run_of w']> (runs w'))
    /\ (forall old, runs w' !! now = Some old ->
          fst res = Ok tt /\ runs (Rescrape.store (snd res)) = runs w')
    /\ pages (Rescrape.store (snd res)) = pages w'
    /\ tally (Rescrape.store (snd res)) = tally w'.
Proof.
  intros clock json_dumps text_sha img_sha paddle_ocr azure_post cfg capture
    extract writer seen_apply s loop w w' now res.
  subst loop w w' now res. split.
  - revert s. induction seen_apply as [|u rest IH]; intros s.
    + cbn. lia.
    + cbn [Rescrape.rescrape_urls]. cbv [bind].
      pose proof (bumped_le _ _
                    (rescrape_one_tally clock json_dumps text_sha img_sha
                       paddle_ocr azure_post cfg capture extract writer u s))
        as H1.
      destruct (Rescrape.rescrape_one _ _ _ _ _ _ _ _ _ _ u s) as [[[]|e] s1];
        cbn [fst snd] in *.
      * specialize (IH s1). rewrite length_cons. lia.
      * rewrite length_cons. lia.
  - unfold Rescrape.finish, Rescrape.on_store, Rescrape.try_pass,
      VisionRouter.summary, Footprints.record_run_summary, Footprints.time_now,
      run_of.
    cbv [bind gets modify raise].
    cbn [Rescrape.store Rescrape.with_store clock_reads with_clock_reads runs].
    destruct (runs _ !! clock _) as [old|] eqn:Hrow; cbn;
      repeat split; try discriminate; reflexivity.
Qed.

(** Three visits on a fresh store, every page showing the same bytes, which
    the local tier reads well: the first URL is settled by the local tier, its
    repetition takes the fast path, the other URL is settled by the local
    tier, and one row is stored. *)
Lemma X14_witness :
  let loop := Rescrape.rescrape_urls Scenario.ticking_clock Scenario.json_dumps
                Scenario.text_sha Scenario.img_sha Scenario.paddle_good
                Scenario.azure_down (Scenario.small_config true false true)
                Visit.capture Visit.extract Visit.writer
                ["https://example.org/job/1"; "https://example.org/job/1";
                 "https://example.org/job/2"]
                Visit.start in
  let res := Rescrape.finish Scenario.ticking_clock (snd loop) in
  total (Rescrape.store (snd loop)) <= 3
  /\ fst res = Ok tt
  /\ size (runs (Rescrape.store (snd res))) = 1%nat.
Proof.
  intros loop res.
  destruct (X14_stored_summary_counts_at_most_the_urls Scenario.ticking_clock
              Scenario.json_dumps Scenario.text_sha Scenario.img_sha
              Scenario.paddle_good Scenario.azure_down
              (Scenario.small_config true false true)
              Visit.capture Visit.extract Visit.writer
              ["https://example.org/job/1"; "https://example.org/job/1";
               "https://example.org/job/2"]
              Visit.start) as ((_ & _ & _ & Ht) & Hnew & _).
  fold loop in Ht, Hnew. fold res in Hnew.
  split; [exact Ht|].
  assert (Hnone : runs (Rescrape.store (snd loop))
                    !! Scenario.ticking_clock
                         (clock_reads (Rescrape.store (snd loop))) = None)
    by (vm_compute; reflexivity).
  destruct (Hnew Hnone) as (Hok & Hruns).
  split; [exact Hok|]. rewrite Hruns.
  rewrite map_size_insert_None by exact Hnone. vm_compute. reflexivity.
Defined.

(** Two pages on which the agent fails: both are visited, both failures
    are logged, and the loop returns. *)
Lemma X12_witness :
  let urls := ["https://example.org/job/1"; "https://example.org/job/2"] in
  let res := Rescrape.rescrape_urls Scenario.ticking_clock Scenario.json_dumps
               Scenario.text_sha Scenario.img_sha Scenario.paddle_low
               Scenario.azure_down (Scenario.small_config true false true)
               Visit.capture Visit.extract_fails Visit.writer urls Visit.start in
  fst res = Ok tt
  /\ Rescrape.visited (snd res) = urls
  /\ List.map fst (Rescrape.errors (snd res)) = urls.
Proof.
  intros urls res.
  destruct (X12_rescrape_loop_stops_only_on_interrupt Scenario.ticking_clock
              Scenario.json_dumps Scenario.text_sha Scenario.img_sha
              Scenario.paddle_low Scenario.azure_down
              (Scenario.small_config true false true)
              Visit.capture Visit.extract_fails Visit.writer urls Visit.start)
    as ((done & todo & Hsplit & Hv & Hm) & _ & _ & Hcalm).
  fold res in Hv, Hm, Hcalm.
  assert (Hok : fst res = Ok tt).
  { apply Hcalm; intros; intros e H; try discriminate H.
    - injection H as <-. reflexivity.
    - injection H as <-. reflexivity. }
  split; [exact Hok|]. rewrite Hok in Hm. subst todo.
  rewrite app_nil_r in Hsplit. subst done.
  split; [exact Hv|]. vm_compute. reflexivity.
Defined.

(** X15. A page whose extraction failed is reported as seen the next time,
    without being extracted. Suppose that in one iteration the router raised
    after it had run an analyzer and then invoked the callback (the agent
    failed). That iteration tells the writer nothing; the failure is logged
    if it is an [Exception] and leaves the loop otherwise. But the analyzer
    tier had already stored the hash of the screenshot in the row of the URL.
    So at any later visit of the URL at which that row still holds this hash
    (whatever happened to other rows, in this run or in a later one on the
    same database) and the page shows the same bytes, with whatever
    configuration, detectors and agent, the router answers skipped: the
    writer is told to mark the URL as seen and to write, no detector and no
    agent is called, and no error is logged. *)
Theorem X15_failed_extraction_is_marked_seen_next_time :
  forall (clock : nat -> Z) (json_dumps : info -> string)
         (text_sha : string -> string) (img_sha : list Byte.byte -> string)
         (paddle_ocr : list Byte.byte -> outcome PaddleClient.result)
         (azure_post : list Byte.byte -> outcome AzureVisionClient.data)
         (cfg : VisionRouter.RouterConfig)
         (capture : nat -> string -> outcome (list Byte.byte))
         (extract : string -> list Byte.byte -> outcome VisionRouter.fields_t)
         (writer : list Rescrape.writer_op -> Rescrape.writer_op -> outcome unit)
         (u : string) (s : Rescrape.site) (shot : list Byte.byte)
         (e : exn) (w1 : world) (l : list call),
    capture (length (Rescrape.visited s)) u = Ok shot ->
    route clock json_dumps text_sha img_sha paddle_ocr azure_post cfg extract
      u shot (Rescrape.store s) = (Raise e, w1) ->
    calls w1 = (calls (Rescrape.store s) ++ l)%list ->
    In GeminiCallback l ->
    Exists analyzer_call l ->
    let first := Rescrape.rescrape_one clock json_dumps text_sha img_sha
                   paddle_ocr azure_post cfg capture extract writer u s in
    let mark := Rescrape.mark_seen_by_apply_url u in
    Rescrape.store (snd first) = w1
    /\ Rescrape.written (snd first) = Rescrape.written s
    /\ handled u e s first
    /\ stored_text (pages w1) u screenshot_sha = Some (img_sha shot)
    /\ forall (clock' : nat -> Z) (json_dumps' : info -> string)
              (text_sha' : string -> string)
              (paddle_ocr' : list Byte.byte -> outcome PaddleClient.result)
              (azure_post' : list Byte.byte -> outcome AzureVisionClient.data)
              (cfg' : VisionRouter.RouterConfig)
              (capture' : nat -> string -> outcome (list Byte.byte))
              (extract' : string -> list Byte.byte
                          -> outcome VisionRouter.fields_t)
              (writer' : list Rescrape.writer_op -> Rescrape.writer_op
                         -> outcome unit)
              (s2 : Rescrape.site),
         stored_text (pages (Rescrape.store s2)) u screenshot_sha
         = stored_text (pages w1) u screenshot_sha ->
         capture' (length (Rescrape.visited s2)) u = Ok shot ->
         writer' (Rescrape.written s2) mark = Ok tt ->
         writer' (Rescrape.written s2 ++ [mark])%list Rescrape.write = Ok tt ->
         let second := Rescrape.rescrape_one clock' json_dumps' text_sha' img_sha
                         paddle_ocr' azure_post' cfg' capture' extract' writer'
                         u s2 in
         fst second = Ok tt
         /\ Rescrape.written (snd second)
            = (Rescrape.written s2 ++ [mark; Rescrape.write])%list
         /\ Rescrape.errors (snd second) = Rescrape.errors s2
         /\ calls (Rescrape.store (snd second)) = calls (Rescrape.store s2).
Proof.
  intros clock json_dumps text_sha img_sha paddle_ocr azure_post cfg capture
    extract writer u s shot e w1 l Hshot Hroute Hcalls Hin Hex first mark.
  subst first mark.
  assert (Hm : marked img_sha u shot w1).
  { unfold route in Hroute.
    destruct (check_or_escalate_marks clock json_dumps text_sha img_sha
                paddle_ocr azure_post cfg u shot None
                (Some (Rescrape._extract_with_gemini extract u shot))
                (Rescrape.store s)) as (l' & Hl' & _ & H).
    rewrite Hroute in Hl', H. cbn [snd] in Hl', H.
    rewrite Hcalls in Hl'. apply app_inv_head in Hl'. subst l'.
    apply H; [exact Hin | right; exact Hex]. }
  split; [|split; [|split; [|split; [exact Hm|]]]].
  1-3: unfold Rescrape.rescrape_one, handled;
       rewrite rescrape_body_run, Hshot, Hroute;
       destruct (is_exception e); repeat split.
  intros clock' json_dumps' text_sha' paddle_ocr' azure_post' cfg' capture'
    extract' writer' s2 Hrow Hshot' Hw1 Hw2 second. subst second.
  assert (Hm2 : marked img_sha u shot (Rescrape.store s2))
    by (unfold marked in *; rewrite Hrow; exact Hm).
  destruct (marked_then_skipped clock' json_dumps' text_sha' img_sha paddle_ocr'
              azure_post' cfg' u shot None
              (Some (Rescrape._extract_with_gemini extract' u shot))
              (Rescrape.store s2) Hm2) as (Hd & Hc & _).
  unfold Rescrape.rescrape_one. rewrite rescrape_body_run, Hshot'.
  unfold route.
  destruct (VisionRouter.check_or_escalate _ _ _ _ _ _ _ _ _ _ _ _)
    as [[d|e'] w2]; cbn [fst snd] in Hd, Hc; [|discriminate Hd].
  unfold mark_and_write.
  cbn [Rescrape.written put visit Rescrape.with_store Rescrape.with_visited].
  rewrite Hw1, Hw2. cbn. rewrite <- app_assoc. repeat split. exact Hc.
Qed.

(** The agent fails on a low-confidence page; at the next visit, with an
    agent that would succeed, the page is marked as seen and no agent is
    asked. *)
Lemma X15_witness :
  let u := "https://example.org/job/1" in
  let cfg := Scenario.small_config true false true in
  let visit_with agent :=
    Rescrape.rescrape_one Scenario.ticking_clock Scenario.json_dumps
      Scenario.text_sha Scenario.img_sha Scenario.paddle_low Scenario.azure_down
      cfg Visit.capture agent Visit.writer u in
  let first := visit_with Visit.extract_fails Visit.start in
  let second := visit_with Visit.extract (snd first) in
  Rescrape.written (snd first) = []
  /\ Rescrape.errors (snd first) = [(u, ExternalError "agent failed")]
  /\ Rescrape.written (snd second)
     = [Rescrape.mark_seen_by_apply_url u; Rescrape.write]
  /\ Rescrape.errors (snd second) = Rescrape.errors (snd first)
  /\ calls (Rescrape.store (snd second)) = calls (Rescrape.store (snd first)).
Proof.
  intros u cfg visit_with first second.
  pose (routed := route Scenario.ticking_clock Scenario.json_dumps
                    Scenario.text_sha Scenario.img_sha Scenario.paddle_low
                    Scenario.azure_down cfg Visit.extract_fails u Scenario.shot1
                    Scenario.fresh).
  assert (E : routed = (Raise (ExternalError "agent failed"), snd routed))
    by (vm_compute; reflexivity).
  assert (C : calls (snd routed)
              = (calls Scenario.fresh
                 ++ [PaddleRun Scenario.shot1; GeminiCallback])%list)
    by (vm_compute; reflexivity).
  destruct (X15_failed_extraction_is_marked_seen_next_time
              Scenario.ticking_clock Scenario.json_dumps Scenario.text_sha
              Scenario.img_sha Scenario.paddle_low Scenario.azure_down cfg
              Visit.capture Visit.extract_fails Visit.writer u Visit.start
              Scenario.shot1 (ExternalError "agent failed") (snd routed)
              [PaddleRun Scenario.shot1; GeminiCallback] eq_refl E C
              (or_intror (or_introl eq_refl))
              (Exists_cons_hd analyzer_call (PaddleRun Scenario.shot1)
                 [GeminiCallback]
                 (fun H : Some "paddle" = None => eq_ind (Some "paddle")
                    (fun o => match o with Some _ => True | None => False end)
                    I None H)))
    as (Hs & Hw & (_ & He) & _ & Hnext).
  fold (visit_with Visit.extract_fails Visit.start) in Hs, Hw, He.
  fold first in Hs, Hw, He.
  split; [exact Hw|]. split; [exact He|].
  destruct (Hnext Scenario.ticking_clock Scenario.json_dumps Scenario.text_sha
              Scenario.paddle_low Scenario.azure_down cfg Visit.capture
              Visit.extract Visit.writer (snd first)
              (f_equal (fun w => stored_text (pages w) u screenshot_sha) Hs)
              eq_refl eq_refl eq_refl) as (_ & H1 & H2 & H3).
  fold (visit_with Visit.extract (snd first)) in H1, H2, H3.
  fold second in H1, H2, H3.
  split; [rewrite H1, Hw; reflexivity|]. split; [exact H2 | exact H3].
Defined.

(** ** Rows of other URLs *)

(** Every row but the one of [u] is in [w'] as it is in [w]. *)
Definition others_kept (u : string) (w w' : world) : Prop :=
  forall u', u' <> u -> pages w' !! u' = pages w !! u'.

Section Others.

Variable clock : nat -> Z.
Variable json_dumps : info -> string.
Variable text_sha : string -> string.
Variable img_sha : list Byte.byte -> string.
Variable paddle_ocr : list Byte.byte -> outcome PaddleClient.result.
Variable azure_post : list Byte.byte -> outcome AzureVisionClient.data.
Variable cfg : VisionRouter.RouterConfig.

Lemma others_kept_check_or_escalate (u : string) (shot : list Byte.byte)
    (pfp : option (list (string * string)))
    (cb : option (unit -> outcome (option VisionRouter.fields_t))) (w : world) :
  others_kept u w
    (snd (VisionRouter.check_or_escalate clock json_dumps text_sha img_sha
            paddle_ocr azure_post cfg u shot pfp cb w)).
Proof.
  assert (Hsame : forall w0 w1, pages w1 = pages w0 -> others_kept u w0 w1)
    by (intros w0 w1 H u' _; rewrite H; reflexivity).
  assert (Hstep : forall kvs w0 w1 w2,
             pages w1 = pages w0 ->
             pages w2 = pages (after_upsert clock u kvs w1) ->
             others_kept u w0 w2).
  { intros kvs w0 w1 w2 Hp Hp2 u' Hne. rewrite Hp2. unfold after_upsert.
    cbn [pages with_pages with_clock_reads].
    rewrite upserted_other by exact Hne. rewrite Hp. reflexivity. }
  apply check_or_escalate_invariant.
  - intros w0. apply Hsame. reflexivity.
  - intros a b c Hab Hbc u' Hne. rewrite (Hbc u' Hne). apply Hab, Hne.
  - intros _ sha prev w0. rewrite paddle_stage_run.
    destruct (paddle_ocr shot) as [r|e]; [|apply Hsame; reflexivity].
    simpl. destruct (VisionRouter._needs_escalation _ _ _ _);
      apply (Hstep (paddle_kvs text_sha sha (PaddleClient.build r)) w0
               (noted (PaddleRun shot) w0)); reflexivity.
  - intros _ sha prev w0. rewrite azure_stage_run.
    destruct (azure_post shot) as [r|e]; [|apply Hsame; reflexivity].
    simpl. destruct (VisionRouter._needs_escalation _ _ _ _);
      apply (Hstep (azure_kvs text_sha sha (AzureVisionClient.build r)) w0
               (noted (AzureRun shot) w0)); reflexivity.
  - intros _ sha w0. rewrite gemini_stage_run. destruct cb as [f|]; simpl.
    + destruct (f tt); simpl; [|apply Hsame; reflexivity].
      apply (Hstep (gemini_kvs sha) w0
               (noted GeminiCallback (with_escalated_to_gemini (Z.add 1) w0)));
        reflexivity.
    + apply (Hstep (gemini_kvs sha) w0 (with_escalated_to_gemini (Z.add 1) w0));
        reflexivity.
  - intros r w0. apply Hsame. reflexivity.
  - intros w0. unfold after_skip.
    apply (Hstep [Footprints.SetText screenshot_sha (Some (img_sha shot))] w0
             (with_skipped_nochange (Z.add 1) w0)); reflexivity.
Qed.

Variable capture : nat -> string -> outcome (list Byte.byte).
Variable extract : string -> list Byte.byte -> outcome VisionRouter.fields_t.
Variable writer : list Rescrape.writer_op -> Rescrape.writer_op -> outcome unit.

Lemma others_kept_rescrape_one (u : string) (s : Rescrape.site) :
  others_kept u (Rescrape.store s)
    (Rescrape.store
       (snd (Rescrape.rescrape_one clock json_dumps text_sha img_sha paddle_ocr
               azure_post cfg capture extract writer u s))).
Proof.
  unfold Rescrape.rescrape_one. rewrite rescrape_body_run.
  assert (Hrefl : others_kept u (Rescrape.store s) (Rescrape.store s))
    by (intros u' _; reflexivity).
  destruct (capture _ u) as [shot|e]; [|destruct (is_exception e); exact Hrefl].
  pose proof (others_kept_check_or_escalate u shot None
                (Some (Rescrape._extract_with_gemini extract u shot))
                (Rescrape.store s)) as H.
  fold (route clock json_dumps text_sha img_sha paddle_ocr azure_post cfg
          extract u shot (Rescrape.store s)) in H.
  destruct (route _ _ _ _ _ _ _ _ u shot (Rescrape.store s)) as [[d|e] w'];
    cbn [snd] in H.
  - destruct (mark_and_write_trace writer u (put w' (visit u s)))
      as (Hs & _).
    destruct (mark_and_write writer u (put w' (visit u s))) as [[[]|e] s'];
      cbn [fst snd] in *; [|destruct (is_exception e); cbn];
      rewrite Hs; exact H.
  - destruct (is_exception e); exact H.
Qed.

End Others.

(** X20. A visit writes the row of its own URL only. A call of
    [check_or_escalate] for a URL, whatever its outcome, leaves the row of
    every other URL in [pages] as it was, absent rows included; hence after
    the loop over a list of URLs, whatever failed on the way, the row of a URL
    that is not in the list is as it was before the loop. *)
Theorem X20_loop_writes_only_visited_rows :
  forall (clock : nat -> Z) (json_dumps : info -> string)
         (text_sha : string -> string) (img_sha : list Byte.byte -> string)
         (paddle_ocr : list Byte.byte -> outcome PaddleClient.result)
         (azure_post : list Byte.byte -> outcome AzureVisionClient.data)
         (cfg : VisionRouter.RouterConfig),
    (forall u shot pfp cb w u',
        u' <> u ->
        pages (snd (VisionRouter.check_or_escalate clock json_dumps text_sha
                      img_sha paddle_ocr azure_post cfg u shot pfp cb w)) !! u'
        = pages w !! u')
    /\ (forall (capture : nat -> string -> outcome (list Byte.byte))
               (extract : string -> list Byte.byte
                          -> outcome VisionRouter.fields_t)
               (writer : list Rescrape.writer_op -> Rescrape.writer_op
                         -> outcome unit)
               (seen_apply : list string) (s : Rescrape.site) (u' : string),
          ~ In u' seen_apply ->
          pages (Rescrape.store
                   (snd (Rescrape.rescrape_urls clock json_dumps text_sha img_sha
                           paddle_ocr azure_post cfg capture extract writer
                           seen_apply s))) !! u'
          = pages (Rescrape.store s) !! u').
Proof.
  intros clock json_dumps text_sha img_sha paddle_ocr azure_post cfg. split.
  - intros u shot pfp cb w u' Hne.
    apply (others_kept_check_or_escalate clock json_dumps text_sha img_sha
             paddle_ocr azure_post cfg u shot pfp cb w u' Hne).
  - intros capture extract writer seen_apply.
    induction seen_apply as [|u rest IH]; intros s u' Hnin; [reflexivity|].
    cbn [Rescrape.rescrape_urls]. cbv [bind].
    assert (Hne : u' <> u) by (intros ->; apply Hnin; left; reflexivity).
    pose proof (others_kept_rescrape_one clock json_dumps text_sha img_sha
                  paddle_ocr azure_post cfg capture extract writer u s u' Hne)
      as H1.
    destruct (Rescrape.rescrape_one _ _ _ _ _ _ _ _ _ _ u s) as [[[]|e] s1];
      cbn [fst snd] in *; [|exact H1].
    rewrite IH; [exact H1|]. intros Hin. apply Hnin. right. exact Hin.
Qed.

(** A page is visited; visiting another page afterwards leaves its row. *)
Lemma X20_witness :
  let run urls := Rescrape.rescrape_urls Scenario.ticking_clock
                    Scenario.json_dumps Scenario.text_sha Scenario.img_sha
                    Scenario.paddle_good Scenario.azure_down
                    (Scenario.small_config true false true)
                    Visit.capture Visit.extract Visit.writer urls in
  let s1 := snd (run ["https://example.org/job/1"] Visit.start) in
  let s2 := snd (run ["https://example.org/job/2"] s1) in
  stored_text (pages (Rescrape.store s1)) "https://example.org/job/1"
    last_model = Some "paddle"
  /\ pages (Rescrape.store s2) !! "https://example.org/job/1"
     = pages (Rescrape.store s1) !! "https://example.org/job/1".
Proof.
  intros run s1 s2. split; [vm_compute; reflexivity|].
  apply (proj2 (X20_loop_writes_only_visited_rows Scenario.ticking_clock
                  Scenario.json_dumps Scenario.text_sha Scenario.img_sha
                  Scenario.paddle_good Scenario.azure_down
                  (Scenario.small_config true false true))
           Visit.capture Visit.extract Visit.writer
           ["https://example.org/job/2"] s1 "https://example.org/job/1").
  intros [H|[]]. discriminate H.
Defined.

(** * Beyond the claims: text normalisation

    [text_sha] digests the text after [_normalize_text]; the router compares
    such digests to tell whether a page changed. As everywhere in this
    development, a text is a string of code points below 256. *)

Module PyStr.

(** [str.lower] on one character, for code points below 256: A..Z and the
    capital letters U+00C0..U+00DE but the multiplication sign U+00D7 move up
    by 32. *)
Definition lower_char (a : ascii) : ascii :=
  let n := N_of_ascii a in
  if ((65 <=? n) && (n <=? 90) || (192 <=? n) && (n <=? 214)
      || (216 <=? n) && (n <=? 222))%N
  then ascii_of_N (n + 32) else a.

(** [s.lower()] *)
Fixpoint lower (s : string) : string :=
  match s with
  | EmptyString => EmptyString
  | String a r => String (lower_char a) (lower r)
  end.

(** [str.isalnum] on one character, for code points below 256: the digits,
    the letters, the ordinal indicators, the micro sign, the superscript
    digits and the three vulgar fractions. *)
Definition isalnum (a : ascii) : bool :=
  let n := N_of_ascii a in
  ((48 <=? n) && (n <=? 57) || (65 <=? n) && (n <=? 90)
   || (97 <=? n) && (n <=? 122) || (n =? 170) || (178 <=? n) && (n <=? 179)
   || (n =? 181) || (185 <=? n) && (n <=? 186) || (188 <=? n) && (n <=? 190)
   || (192 <=? n) && (n <=? 214) || (216 <=? n) && (n <=? 246)
   || (248 <=? n) && (n <=? 255))%N.

(** ["".join(ch for ch in s if p(ch))] *)
Fixpoint filter (p : ascii -> bool) (s : string) : string :=
  match s with
  | EmptyString => EmptyString
  | String a r => if p a then String a (filter p r) else filter p r
  end.

(** [s.split()]: the maximal runs of characters that are not white space,
    from left to right. *)
Fixpoint split (s : string) : list string :=
  match s with
  | EmptyString => []
  | String a r =>
      if Py.isspace a then split r
      else match r with
           | EmptyString => [String a EmptyString]
           | String b _ =>
               if Py.isspace b then String a EmptyString :: split r
               else match split r with
                    | w :: ws => String a w :: ws
                    | [] => [String a EmptyString]
                    end
           end
  end.

End PyStr.

Module VisionOcr.

(** [ch in "-_/.:@"] *)
Definition in_whitelist (a : ascii) : bool :=
  existsb (Ascii.eqb a) (list_ascii_of_string "-_/.:@").

(** The test of the generator in [_normalize_text]. *)
Definition kept (a : ascii) : bool :=
  PyStr.isalnum a || Py.isspace a || in_whitelist a.

(** [_normalize_text]; [s or ""] is [s] for a [str]. *)
Definition _normalize_text (s : string) : string :=
  let s := PyStr.lower s in
  Py.join " " (PyStr.split (PyStr.filter kept s)).

Section Digest.

(** SHA-256 of the UTF-8 encoding, in hexadecimal. *)
Variable sha256_hex : string -> string.

Definition text_sha (s : string) : string := sha256_hex (_normalize_text s).

End Digest.

End VisionOcr.

(** ** Characters *)

Ltac each_char a := destruct a as [[] [] [] [] [] [] [] []]; vm_compute; reflexivity.

Lemma lower_char_idem (a : ascii) :
  PyStr.lower_char (PyStr.lower_char a) = PyStr.lower_char a.
Proof. each_char a. Qed.

Lemma kept_lower_char (a : ascii) :
  VisionOcr.kept (PyStr.lower_char a) = VisionOcr.kept a.
Proof. each_char a. Qed.

Lemma isspace_lower_char (a : ascii) :
  Py.isspace (PyStr.lower_char a) = Py.isspace a.
Proof. each_char a. Qed.

Lemma isspace_kept (a : ascii) : Py.isspace a = true -> VisionOcr.kept a = true.
Proof.
  intros H. unfold VisionOcr.kept. rewrite H. apply orb_true_iff. left.
  apply orb_true_r.
Qed.

(** A white-space character is neither alphanumeric nor in the list. *)
Lemma kept_not_space (a : ascii) :
  VisionOcr.kept a = true -> Py.isspace a = false ->
  PyStr.isalnum a || VisionOcr.in_whitelist a = true.
Proof.
  unfold VisionOcr.kept. intros H Hs. rewrite Hs, orb_false_r in H. exact H.
Qed.

(** ** Strings *)

(** Every character of [s] satisfies [p]. *)
Fixpoint every (p : ascii -> bool) (s : string) : bool :=
  match s with
  | EmptyString => true
  | String a r => p a && every p r
  end.

Lemma every_app (p : ascii -> bool) (x y : string) :
  every p (String.append x y) = every p x && every p y.
Proof.
  induction x as [|a r IH]; [reflexivity|].
  change (String.append (String a r) y) with (String a (String.append r y)).
  cbn [every]. rewrite IH. apply andb_assoc.
Qed.

Lemma every_weaken (p q : ascii -> bool) (s : string) :
  (forall a, p a = true -> q a = true) -> every p s = true -> every q s = true.
Proof.
  intros Hpq. induction s as [|a r IH]; [reflexivity|]. cbn [every].
  rewrite !andb_true_iff. intros [Ha Hr]. split; [apply Hpq, Ha | apply IH, Hr].
Qed.

Lemma every_and (p q : ascii -> bool) (s : string) :
  every p s = true -> every q s = true ->
  every (fun a => p a && q a) s = true.
Proof.
  induction s as [|a r IH]; [reflexivity|]. cbn [every].
  rewrite !andb_true_iff. intros [Ha Hr] [Ha' Hr'].
  split; [split; assumption | apply IH; assumption].
Qed.

Lemma lower_app (x y : string) :
  PyStr.lower (String.append x y)
  = String.append (PyStr.lower x) (PyStr.lower y).
Proof.
  induction x as [|a r IH]; [reflexivity|].
  change (String.append (String a r) y) with (String a (String.append r y)).
  cbn [PyStr.lower]. rewrite IH. reflexivity.
Qed.

Lemma filter_app (p : ascii -> bool) (x y : string) :
  PyStr.filter p (String.append x y)
  = String.append (PyStr.filter p x) (PyStr.filter p y).
Proof.
  induction x as [|a r IH]; [reflexivity|].
  change (String.append (String a r) y) with (String a (String.append r y)).
  cbn [PyStr.filter]. rewrite IH. destruct (p a); reflexivity.
Qed.

Lemma lower_fixed (s : string) :
  every (fun a => Ascii.eqb (PyStr.lower_char a) a) s = true -> PyStr.lower s = s.
Proof.
  induction s as [|a r IH]; [reflexivity|]. cbn [every PyStr.lower].
  rewrite andb_true_iff. intros [Ha Hr]. apply Ascii.eqb_eq in Ha.
  rewrite Ha, (IH Hr). reflexivity.
Qed.

Lemma filter_fixed (p : ascii -> bool) (s : string) :
  every p s = true -> PyStr.filter p s = s.
Proof.
  induction s as [|a r IH]; [reflexivity|]. cbn [every PyStr.filter].
  rewrite andb_true_iff. intros [Ha Hr]. rewrite Ha, (IH Hr). reflexivity.
Qed.

Lemma every_lower (s : string) :
  every (fun a => Ascii.eqb (PyStr.lower_char a) a) (PyStr.lower s) = true.
Proof.
  induction s as [|a r IH]; [reflexivity|]. cbn [every PyStr.lower].
  rewrite lower_char_idem, Ascii.eqb_refl. exact IH.
Qed.

Lemma every_filter (p : ascii -> bool) (s : string) :
  every p (PyStr.filter p s) = true.
Proof.
  induction s as [|a r IH]; [reflexivity|]. cbn [PyStr.filter].
  destruct (p a) eqn:Ha; [|exact IH]. cbn [every]. rewrite Ha. exact IH.
Qed.

Lemma every_filter_keeps (p q : ascii -> bool) (s : string) :
  every q s = true -> every q (PyStr.filter p s) = true.
Proof.
  induction s as [|a r IH]; [reflexivity|]. cbn [every PyStr.filter].
  rewrite andb_true_iff. intros [Ha Hr].
  destruct (p a); [cbn [every]; rewrite Ha|]; apply IH, Hr.
Qed.

(** ** Splitting at white space *)

(** [s] starts with a character that is not white space. *)
Definition starts_word (s : string) : bool :=
  match s with
  | EmptyString => false
  | String b _ => negb (Py.isspace b)
  end.

(** A word, as [split] gives them: not empty, no white space in it. *)
Definition word (w : string) : Prop :=
  w <> EmptyString /\ every (fun a => negb (Py.isspace a)) w = true.

Lemma split_cons (a : ascii) (r : string) :
  PyStr.split (String a r)
  = if Py.isspace a then PyStr.split r
    else if starts_word r
         then match PyStr.split r with
              | w :: ws => String a w :: ws
              | [] => [String a EmptyString]
              end
         else String a EmptyString :: PyStr.split r.
Proof.
  destruct r as [|b r']; [cbn; destruct (Py.isspace a); reflexivity|].
  cbn [PyStr.split starts_word].
  destruct (Py.isspace a); [reflexivity|].
  destruct (Py.isspace b); reflexivity.
Qed.

Lemma split_starts (r : string) :
  starts_word r = true -> exists w ws, PyStr.split r = w :: ws.
Proof.
  destruct r as [|b r']; [discriminate|]. cbn [starts_word]. intros Hb.
  apply negb_true_iff in Hb. rewrite split_cons, Hb.
  destruct (starts_word r'); [destruct (PyStr.split r')|]; eauto.
Qed.

Lemma starts_word_app (x y : string) (a : ascii) :
  Py.isspace a = true ->
  starts_word (String.append x (String a y)) = starts_word x.
Proof.
  intros Ha. destruct x as [|c x']; [|reflexivity].
  change (String.append EmptyString (String a y)) with (String a y).
  cbn [starts_word]. rewrite Ha. reflexivity.
Qed.

(** Splitting distributes over a white-space character. *)
Lemma split_app_space (x y : string) (a : ascii) :
  Py.isspace a = true ->
  PyStr.split (String.append x (String a y))
  = (PyStr.split x ++ PyStr.split y)%list.
Proof.
  intros Ha. induction x as [|c x' IH].
  - change (String.append EmptyString (String a y)) with (String a y).
    rewrite split_cons, Ha. reflexivity.
  - change (String.append (String c x') (String a y))
      with (String c (String.append x' (String a y))).
    rewrite !split_cons, (starts_word_app x' y a Ha), IH.
    destruct (Py.isspace c); [reflexivity|].
    destruct (starts_word x') eqn:Hs; [|reflexivity].
    destruct (split_starts x' Hs) as (w & ws & ->). reflexivity.
Qed.

Lemma split_word (w : string) : word w -> PyStr.split w = [w].
Proof.
  intros [Hne Hw]. induction w as [|a r IH]; [congruence|].
  cbn [every] in Hw. apply andb_true_iff in Hw. destruct Hw as [Ha Hr].
  apply negb_true_iff in Ha. rewrite split_cons, Ha.
  destruct r as [|b r']; [reflexivity|].
  assert (Hb : starts_word (String b r') = true)
    by (cbn [every] in Hr; apply andb_true_iff in Hr; apply Hr).
  rewrite Hb, IH; [reflexivity | discriminate | exact Hr].
Qed.

(** [split] inverts [" ".join] on words. *)
Lemma split_join (ws : list string) :
  Forall word ws -> PyStr.split (Py.join " " ws) = ws.
Proof.
  induction 1 as [|w ws Hw Hws IH]; [reflexivity|].
  destruct ws as [|w2 ws']; [apply split_word, Hw|].
  change (Py.join " " (w :: w2 :: ws'))
    with (String.append w (String " " (Py.join " " (w2 :: ws')))).
  rewrite split_app_space by reflexivity.
  rewrite (split_word w Hw), IH. reflexivity.
Qed.

(** What [split] gives are words, made of characters of the string. *)
Lemma split_words (p : ascii -> bool) (s : string) :
  every p s = true ->
  Forall (fun w => word w /\ every p w = true) (PyStr.split s).
Proof.
  induction s as [|a r IH]; [constructor|]. cbn [every].
  rewrite andb_true_iff. intros [Ha Hr]. specialize (IH Hr).
  rewrite split_cons. destruct (Py.isspace a) eqn:Hs; [exact IH|].
  assert (H1 : word (String a EmptyString) /\ every p (String a EmptyString) = true).
  { split; [split; [discriminate|]|]; cbn [every]; [rewrite Hs|rewrite Ha];
      reflexivity. }
  destruct (starts_word r); [|constructor; assumption].
  destruct (PyStr.split r) as [|w ws]; [constructor; [exact H1 | constructor]|].
  inversion IH as [|? ? [[Hne Hw] Hp] Hrest]; subst.
  constructor; [|exact Hrest].
  split; [split; [discriminate|]|]; cbn [every]; [rewrite Hs, Hw|rewrite Ha, Hp];
    reflexivity.
Qed.

Lemma every_join (p : ascii -> bool) (ws : list string) :
  p " "%char = true -> Forall (fun w => every p w = true) ws ->
  every p (Py.join " " ws) = true.
Proof.
  intros Hsp. induction 1 as [|w ws Hw Hws IH]; [reflexivity|].
  destruct ws as [|w2 ws']; [exact Hw|].
  change (Py.join " " (w :: w2 :: ws'))
    with (String.append w (String " " (Py.join " " (w2 :: ws')))).
  rewrite every_app, Hw. cbn [every]. rewrite Hsp. exact IH.
Qed.

(** ** The normal form *)

(** The words [_normalize_text] joins. *)
Definition words (s : string) : list string :=
  PyStr.split (PyStr.filter VisionOcr.kept (PyStr.lower s)).

(** A character of a normalised word: alphanumeric or one of [-_/.:@], not
    white space, and fixed by [lower]. *)
Definition word_char (a : ascii) : bool :=
  (PyStr.isalnum a || VisionOcr.in_whitelist a) && negb (Py.isspace a)
  && Ascii.eqb (PyStr.lower_char a) a.

Definition settled (a : ascii) : bool :=
  VisionOcr.kept a && Ascii.eqb (PyStr.lower_char a) a.

Lemma words_settled (s : string) :
  Forall (fun w => word w /\ every settled w = true) (words s).
Proof.
  apply split_words, every_and; [apply every_filter|].
  apply every_filter_keeps, every_lower.
Qed.

Lemma settled_word_char (w : string) :
  word w -> every settled w = true -> every word_char w = true.
Proof.
  intros [_ Hw] Hs.
  apply (every_weaken (fun a => negb (Py.isspace a) && settled a));
    [|apply every_and; assumption].
  intros a. unfold settled, word_char. rewrite !andb_true_iff.
  intros (Hsp & Hk & Hl). apply negb_true_iff in Hsp.
  rewrite (kept_not_space a Hk Hsp), Hsp, Hl. repeat split.
Qed.

Lemma words_normalized (s : string) :
  words (VisionOcr._normalize_text s) = words s.
Proof.
  pose proof (words_settled s) as H.
  assert (Ht : every settled (VisionOcr._normalize_text s) = true).
  { apply every_join; [reflexivity|].
    eapply List.Forall_impl; [|exact H]. intros w [_ Hw]. exact Hw. }
  unfold words at 1.
  rewrite (lower_fixed (VisionOcr._normalize_text s)),
    (filter_fixed VisionOcr.kept (VisionOcr._normalize_text s)).
  - apply split_join. eapply List.Forall_impl; [|exact H]. intros w [Hw _]. exact Hw.
  - apply (every_weaken settled); [|exact Ht].
    unfold settled. intros a Ha. apply andb_true_iff in Ha. apply Ha.
  - apply (every_weaken settled); [|exact Ht].
    unfold settled. intros a Ha. apply andb_true_iff in Ha. apply Ha.
Qed.

Lemma words_app_space (x y : string) (a : ascii) :
  Py.isspace a = true ->
  words (String.append x (String a y)) = (words x ++ words y)%list.
Proof.
  intros Ha. unfold words. rewrite lower_app, filter_app.
  cbn [PyStr.lower PyStr.filter].
  rewrite kept_lower_char, (isspace_kept a Ha).
  apply split_app_space. rewrite isspace_lower_char. exact Ha.
Qed.

Lemma words_app_dropped (x y : string) (c : ascii) :
  VisionOcr.kept c = false ->
  words (String.append x (String c y)) = words (String.append x y).
Proof.
  intros Hc. unfold words. rewrite !lower_app, !filter_app.
  cbn [PyStr.lower PyStr.filter]. rewrite kept_lower_char, Hc. reflexivity.
Qed.

Lemma words_lower (x : string) : words (PyStr.lower x) = words x.
Proof.
  unfold words. rewrite (lower_fixed (PyStr.lower x) (every_lower x)).
  reflexivity.
Qed.

(** X16. [_normalize_text] gives a normal form and is idempotent. The
    result is a list of words joined by single spaces, each word non-empty
    and made of lower-case alphanumeric characters and the characters
    [-_/.:@] only: no white space at either end, no white space but single
    spaces. Normalising a normalised text changes nothing, so [text_sha] of a
    text and of its normal form agree. *)
Theorem X16_normalize_text_normal_form :
  forall (s : string),
    let t := VisionOcr._normalize_text s in
    (exists ws,
        t = Py.join " " ws
        /\ Forall (fun w => w <> EmptyString /\ every word_char w = true) ws)
    /\ VisionOcr._normalize_text t = t
    /\ forall sha256_hex : string -> string,
         VisionOcr.text_sha sha256_hex t = VisionOcr.text_sha sha256_hex s.
Proof.
  intros s t. subst t.
  assert (Hi : VisionOcr._normalize_text (VisionOcr._normalize_text s)
               = VisionOcr._normalize_text s).
  { change (Py.join " " (words (VisionOcr._normalize_text s))
            = Py.join " " (words s)).
    rewrite words_normalized. reflexivity. }
  split; [|split; [exact Hi|]].
  - exists (words s). split; [reflexivity|].
    eapply List.Forall_impl; [|apply words_settled].
    intros w [Hw Hs]. split; [apply Hw | apply settled_word_char; assumption].
  - intros sha256_hex. unfold VisionOcr.text_sha. rewrite Hi. reflexivity.
Qed.

Lemma words_cons_space (y : string) (b : ascii) :
  Py.isspace b = true -> words (String b y) = words y.
Proof. intros Hb. apply (words_app_space EmptyString y b Hb). Qed.

(** X17. What [_normalize_text] cannot see. Two texts have the same normal
    form, hence the same [text_sha], when they differ in which white-space
    character separates two parts, in how many of them do, in white space at
    either end, in a character that is neither alphanumeric, white space nor
    one of [-_/.:@] (it is dropped before the text is split, so the parts
    around it are joined: a comma inside a number, a currency sign), or in
    the case of letters. *)
Theorem X17_normalize_text_insensitive :
  forall (x y : string) (a b c : ascii),
    Py.isspace a = true -> Py.isspace b = true -> VisionOcr.kept c = false ->
    let n := VisionOcr._normalize_text in
    n (String.append x (String a y)) = n (String.append x (String b y))
    /\ n (String.append x (String a (String b y)))
       = n (String.append x (String a y))
    /\ n (String a x) = n x
    /\ n (String.append x (String a EmptyString)) = n x
    /\ n (String.append x (String c y)) = n (String.append x y)
    /\ n (PyStr.lower x) = n x.
Proof.
  intros x y a b c Ha Hb Hc n. subst n.
  assert (Hn : forall s s', words s = words s' ->
                 VisionOcr._normalize_text s = VisionOcr._normalize_text s').
  { intros s s' H. change (Py.join " " (words s) = Py.join " " (words s')).
    rewrite H. reflexivity. }
  repeat split; apply Hn.
  - rewrite !words_app_space by assumption. reflexivity.
  - rewrite !words_app_space, words_cons_space by assumption. reflexivity.
  - apply words_cons_space, Ha.
  - rewrite words_app_space by assumption. apply app_nil_r.
  - apply words_app_dropped, Hc.
  - apply words_lower.
Qed.

(** A line break against a space, and a comma. *)
Lemma X17_witness :
  let n := VisionOcr._normalize_text in
  let nl := ascii_of_nat 10 in
  n (String.append "Head" (String nl "Coach")) = n "Head Coach"
  /\ n "50,000" = n "50000"
  /\ n "HEAD COACH" = "head coach".
Proof.
  intros n nl.
  destruct (X17_normalize_text_insensitive "Head" "Coach" nl " " ","
              eq_refl eq_refl eq_refl) as (H1 & _).
  destruct (X17_normalize_text_insensitive "50" "000" nl " " ","
              eq_refl eq_refl eq_refl) as (_ & _ & _ & _ & H5 & _).
  split; [exact H1|]. split; [exact H5|]. vm_compute. reflexivity.
Defined.

(** X18. The router is blind to changes the normal form hides. When the
    stored digest is [text_sha] of an earlier text with the same normal form
    as the text just read, and that text is not blank, long enough and
    confident enough, [_needs_escalation] answers [False]: a page whose text
    changed only in case, white space or dropped characters is taken as
    unchanged. *)
Theorem X18_unchanged_up_to_normal_form :
  forall (sha256_hex : string -> string) (cfg : VisionRouter.RouterConfig)
         (o : OCRText) (before : string),
    VisionOcr._normalize_text (text o) = VisionOcr._normalize_text before ->
    Py.all_space (text o) = false ->
    VisionRouter.min_chars_for_confidence cfg <= Py.len (text o) ->
    PrimFloat.ltb (confidence o) (VisionRouter.min_confidence cfg) = false ->
    VisionRouter._needs_escalation (VisionOcr.text_sha sha256_hex) cfg o
      (VisionOcr.text_sha sha256_hex before) = false.
Proof.
  intros sha256_hex cfg o before Hn Hs Hl Hc.
  destruct (VisionRouter._needs_escalation _ cfg o _) eqn:E; [|reflexivity].
  apply needs_escalation_iff in E.
  destruct E as [E|[E|[E|[_ E]]]]; [congruence | lia | congruence |].
  exfalso. apply E. unfold VisionOcr.text_sha. rewrite Hn. reflexivity.
Qed.

(** The price loses its comma and the title its capitals. *)
Lemma X18_witness :
  let o := {| text := "HEAD COACH  $50,000"; confidence := 0.9%float;
              model := "paddle"; extra_lines := 1%nat |} in
  VisionRouter._needs_escalation (VisionOcr.text_sha Scenario.text_sha)
    (Scenario.small_config true false true) o
    (VisionOcr.text_sha Scenario.text_sha "head coach 5000,0") = false.
Proof.
  intros o.
  apply (X18_unchanged_up_to_normal_form Scenario.text_sha
           (Scenario.small_config true false true) o "head coach 5000,0").
  - vm_compute. reflexivity.
  - reflexivity.
  - vm_compute. discriminate.
  - vm_compute. reflexivity.
Defined.

(** * Beyond the claims: what the clients hand to the router *)

Lemma rstrip_idem (s : string) : Py.rstrip (Py.rstrip s) = Py.rstrip s.
Proof.
  induction s as [|a r IH]; [reflexivity|]. cbn [Py.rstrip].
  destruct (Py.rstrip r) as [|b r'] eqn:Hr.
  - destruct (Py.isspace a) eqn:Ha; [reflexivity|].
    cbn [Py.rstrip]. rewrite Ha. reflexivity.
  - change (Py.rstrip (String a (String b r')))
      with (match Py.rstrip (String b r') with
            | EmptyString =>
                if Py.isspace a then EmptyString else String a EmptyString
            | String c t => String a (String c t)
            end).
    rewrite IH. reflexivity.
Qed.

Lemma lstrip_rstrip_lstrip (s : string) :
  Py.lstrip (Py.rstrip (Py.lstrip s)) = Py.rstrip (Py.lstrip s).
Proof.
  destruct (Py.all_space s) eqn:Hs.
  - rewrite (lstrip_all_space s Hs). reflexivity.
  - destruct (lstrip_not_all_space s Hs) as (a & r & -> & Ha).
    cbn [Py.rstrip].
    destruct (Py.rstrip r); rewrite ?Ha; cbn [Py.lstrip]; rewrite Ha;
      reflexivity.
Qed.

(** [s.strip().strip()] is [s.strip()]. *)
Lemma strip_idem (s : string) : Py.strip (Py.strip s) = Py.strip s.
Proof.
  unfold Py.strip. rewrite lstrip_rstrip_lstrip. apply rstrip_idem.
Qed.

(** X19. The text a client returns is stripped, and a blank reading always
    escalates. [PaddleClient.run] and [AzureVisionClient.run] return a text
    with no white space at either end. For such a text the first test of
    [_needs_escalation] fires exactly when the text is empty, and then the
    answer is [True] whatever the thresholds, the confidence and the stored
    digest: a detector that reads nothing, or white space only, never settles
    a page. *)
Theorem X19_client_text_is_stripped :
  (forall r : PaddleClient.result,
      Py.strip (text (PaddleClient.build r)) = text (PaddleClient.build r))
  /\ (forall d : AzureVisionClient.data,
        Py.strip (text (AzureVisionClient.build d))
        = text (AzureVisionClient.build d))
  /\ (forall (o : OCRText),
        Py.strip (text o) = text o ->
        (Py.all_space (text o) = true <-> text o = EmptyString)
        /\ (text o = EmptyString ->
            forall (text_sha : string -> string)
                   (cfg : VisionRouter.RouterConfig) (prev : string),
              VisionRouter._needs_escalation text_sha cfg o prev = true)).
Proof.
  split; [|split].
  - intros r. unfold PaddleClient.build.
    destruct (PaddleClient.collect r) as [lines confs]. apply strip_idem.
  - intros d. unfold AzureVisionClient.build.
    destruct (AzureVisionClient.collect d) as [lines confs]. apply strip_idem.
  - intros o Ho. split.
    + pose proof (strip_truthy (text o)) as H. rewrite Ho in H.
      destruct (text o); simpl in *; split; intros H'; try reflexivity;
        try discriminate. rewrite H' in H. discriminate H.
    + intros He text_sha cfg prev. apply needs_escalation_iff. left.
      rewrite He. reflexivity.
Qed.

(** An entry of white space only, read with confidence 0.99: the text is
    empty and the page goes on to the next tier under every configuration. *)
Lemma X19_witness :
  let o := PaddleClient.build (Some [Some [Some (Some ("  ", 0.99%float))]]) in
  text o = EmptyString
  /\ confidence o = 0.99%float
  /\ forall (text_sha : string -> string) (cfg : VisionRouter.RouterConfig)
            (prev : string),
       VisionRouter._needs_escalation text_sha cfg o prev = true.
Proof.
  intros o.
  destruct X19_client_text_is_stripped as (Hp & _ & H).
  destruct (H o (Hp _)) as (_ & Hesc).
  split; [reflexivity|]. split; [reflexivity|]. apply Hesc. reflexivity.
Defined.
